(** * BuildKite build-metrics aggregator: fetch, cache and weekly/daily reduction

    A shallow embedding of the Go handlers of the dashboard backend
    ([buildkite.go], [buildkite_optimized.go] and the cached variant that
    defines [getCachedBuilds] and [kpiBuildkiteCombinedAll]) together with the
    helpers [parseTime] and [weekKey].

    Go values are modelled as follows.
    - [int], [int64] and [time.Duration] are [Z]; the one place where the
      64-bit range matters ([Time.Sub], which saturates) writes it out.
    - [float64] is Rocq's primitive binary64 [float], so sums, quotients and
      percentages are computed exactly as the handlers compute them.
    - [string] is [string] (a byte sequence); Go's [<] on strings and
      [sort.Strings] use the bytewise lexicographic order [String.le].
    - [map[string]T] is [gmap string T]; ranging over a map and sorting the
      keys is [merge_sort] over the elements of its domain.
    - [time.Time] is an instant (seconds and nanoseconds since the Unix epoch)
      with a fixed zone offset; the calendar functions follow the proleptic
      Gregorian calendar as Go's [time] package computes it. *)

From Stdlib Require Import ZArith Lia Bool List Ascii.
From Stdlib Require Import Floats.PrimFloat Numbers.Cyclic.Int63.Uint63.
From stdpp Require Import gmap strings list sorting.

Local Open Scope Z_scope.

(** ** Go's [time] package *)

Module GoTime.

(** A [time.Time] without monotonic reading: [unixSec] seconds and [nsec]
    nanoseconds since 1970-01-01T00:00:00Z, shown in the zone [offset]
    seconds east of UTC. *)
Record Time := mkTime { unixSec : Z; nsec : Z; offset : Z }.

Definition Duration := Z.

Definition Nanosecond : Duration := 1.
Definition Second : Duration := 1000000000.
Definition Minute : Duration := 60 * Second.
Definition maxDuration : Duration := 2 ^ 63 - 1.
Definition minDuration : Duration := - 2 ^ 63.

(** [t.After(u)]: [ts > us || ts == us && t.nsec() > u.nsec()]. *)
Definition After (t u : Time) : bool :=
  (unixSec u <? unixSec t) || ((unixSec t =? unixSec u) && (nsec u <? nsec t)).

(** [t.Before(u)]. *)
Definition Before (t u : Time) : bool :=
  (unixSec t <? unixSec u) || ((unixSec t =? unixSec u) && (nsec t <? nsec u)).

(** [t.Sub(u)]: the difference in nanoseconds, saturated to the [int64]
    range of [Duration]. *)
Definition Sub (t u : Time) : Duration :=
  let d := (unixSec t - unixSec u) * Second + (nsec t - nsec u) in
  if (minDuration <=? d) && (d <=? maxDuration) then d
  else if Before t u then minDuration else maxDuration.

(** [float64(x)] for an [int64] of magnitude below [2^63]. *)
Definition float64_of_int (x : Z) : float :=
  if x <? 0 then PrimFloat.opp (PrimFloat.of_uint63 (Uint63.of_Z (- x)))
  else PrimFloat.of_uint63 (Uint63.of_Z x).

(** [d.Minutes()]:
    [min := d / Minute; nsec := d % Minute;
     return float64(min) + float64(nsec)/(60*1e9)]. *)
Definition Minutes (d : Duration) : float :=
  PrimFloat.add (float64_of_int (Z.quot d Minute))
                (PrimFloat.div (float64_of_int (Z.rem d Minute))
                               (float64_of_int 60000000000)).

(** *** Calendar *)

Definition secondsPerDay : Z := 86400.

(** Seconds from 0001-01-01T00:00:00Z to the Unix epoch. *)
Definition unixToInternal : Z := 62135596800.

(** Seconds since 0001-01-01T00:00:00 on the wall clock of the zone. *)
Definition abs (t : Time) : Z := unixSec t + offset t + unixToInternal.

(** Days since 0001-01-01 on the wall clock of the zone. *)
Definition absDays (t : Time) : Z := abs t / secondsPerDay.

Definition isLeap (y : Z) : bool :=
  (y mod 4 =? 0) && (negb (y mod 100 =? 0) || (y mod 400 =? 0)).

Definition daysIn (y : Z) : Z := if isLeap y then 366 else 365.

(** Days from 0001-01-01 to January 1st of year [y]. *)
Definition daysBeforeYear (y : Z) : Z :=
  365 * (y - 1) + (y - 1) / 4 - (y - 1) / 100 + (y - 1) / 400.

(** [absDate]: year and zero-based day of the year of a day number, by
    400-, 100-, 4- and 1-year cycles. *)
Definition absDate (d : Z) : Z * Z :=
  let n400 := d / 146097 in
  let d1 := d - 146097 * n400 in
  let n100 := d1 / 36524 in
  let n100 := n100 - n100 / 4 in
  let d2 := d1 - 36524 * n100 in
  let n4 := d2 / 1461 in
  let d3 := d2 - 1461 * n4 in
  let n := d3 / 365 in
  let n := n - n / 4 in
  let d4 := d3 - 365 * n in
  (1 + 400 * n400 + 100 * n100 + 4 * n4 + n, d4).

(** Days of the year before month [m] ([1..12]; [13] is the year's end). *)
Definition daysBeforeMonth (leap : bool) (m : Z) : Z :=
  let l := if leap then 1 else 0 in
  if m <=? 1 then 0
  else if m =? 2 then 31
  else if m =? 3 then 59 + l
  else if m =? 4 then 90 + l
  else if m =? 5 then 120 + l
  else if m =? 6 then 151 + l
  else if m =? 7 then 181 + l
  else if m =? 8 then 212 + l
  else if m =? 9 then 243 + l
  else if m =? 10 then 273 + l
  else if m =? 11 then 304 + l
  else if m =? 12 then 334 + l
  else 365 + l.

(** Month ([1..12]) and day of the month ([1..31]) of a zero-based day of
    the year. *)
Definition monthDay (leap : bool) (yday : Z) : Z * Z :=
  let before := daysBeforeMonth leap in
  let m :=
    if yday <? before 2 then 1
    else if yday <? before 3 then 2
    else if yday <? before 4 then 3
    else if yday <? before 5 then 4
    else if yday <? before 6 then 5
    else if yday <? before 7 then 6
    else if yday <? before 8 then 7
    else if yday <? before 9 then 8
    else if yday <? before 10 then 9
    else if yday <? before 11 then 10
    else if yday <? before 12 then 11
    else 12 in
  (m, yday - before m + 1).

(** [t.Date()]. *)
Definition date (t : Time) : Z * Z * Z :=
  let '(y, yd) := absDate (absDays t) in
  let '(m, d) := monthDay (isLeap y) yd in
  (y, m, d).

(** [t.Clock()]. *)
Definition clock (t : Time) : Z * Z * Z :=
  let s := abs t mod secondsPerDay in
  (s / 3600, (s mod 3600) / 60, s mod 60).

(** [t.Weekday()], Sunday = 0; 0001-01-01 is a Monday. *)
Definition absWeekday (d : Z) : Z := (d + 1) mod 7.

(** [t.ISOWeek()]: the ISO 8601 year and week number, read off the
    Thursday of the Monday-to-Sunday week of [t]. *)
Definition ISOWeek (t : Time) : Z * Z :=
  let d := absDays t in
  let delta := 4 - absWeekday d in
  let delta := if delta =? 4 then -3 else delta in
  let '(y, yd) := absDate (d + delta) in
  (y, yd / 7 + 1).

(** [time.Date(year, month, day, hour, min, sec, nsec, loc)] for a
    fixed-offset zone: months are normalised into the year, the other
    fields overflow linearly. *)
Definition Date (y m d h mi s ns off : Z) : Time :=
  let y' := y + (m - 1) / 12 in
  let m' := (m - 1) mod 12 + 1 in
  let days := daysBeforeYear y' + daysBeforeMonth (isLeap y') m' + d - 1 in
  let a := days * secondsPerDay + h * 3600 + mi * 60 + s + ns / 1000000000 in
  mkTime (a - unixToInternal - off) (ns mod 1000000000) off.

(** [t.AddDate(years, months, days)]. *)
Definition AddDate (t : Time) (years months days : Z) : Time :=
  let '(y, m, d) := date t in
  let '(h, mi, s) := clock t in
  Date (y + years) (m + months) (d + days) h mi s (nsec t) (offset t).

End GoTime.

(** ** Go's number formatting *)

Module GoFmt.

(** The byte ['0' + d]. *)
Definition digit (d : Z) : ascii := ascii_of_N (48 + Z.to_N d).

(** Decimal digits of a non-negative number, most significant first. *)
Fixpoint decimal_fuel (fuel : nat) (u : Z) : string :=
  match fuel with
  | O => ""
  | S f =>
      if u <? 10 then String (digit u) ""
      else decimal_fuel f (u / 10) +:+ String (digit (u mod 10)) ""
  end.

Definition decimal (u : Z) : string :=
  decimal_fuel (S (Z.to_nat (Z.log2 u))) u.

Fixpoint zeros (n : nat) : string :=
  match n with
  | O => ""
  | S k => String "0"%char (zeros k)
  end.

(** [time.appendInt(b, x, width)]: a minus sign for a negative [x], then
    the digits of its magnitude zero-padded to [width] digits. *)
Definition appendInt (x : Z) (width : nat) : string :=
  let ds := decimal (Z.abs x) in
  (if x <? 0 then "-" else "") +:+ zeros (width - String.length ds) +:+ ds.

(** The verb [%d] of [fmt.Sprintf]. *)
Definition fmt_d (x : Z) : string :=
  (if x <? 0 then "-" else "") +:+ decimal (Z.abs x).

(** The verb [%0wd] of [fmt.Sprintf]: zero padding to [width] characters,
    the sign included. *)
Definition fmt_0d (width : nat) (x : Z) : string :=
  let ds := decimal (Z.abs x) in
  if x <? 0 then "-" +:+ zeros (width - 1 - String.length ds) +:+ ds
  else zeros (width - String.length ds) +:+ ds.

(** [w] decimal digits of [n], least significant last; the fixed-width
    rendering the padded verbs produce on numbers below [10^w]. *)
Fixpoint zpad (w : nat) (n : Z) : string :=
  match w with
  | O => ""
  | S k => zpad k (n / 10) +:+ String (digit (n mod 10)) ""
  end.

End GoFmt.

Import GoTime.

(** ** Bucket keys *)

(** [weekKey]: [year, week := t.ISOWeek(); fmt.Sprintf("%d-W%02d", year, week)]. *)
Definition weekKey (t : Time) : string :=
  let '(year, week) := ISOWeek t in
  GoFmt.fmt_d year +:+ "-W" +:+ GoFmt.fmt_0d 2 week.

(** [dayKey]: [t.Format("2006-01-02")]. *)
Definition dayKey (t : Time) : string :=
  let '(y, m, d) := date t in
  GoFmt.appendInt y 4 +:+ "-" +:+ GoFmt.appendInt m 2 +:+ "-" +:+ GoFmt.appendInt d 2.

(** ** Library functions taken as an interface

    [time.Parse], [strings.ToLower] and [strings.TrimSpace] are not decided by
    this development: every general statement below holds for any behaviour
    of these three functions. *)

Class GoLib := {
  (** [time.Parse(layout, s)]: [Some t] when the returned error is nil. *)
  time_Parse : string -> string -> option Time;
  strings_ToLower : string -> string;
  strings_TrimSpace : string -> string
}.

Definition RFC3339 : string := "2006-01-02T15:04:05Z07:00".

(** ** [buildkite.go]: configuration and records *)

Definition buildkiteMaxPages : Z := 10.
Definition buildkitePerPage : Z := 100.

Record PipelineInfo := mkPipeline { Slug : string; Name : string }.

Record BuildkiteBuild := mkBuild {
  ID : string;
  Number : Z;
  State : string;
  StartedAt : string;
  FinishedAt : string;
  CreatedAt : string;
  ScheduledAt : string;
  Pipeline : PipelineInfo;
  Branch : string;
  Commit : string;
  Message : string
}.

(** The process environment as far as [buildkiteConfig] reads it. *)
Record Env := mkEnv { BUILDKITE_TOKEN : string; BUILDKITE_ORG : string }.

Section Handlers.

Context `{GoLib}.

Definition buildkiteConfig (env : Env) : option (string * string) :=
  let token := strings_TrimSpace (BUILDKITE_TOKEN env) in
  let org := strings_TrimSpace (BUILDKITE_ORG env) in
  if String.eqb token "" || String.eqb org "" then None
  else Some (token, org).

Definition buildkiteConfigMissing (env : Env) : list string :=
  (if String.eqb (strings_TrimSpace (BUILDKITE_TOKEN env)) ""
   then ["BUILDKITE_TOKEN"] else []) ++
  (if String.eqb (strings_TrimSpace (BUILDKITE_ORG env)) ""
   then ["BUILDKITE_ORG"] else []).

(** [parseTime]: RFC 3339 first, then the layout with milliseconds and a
    numeric zone. *)
Definition parseTime (s : string) : option Time :=
  if String.eqb s "" then None
  else match time_Parse RFC3339 s with
       | Some t => Some t
       | None => time_Parse "2006-01-02T15:04:05.000-0700" s
       end.

Definition isDeploymentPipeline (build : BuildkiteBuild) : bool :=
  String.eqb (strings_ToLower (Slug (Pipeline build)))
             "core-stack-deployment-pipeline-legacy".

(** *** Buckets

    [durations], [passed] and [failed] are the three maps of one
    granularity ([weekDurations], [weekPassed], [weekFailed] or their
    [day] counterparts) with the three running counters next to them. *)
Record Buckets := mkBuckets {
  durations : gmap string (list float);
  passed : gmap string Z;
  failed : gmap string Z;
  deploymentCount : Z;
  passedCount : Z;
  failedCount : Z
}.

Definition emptyBuckets : Buckets := mkBuckets ∅ ∅ ∅ 0 0 0.

(** [m[k] = append(m[k], x)]. *)
Definition map_append (k : string) (x : float)
    (m : gmap string (list float)) : gmap string (list float) :=
  <[k := default [] (m !! k) ++ [x]]> m.

(** [m[k]++]. *)
Definition map_incr (k : string) (m : gmap string Z) : gmap string Z :=
  <[k := default 0 (m !! k) + 1]> m.

(** The per-build block that the handlers repeat for each granularity:
<<
    count++
    if build.State == "passed" {
        startedAt, okStart := parseTime(build.StartedAt)
        if okStart && finishedAt.After(startedAt) {
            durationMinutes := finishedAt.Sub(startedAt).Minutes()
            durations[key] = append(durations[key], durationMinutes)
        }
        passed[key]++ ; passedCount++
    }
    if build.State == "failed" { failed[key]++ ; failedCount++ }
>> *)
Definition record (build : BuildkiteBuild) (finishedAt : Time) (key : string)
    (b : Buckets) : Buckets :=
  let b := mkBuckets (durations b) (passed b) (failed b)
                     (deploymentCount b + 1) (passedCount b) (failedCount b) in
  let b :=
    if String.eqb (State build) "passed" then
      let ds :=
        match parseTime (StartedAt build) with
        | Some startedAt =>
            if After finishedAt startedAt
            then map_append key (Minutes (Sub finishedAt startedAt)) (durations b)
            else durations b
        | None => durations b
        end in
      mkBuckets ds (map_incr key (passed b)) (failed b)
                (deploymentCount b) (passedCount b + 1) (failedCount b)
    else b in
  if String.eqb (State build) "failed" then
    mkBuckets (durations b) (passed b) (map_incr key (failed b))
              (deploymentCount b) (passedCount b) (failedCount b + 1)
  else b.

(** The loop body of [kpiBuildkiteCombined] ([key = weekKey]) and of
    [kpiBuildkiteCombinedDaily] ([key = dayKey]). *)
Definition combined_step (key : Time -> string) (b : Buckets)
    (build : BuildkiteBuild) : Buckets :=
  if negb (isDeploymentPipeline build) then b
  else match parseTime (FinishedAt build) with
       | None => b
       | Some finishedAt => record build finishedAt (key finishedAt) b
       end.

Definition combined_loop (key : Time -> string)
    (builds : list BuildkiteBuild) : Buckets :=
  fold_left (combined_step key) builds emptyBuckets.

(** The loop body of [kpiBuildkiteCombinedAll]: one pass fills the weekly
    buckets and, for builds finished after [thirtyDaysAgo], the daily
    ones. *)
Definition combinedAll_step (thirtyDaysAgo : Time) (acc : Buckets * Buckets)
    (build : BuildkiteBuild) : Buckets * Buckets :=
  if negb (isDeploymentPipeline build) then acc
  else match parseTime (FinishedAt build) with
       | None => acc
       | Some finishedAt =>
           let week := weekKey finishedAt in
           let day := dayKey finishedAt in
           let w := record build finishedAt week (fst acc) in
           let d := if After finishedAt thirtyDaysAgo
                    then record build finishedAt day (snd acc)
                    else snd acc in
           (w, d)
       end.

Definition combinedAll_loop (thirtyDaysAgo : Time)
    (builds : list BuildkiteBuild) : Buckets * Buckets :=
  fold_left (combinedAll_step thirtyDaysAgo) builds (emptyBuckets, emptyBuckets).

(** *** Series *)

(** [for k := range m { keys = append(keys, k) }; sort.Strings(keys)]. *)
Definition sortedKeys (ks : gset string) : list string :=
  merge_sort String.le (elements ks).

(** [var sum float64; for _, d := range durations { sum += d }]. *)
Definition fsum (ds : list float) : float :=
  fold_left PrimFloat.add ds PrimFloat.zero.

Definition float64_of_len {A} (l : list A) : float :=
  float64_of_int (Z.of_nat (length l)).

(** One slot of [avgDurations]: zero-initialised, overwritten when the
    week has durations. *)
Definition average (ds : list float) : float :=
  if (0 <? Z.of_nat (length ds))
  then PrimFloat.div (fsum ds) (float64_of_len ds)
  else PrimFloat.zero.

(** One slot of [failureRates]. *)
Definition failureRate (passed failed : Z) : float :=
  let total := passed + failed in
  if 0 <? total
  then PrimFloat.mul (PrimFloat.div (float64_of_int failed) (float64_of_int total))
                     (float64_of_int 100)
  else PrimFloat.zero.

Record DeploymentTime := mkDeploymentTime {
  dt_keys : list string;             (* "weeks" or "days" *)
  avg_duration_mins : list float
}.

Record FailureRate := mkFailureRate {
  fr_keys : list string;             (* "weeks" or "days" *)
  failure_rate : list float;
  fr_passed : list Z;
  fr_failed : list Z
}.

Record Series := mkSeries {
  deployment_time : DeploymentTime;
  failure_rates : FailureRate
}.

Definition deploymentTimeOf (b : Buckets) : DeploymentTime :=
  let keysWithDurations := sortedKeys (dom (durations b)) in
  mkDeploymentTime keysWithDurations
    (map (fun w => average (default [] (durations b !! w))) keysWithDurations).

Definition failureRateOf (b : Buckets) : FailureRate :=
  let keysMap : gset string := dom (passed b) ∪ dom (failed b) in
  let keysForFailureRate := sortedKeys keysMap in
  let p w := default 0 (passed b !! w) in
  let f w := default 0 (failed b !! w) in
  mkFailureRate keysForFailureRate
    (map (fun w => failureRate (p w) (f w)) keysForFailureRate)
    (map p keysForFailureRate)
    (map f keysForFailureRate).

Definition seriesOf (b : Buckets) : Series :=
  mkSeries (deploymentTimeOf b) (failureRateOf b).

(** *** The world the handlers run in

    The only shared mutable state of the program is [buildkiteCache]; the
    count of HTTP requests sent to the BuildKite API is kept next to it so
    that statements can speak about refetching. *)

Record BuildKiteCacheData := mkCacheData {
  Builds : list BuildkiteBuild;
  FetchedAt : Time
}.

Record World := mkWorld {
  buildkiteCache : option BuildKiteCacheData;
  requestsSent : Z
}.

(** A Go pair [(value, error)] with exactly one side set. *)
Inductive result (A : Type) : Type :=
| Ok (a : A)
| Err (e : string).
Global Arguments Ok {A} a.
Global Arguments Err {A} e.

Definition M (A : Type) : Type := World -> A * World.

Definition ret {A} (a : A) : M A := fun w => (a, w).

Definition bind {A B} (m : M A) (k : A -> M B) : M B :=
  fun w => let '(a, w') := m w in k a w'.

Notation "'do' x <- m ; k" := (bind m (fun x => k))
  (at level 20, x name, m at level 100, k at level 200).

Fixpoint mapM {A B} (f : A -> M B) (l : list A) : M (list B) :=
  match l with
  | [] => ret []
  | a :: rest => do b <- f a ; do bs <- mapM f rest ; ret (b :: bs)
  end.

(** The BuildKite API and the scheduler, as seen by one request.
    [respond pipeline createdFrom page] is the outcome of the GET for that
    page: the decoded builds of a 200 response, or the error of a failed
    transport, of a non-200 status or of a malformed body.
    [arrival pipeline] is the order in which the results of the page
    goroutines reach the [results] channel. *)
Record Upstream := mkUpstream {
  respond : string -> Time -> Z -> result (list BuildkiteBuild);
  arrival : string -> list Z
}.

(** Every goroutine of pages [2..buildkiteMaxPages] delivers one result. *)
Definition fair (up : Upstream) : Prop :=
  forall pipeline, arrival up pipeline ≡ₚ seqZ 2 (buildkiteMaxPages - 1).

Definition httpGet (up : Upstream) (pipeline : string) (createdFrom : Time)
    (page : Z) : M (result (list BuildkiteBuild)) :=
  fun w => (respond up pipeline createdFrom page,
            mkWorld (buildkiteCache w) (requestsSent w + 1)).

Definition len {A} (l : list A) : Z := Z.of_nat (length l).

(** *** [buildkite.go]: sequential fetch and the deployment-time handler *)

Fixpoint fetchBuilds_loop (up : Upstream) (createdFrom : Time)
    (pages : list Z) (allBuilds : list BuildkiteBuild)
    : M (result (list BuildkiteBuild)) :=
  match pages with
  | [] => ret (Ok allBuilds)
  | page :: rest =>
      do r <- httpGet up "core-stack-deployment-pipeline-legacy" createdFrom page ;
      match r with
      | Err e => ret (Err e)
      | Ok builds =>
          if len builds =? 0 then ret (Ok allBuilds)
          else
            let allBuilds := allBuilds ++ builds in
            if len builds <? buildkitePerPage then ret (Ok allBuilds)
            else fetchBuilds_loop up createdFrom rest allBuilds
      end
  end.

(** [fetchBuilds]: pages [1..buildkiteMaxPages] one after the other. *)
Definition fetchBuilds (up : Upstream) (createdFrom : Time)
    : M (result (list BuildkiteBuild)) :=
  fetchBuilds_loop up createdFrom (seqZ 1 buildkiteMaxPages) [].

Inductive Response (Body : Type) : Type :=
| ServiceUnavailable (missing : list string)   (* 503, not configured *)
| BadGateway (error : string)                  (* 502 *)
| StatusOK (body : Body).                      (* 200 *)
Global Arguments ServiceUnavailable {Body} missing.
Global Arguments BadGateway {Body} error.
Global Arguments StatusOK {Body} body.

(** The loop of [kpiBuildkiteDeploymentTime]. *)
Definition deploymentTime_step (acc : gmap string (list float) * Z)
    (build : BuildkiteBuild) : gmap string (list float) * Z :=
  if negb (String.eqb (State build) "passed") then acc
  else if negb (isDeploymentPipeline build) then acc
  else
    match parseTime (StartedAt build), parseTime (FinishedAt build) with
    | Some startedAt, Some finishedAt =>
        if Before finishedAt startedAt then acc
        else
          let durationMinutes := Minutes (Sub finishedAt startedAt) in
          let week := weekKey finishedAt in
          (map_append week durationMinutes (fst acc), snd acc + 1)
    | _, _ => acc
    end.

Record DeploymentTimeBody := mkDeploymentTimeBody {
  dtb_series : DeploymentTime;
  dtb_total_builds : Z;
  dtb_deployment_builds : Z
}.

Definition deploymentTime_body (builds : list BuildkiteBuild) : DeploymentTimeBody :=
  let '(weekDurations, deploymentCount) :=
    fold_left deploymentTime_step builds (∅, 0) in
  let weeks := sortedKeys (dom weekDurations) in
  let avgDurations :=
    map (fun w => let durations := default [] (weekDurations !! w) in
                  PrimFloat.div (fsum durations) (float64_of_len durations))
        weeks in
  mkDeploymentTimeBody (mkDeploymentTime weeks avgDurations)
                       (len builds) deploymentCount.

Definition kpiBuildkiteDeploymentTime (env : Env) (now : Time) (up : Upstream)
    : M (Response DeploymentTimeBody) :=
  match buildkiteConfig env with
  | None => ret (ServiceUnavailable (buildkiteConfigMissing env))
  | Some _ =>
      let threeMonthsAgo := AddDate now 0 (-3) 0 in
      do r <- fetchBuilds up threeMonthsAgo ;
      match r with
      | Err e => ret (BadGateway ("Failed to fetch builds: " +:+ e))
      | Ok builds => ret (StatusOK (deploymentTime_body builds))
      end
  end.

(** The loop of [kpiBuildkiteDeploymentFailureRate]. *)
Definition deploymentFailureRate_step (acc : gmap string Z * gmap string Z * Z)
    (build : BuildkiteBuild) : gmap string Z * gmap string Z * Z :=
  let '(weekPassed, weekFailed, deploymentCount) := acc in
  if negb (isDeploymentPipeline build) then acc
  else if negb (String.eqb (State build) "passed")
          && negb (String.eqb (State build) "failed") then acc
  else
    match parseTime (FinishedAt build) with
    | None => acc
    | Some finishedAt =>
        let week := weekKey finishedAt in
        if String.eqb (State build) "passed"
        then (map_incr week weekPassed, weekFailed, deploymentCount + 1)
        else if String.eqb (State build) "failed"
        then (weekPassed, map_incr week weekFailed, deploymentCount + 1)
        else (weekPassed, weekFailed, deploymentCount + 1)
    end.

Record FailureRateBody := mkFailureRateBody {
  frb_series : FailureRate;
  frb_total_builds : Z;
  frb_deployment_builds : Z
}.

Definition deploymentFailureRate_body (builds : list BuildkiteBuild)
    : FailureRateBody :=
  let '(weekPassed, weekFailed, deploymentCount) :=
    fold_left deploymentFailureRate_step builds (∅, ∅, 0) in
  let weeksMap : gset string := dom weekPassed ∪ dom weekFailed in
  let weeks := sortedKeys weeksMap in
  let passedOf w := default 0 (weekPassed !! w) in
  let failedOf w := default 0 (weekFailed !! w) in
  let failureRates :=
    map (fun w =>
           let total := passedOf w + failedOf w in
           if 0 <? total
           then PrimFloat.mul (PrimFloat.div (float64_of_int (failedOf w))
                                             (float64_of_int total))
                              (float64_of_int 100)
           else PrimFloat.zero)
        weeks in
  mkFailureRateBody
    (mkFailureRate weeks failureRates (map passedOf weeks) (map failedOf weeks))
    (len builds) deploymentCount.

Definition kpiBuildkiteDeploymentFailureRate (env : Env) (now : Time)
    (up : Upstream) : M (Response FailureRateBody) :=
  match buildkiteConfig env with
  | None => ret (ServiceUnavailable (buildkiteConfigMissing env))
  | Some _ =>
      let threeMonthsAgo := AddDate now 0 (-3) 0 in
      do r <- fetchBuilds up threeMonthsAgo ;
      match r with
      | Err e => ret (BadGateway ("Failed to fetch builds: " +:+ e))
      | Ok builds => ret (StatusOK (deploymentFailureRate_body builds))
      end
  end.

(** *** [buildkite_optimized.go]: parallel pagination *)

Record pageResult := mkPageResult {
  page : Z;
  builds : list BuildkiteBuild;
  err : option string
}.

(** What the goroutine of [pageNum] sends on [results]:
    [pageResult{page: pageNum, err: err}] or
    [pageResult{page: pageNum, builds: builds}]. *)
Definition pageResultOf (pageNum : Z) (r : result (list BuildkiteBuild)) : pageResult :=
  match r with
  | Err e => mkPageResult pageNum [] (Some e)
  | Ok builds => mkPageResult pageNum builds None
  end.

Definition fetchPage (up : Upstream) (pipeline : string) (createdFrom : Time)
    (pageNum : Z) : M pageResult :=
  do r <- httpGet up pipeline createdFrom pageNum ;
  ret (pageResultOf pageNum r).

(** [for res := range results]: a failed page is logged and skipped, the
    first empty page leaves the loop, any other page is stored under its
    page number. *)
Fixpoint collect (results : list pageResult)
    (allBuilds : gmap Z (list BuildkiteBuild)) : gmap Z (list BuildkiteBuild) :=
  match results with
  | [] => allBuilds
  | res :: rest =>
      match err res with
      | Some _ => collect rest allBuilds
      | None =>
          if len (builds res) =? 0 then allBuilds
          else collect rest (<[page res := builds res]> allBuilds)
      end
  end.

(** [for page := 1; page <= totalPages; page++]: append the stored pages
    in page order. *)
Definition combinePages (allBuilds : gmap Z (list BuildkiteBuild))
    (totalPages : Z) : list BuildkiteBuild :=
  flat_map (fun page => default [] (allBuilds !! page)) (seqZ 1 totalPages).

Definition fetchBuildsFromPipeline (up : Upstream) (pipeline : string)
    (createdFrom : Time) : M (result (list BuildkiteBuild)) :=
  do r <- httpGet up pipeline createdFrom 1 ;
  match r with
  | Err e => ret (Err e)
  | Ok firstPageBuilds =>
      if len firstPageBuilds <? buildkitePerPage then ret (Ok firstPageBuilds)
      else
        let totalPages :=
          if len firstPageBuilds <? buildkitePerPage then 1
          else buildkiteMaxPages in
        do results <- mapM (fetchPage up pipeline createdFrom) (arrival up pipeline) ;
        let allBuilds := collect results {[1 := firstPageBuilds]} in
        ret (Ok (combinePages allBuilds totalPages))
  end.

Definition pipelines : list string :=
  ["core-stack-deployment-pipeline"; "core-stack-deployment-pipeline-legacy"].

Fixpoint fetchBuildsParallel_loop (up : Upstream) (createdFrom : Time)
    (ps : list string) (allBuilds : list BuildkiteBuild)
    : M (list BuildkiteBuild) :=
  match ps with
  | [] => ret allBuilds
  | pipeline :: rest =>
      do r <- fetchBuildsFromPipeline up pipeline createdFrom ;
      match r with
      | Err _ => fetchBuildsParallel_loop up createdFrom rest allBuilds
      | Ok builds =>
          fetchBuildsParallel_loop up createdFrom rest (allBuilds ++ builds)
      end
  end.

(** [fetchBuildsParallel]: the error of a pipeline is logged and the loop
    continues; the function ends in [return allBuilds, nil]. *)
Definition fetchBuildsParallel (up : Upstream) (createdFrom : Time)
    : M (result (list BuildkiteBuild)) :=
  do allBuilds <- fetchBuildsParallel_loop up createdFrom pipelines [] ;
  ret (Ok allBuilds).

(** *** The cache *)

Definition buildkiteCacheTTL : Duration := 5 * Minute.

(** [time.Since(t)] at the clock reading [now]. *)
Definition Since (now t : Time) : Duration := Sub now t.

(** [getCachedBuilds]; [nowCheck] is the clock when the entry's age is
    tested, [nowStore] the clock when a fetched list is stored. *)
Definition getCachedBuilds (up : Upstream) (nowCheck nowStore : Time)
    (createdFrom : Time) : M (result (list BuildkiteBuild)) :=
  fun w =>
    let miss :=
      (do r <- fetchBuildsParallel up createdFrom ;
       match r with
       | Err e => ret (Err e)
       | Ok builds =>
           fun w' => (Ok builds,
                      mkWorld (Some (mkCacheData builds nowStore)) (requestsSent w'))
       end) w in
    match buildkiteCache w with
    | Some c =>
        if Since nowCheck (FetchedAt c) <? buildkiteCacheTTL
        then (Ok (Builds c), w)
        else miss
    | None => miss
    end.

(** *** The combined handlers *)

Record Meta := mkMeta {
  total_builds : Z;
  weekly_deployments : Z;
  daily_deployments : Z;
  date_range : string
}.

Record CombinedAllBody := mkCombinedAllBody {
  weekly : Series;
  daily : Series;
  meta : Meta
}.

(** Everything [kpiBuildkiteCombinedAll] computes from the fetched builds.
    The timing fields of [meta] ([fetch_duration_sec], [cached]) and [org]
    are left out. *)
Definition combinedAll_body (threeMonthsAgo thirtyDaysAgo : Time)
    (builds : list BuildkiteBuild) : CombinedAllBody :=
  let '(w, d) := combinedAll_loop thirtyDaysAgo builds in
  mkCombinedAllBody (seriesOf w) (seriesOf d)
    (mkMeta (len builds) (deploymentCount w) (deploymentCount d)
            ("last 3 months (from " +:+ dayKey threeMonthsAgo +:+ ")")).

(** The four readings of [time.Now()] one request takes, in program
    order. *)
Record Clock := mkClock {
  nowThreeMonths : Time;
  nowThirtyDays : Time;
  nowCheck : Time;
  nowStore : Time
}.

Definition kpiBuildkiteCombinedAll (env : Env) (clk : Clock) (up : Upstream)
    : M (Response CombinedAllBody) :=
  match buildkiteConfig env with
  | None => ret (ServiceUnavailable (buildkiteConfigMissing env))
  | Some _ =>
      let threeMonthsAgo := AddDate (nowThreeMonths clk) 0 (-3) 0 in
      let thirtyDaysAgo := AddDate (nowThirtyDays clk) 0 0 (-30) in
      do r <- getCachedBuilds up (nowCheck clk) (nowStore clk) threeMonthsAgo ;
      match r with
      | Err e => ret (BadGateway ("Failed to fetch builds: " +:+ e))
      | Ok builds => ret (StatusOK (combinedAll_body threeMonthsAgo thirtyDaysAgo builds))
      end
  end.

(** [kpiBuildkiteCombined] (weekly, deprecated) and
    [kpiBuildkiteCombinedDaily] (daily, deprecated) fetch without the cache
    and run the single-granularity loop. *)
Definition kpiBuildkiteCombined (env : Env) (now : Time) (up : Upstream)
    : M (Response (Series * Z)) :=
  match buildkiteConfig env with
  | None => ret (ServiceUnavailable (buildkiteConfigMissing env))
  | Some _ =>
      do r <- fetchBuildsParallel up (AddDate now 0 (-3) 0) ;
      match r with
      | Err e => ret (BadGateway ("Failed to fetch builds: " +:+ e))
      | Ok builds =>
          let b := combined_loop weekKey builds in
          ret (StatusOK (seriesOf b, deploymentCount b))
      end
  end.

Definition kpiBuildkiteCombinedDaily (env : Env) (now : Time) (up : Upstream)
    : M (Response (Series * Z)) :=
  match buildkiteConfig env with
  | None => ret (ServiceUnavailable (buildkiteConfigMissing env))
  | Some _ =>
      do r <- fetchBuildsParallel up (AddDate now 0 0 (-30)) ;
      match r with
      | Err e => ret (BadGateway ("Failed to fetch builds: " +:+ e))
      | Ok builds =>
          let b := combined_loop dayKey builds in
          ret (StatusOK (seriesOf b, deploymentCount b))
      end
  end.

End Handlers.

(** ** [buildkite_optimized.go]: the weekly handler with one list of weeks

    The file has the parallel fetch of above, word for word, without the
    cache, and a [kpiBuildkiteCombined] whose loop is the one of
    [combined_loop weekKey] and whose series all run over the same list
    [weeks]. *)

Module Optimized.

Section Handler.

Context `{GoLib}.

Notation "'do' x <- m ; k" := (bind m (fun x => k))
  (at level 20, x name, m at level 100, k at level 200).

Record CombinedBody := mkCombinedBody {
  cb_weeks : list string;
  cb_avg_duration_mins : list float;
  cb_failure_rate : list float;
  cb_passed : list Z;
  cb_failed : list Z;
  cb_total_builds : Z;
  cb_deployment_builds : Z;
  cb_passed_builds : Z;
  cb_failed_builds : Z;
  cb_date_range : string
}.

Definition combined_body (threeMonthsAgo : Time) (builds : list BuildkiteBuild)
    : CombinedBody :=
  let b := combined_loop weekKey builds in
  let weeksMap : gset string :=
    dom (durations b) ∪ dom (passed b) ∪ dom (failed b) in
  let weeks := sortedKeys weeksMap in
  let avgDurations :=
    map (fun w =>
           let ds := default [] (durations b !! w) in
           if 0 <? len ds
           then PrimFloat.div (fsum ds) (float64_of_len ds)
           else PrimFloat.zero)
        weeks in
  let passedOf w := default 0 (passed b !! w) in
  let failedOf w := default 0 (failed b !! w) in
  let failureRates :=
    map (fun w =>
           let total := passedOf w + failedOf w in
           if 0 <? total
           then PrimFloat.mul (PrimFloat.div (float64_of_int (failedOf w))
                                             (float64_of_int total))
                              (float64_of_int 100)
           else PrimFloat.zero)
        weeks in
  mkCombinedBody weeks avgDurations failureRates
    (map passedOf weeks) (map failedOf weeks)
    (len builds) (deploymentCount b) (passedCount b) (failedCount b)
    ("last 3 months (from " +:+ dayKey threeMonthsAgo +:+ ")").

Definition kpiBuildkiteCombined (env : Env) (now : Time) (up : Upstream)
    : M (Response CombinedBody) :=
  match buildkiteConfig env with
  | None => ret (ServiceUnavailable (buildkiteConfigMissing env))
  | Some _ =>
      let threeMonthsAgo := AddDate now 0 (-3) 0 in
      do r <- fetchBuildsParallel up threeMonthsAgo ;
      match r with
      | Err e => ret (BadGateway ("Failed to fetch builds: " +:+ e))
      | Ok builds => ret (StatusOK (combined_body threeMonthsAgo builds))
      end
  end.

End Handler.

End Optimized.

(** ** The issue-tracker helpers next to [weekKey] and [parseTime]

    [getFieldString], [getFieldTime] and the changelog scan read an issue
    as [encoding/json] decodes it into [map[string]interface{}]. *)

Module Jira.

(** A decoded JSON value: [nil], [bool], [float64], [string],
    [[]interface{}] or [map[string]interface{}]. *)
#[warnings="-register-all"]
Inductive JSON : Type :=
| JNull
| JBool (b : bool)
| JNumber (x : float)
| JString (s : string)
| JArray (l : list JSON)
| JObject (m : gmap string JSON).

(** [v, _ := x.(string)], [x.([]interface{})] and
    [x.(map[string]interface{})] on the value of a map lookup: the zero
    value when the key is missing or holds another type. *)
Definition asString (v : option JSON) : string :=
  match v with
  | Some (JString s) => s
  | _ => EmptyString
  end.

Definition asArray (v : option JSON) : list JSON :=
  match v with
  | Some (JArray l) => l
  | _ => []
  end.

Definition asObject (v : option JSON) : option (gmap string JSON) :=
  match v with
  | Some (JObject m) => Some m
  | _ => None
  end.

(** [strings.Split(s, sep)] for a separator of one byte. *)
Fixpoint Split (s : string) (sep : ascii) : list string :=
  match s with
  | EmptyString => [EmptyString]
  | String c rest =>
      if Ascii.eqb c sep then EmptyString :: Split rest sep
      else match Split rest sep with
           | part :: parts => String c part :: parts
           | [] => [String c EmptyString]
           end
  end.

(** The loop of [getFieldString]: the last part is read as a string, every
    part before it as an object to descend into. *)
Fixpoint getFieldString_loop (cur : gmap string JSON) (parts : list string)
    : string :=
  match parts with
  | [] => EmptyString
  | p :: rest =>
      match rest with
      | [] =>
          match cur !! p with
          | Some (JString v) => v
          | _ => EmptyString
          end
      | _ :: _ =>
          match cur !! p with
          | Some (JObject next) => getFieldString_loop next rest
          | _ => EmptyString
          end
      end
  end.

Definition getFieldString (m : gmap string JSON) (path : string) : string :=
  getFieldString_loop m (Split path "."%char).

(** [strings.EqualFold] is taken as an interface, like the functions of
    [GoLib]. *)
Class GoStrings := {
  strings_EqualFold : string -> string -> bool
}.

Section Changelog.

Context `{GoLib} `{GoStrings}.

Definition getFieldTime (m : gmap string JSON) (path : string) : option Time :=
  parseTime (getFieldString m path).

(** [for _, name := range statusNames { if strings.EqualFold(to, name) ... }]. *)
Fixpoint names_loop (to : string) (statusNames : list string) : bool :=
  match statusNames with
  | [] => false
  | name :: rest =>
      if strings_EqualFold to name then true else names_loop to rest
  end.

(** [for _, it := range items]: whether some item is a change of the field
    [status] to one of the names. *)
Fixpoint items_loop (items : list JSON) (statusNames : list string) : bool :=
  match items with
  | [] => false
  | it :: rest =>
      match it with
      | JObject item =>
          match item !! "field" with
          | Some (JString field) =>
              if String.eqb field "status"
              then if names_loop (asString (item !! "toString")) statusNames
                   then true
                   else items_loop rest statusNames
              else items_loop rest statusNames
          | _ => items_loop rest statusNames
          end
      | _ => items_loop rest statusNames
      end
  end.

(** [for i := 0; i < len(histories); i++]. *)
Fixpoint histories_loop (histories : list JSON) (statusNames : list string)
    : option Time :=
  match histories with
  | [] => None
  | hv :: rest =>
      match hv with
      | JObject h =>
          match parseTime (asString (h !! "created")) with
          | None => histories_loop rest statusNames
          | Some t =>
              if items_loop (asArray (h !! "items")) statusNames
              then Some t
              else histories_loop rest statusNames
          end
      | _ => histories_loop rest statusNames
      end
  end.

Definition statusTransitionFromChangelogAny (issue : gmap string JSON)
    (statusNames : list string) : option Time :=
  match asObject (issue !! "changelog") with
  | None => None
  | Some changelog =>
      histories_loop (asArray (changelog !! "histories")) statusNames
  end.

Definition statusTransitionFromChangelog (issue : gmap string JSON)
    (statusName : string) : option Time :=
  statusTransitionFromChangelogAny issue [statusName].

(** A history entry records, at time [t], a change of [status] to one of
    the names. *)
Definition entered (statusNames : list string) (hv : JSON) (t : Time) : Prop :=
  exists h item name,
    hv = JObject h
    /\ parseTime (asString (h !! "created")) = Some t
    /\ JObject item ∈ asArray (h !! "items")
    /\ item !! "field" = Some (JString "status")
    /\ name ∈ statusNames
    /\ strings_EqualFold (asString (item !! "toString")) name = true.

(** The histories of an issue, in the order of the changelog. *)
Definition historiesOf (issue : gmap string JSON) : list JSON :=
  match asObject (issue !! "changelog") with
  | None => []
  | Some changelog => asArray (changelog !! "histories")
  end.

(** The [created] time of a history entry, when it has one that parses. *)
Definition createdOf (hv : JSON) : option Time :=
  match hv with
  | JObject h => parseTime (asString (h !! "created"))
  | _ => None
  end.

(** The entries with a parseable [created] are in chronological order. *)
Definition oldestFirst (histories : list JSON) : Prop :=
  forall (i j : nat) hi hj ti tj,
    (i <= j)%nat ->
    histories !! i = Some (JObject hi) -> histories !! j = Some (JObject hj) ->
    parseTime (asString (hi !! "created")) = Some ti ->
    parseTime (asString (hj !! "created")) = Some tj ->
    After ti tj = false.

End Changelog.

(** A key without a dot. *)
Fixpoint plain (key : string) : bool :=
  match key with
  | EmptyString => true
  | String c rest => negb (Ascii.eqb c "."%char) && plain rest
  end.

End Jira.

(** ** Vocabulary of the statements *)

(** [t] is not after [u]: the order of instants. *)
Definition notAfter (t u : Time) : Prop := After t u = false.

Definition year (t : Time) : Z := fst (fst (date t)).
Definition month (t : Time) : Z := snd (fst (date t)).
Definition day (t : Time) : Z := snd (date t).

(** A miss of the cache: no entry, or an entry at least
    [buildkiteCacheTTL] old. *)
Definition cacheMiss (nowCheck : Time) (w : World) : Prop :=
  match buildkiteCache w with
  | Some c => buildkiteCacheTTL <= Since nowCheck (FetchedAt c)
  | None => True
  end.

(** A list as a map entry: present exactly when non-empty. *)
Definition entry {A} (l : list A) : option (list A) :=
  match l with
  | [] => None
  | _ => Some l
  end.

(** A counter as a map entry: present exactly when positive. *)
Definition tally (n : Z) : option Z := if 0 <? n then Some n else None.

(** The sum of a list of integers. *)
Definition sumZ (l : list Z) : Z := foldr Z.add 0 l.

(** The builds a page contributes: those of a successful response, none of
    a failed one. *)
Definition pageBuilds (r : result (list BuildkiteBuild)) : list BuildkiteBuild :=
  match r with
  | Ok builds => builds
  | Err _ => []
  end.

Section Vocabulary.

Context `{GoLib}.

Definition isPassed (build : BuildkiteBuild) : bool :=
  String.eqb (State build) "passed".

Definition isFailed (build : BuildkiteBuild) : bool :=
  String.eqb (State build) "failed".

(** The finish time of a build the combined loops look at: a build of the
    tracked pipeline with a parseable [finished_at]. *)
Definition finishedOf (build : BuildkiteBuild) : option Time :=
  if isDeploymentPipeline build then parseTime (FinishedAt build) else None.

(** The duration in minutes of a build with a valid duration: both
    timestamps parse and the finish is strictly after the start. *)
Definition validMinutes (build : BuildkiteBuild) : option float :=
  match parseTime (StartedAt build), parseTime (FinishedAt build) with
  | Some startedAt, Some finishedAt =>
      if After finishedAt startedAt
      then Some (Minutes (Sub finishedAt startedAt)) else None
  | _, _ => None
  end.

(** The durations, in record order, of the passed builds of the tracked
    pipeline with a valid duration whose finish time has the key [w]. *)
Definition trackedDurations (key : Time -> string) (w : string)
    (builds : list BuildkiteBuild) : list float :=
  omap (fun b => match finishedOf b with
                 | Some f => if isPassed b && String.eqb (key f) w
                             then validMinutes b else None
                 | None => None
                 end) builds.

(** The same selection without the pipeline test: the passed builds with a
    valid duration whose finish time has the key [w]. *)
Definition passedDurations (key : Time -> string) (w : string)
    (builds : list BuildkiteBuild) : list float :=
  omap (fun b => match parseTime (FinishedAt b) with
                 | Some f => if isPassed b && String.eqb (key f) w
                             then validMinutes b else None
                 | None => None
                 end) builds.

(** The builds of the tracked pipeline in state [st] whose finish time has
    the key [w]. *)
Definition inBucket (st : string) (key : Time -> string) (w : string)
    (b : BuildkiteBuild) : bool :=
  String.eqb (State b) st
  && match finishedOf b with
     | Some f => String.eqb (key f) w
     | None => false
     end.

Definition countIn (st : string) (key : Time -> string) (w : string)
    (builds : list BuildkiteBuild) : Z :=
  len (List.filter (inBucket st key w) builds).

(** The arithmetic mean in [float64]: the left-to-right sum divided by the
    number of values. *)
Definition mean (ds : list float) : float :=
  PrimFloat.div (fsum ds) (float64_of_len ds).

(** [failed / (passed + failed) * 100] in [float64]. *)
Definition percentFailed (passed failed : Z) : float :=
  PrimFloat.mul (PrimFloat.div (float64_of_int failed)
                               (float64_of_int (passed + failed)))
                (float64_of_int 100).

(** The test of the daily block: the build finished after [thirtyDaysAgo]. *)
Definition finishedAfter (thirtyDaysAgo : Time) (build : BuildkiteBuild) : bool :=
  match parseTime (FinishedAt build) with
  | Some finishedAt => After finishedAt thirtyDaysAgo
  | None => false
  end.

(** The builds the combined loops count: those of the tracked pipeline
    with a parseable [finished_at]. *)
Definition hasFinish (build : BuildkiteBuild) : bool :=
  match finishedOf build with
  | Some _ => true
  | None => false
  end.

(** The counted builds in state [st]. *)
Definition counted (st : string) (build : BuildkiteBuild) : bool :=
  String.eqb (State build) st && hasFinish build.

(** The counted builds that are passed or failed. *)
Definition terminal (build : BuildkiteBuild) : bool :=
  hasFinish build && (isPassed build || isFailed build).

End Vocabulary.

(** ** A reference instance of the library interface

    Used to run the handlers on concrete records: an RFC 3339 reader for the
    two layouts of [parseTime], and the ASCII behaviour of [strings.ToLower]
    and [strings.TrimSpace]. *)

Module RefLib.

Definition digitVal (c : ascii) : option Z :=
  let n := Z.of_N (N_of_ascii c) in
  if (48 <=? n) && (n <=? 57) then Some (n - 48) else None.

(** Exactly [n] decimal digits. *)
Fixpoint number (n : nat) (s : string) (acc : Z) : option (Z * string) :=
  match n with
  | O => Some (acc, s)
  | S k =>
      match s with
      | String c rest => d ← digitVal c; number k rest (10 * acc + d)
      | EmptyString => None
      end
  end.

Definition lit (c : ascii) (s : string) : option string :=
  match s with
  | String c' rest => if Ascii.eqb c c' then Some rest else None
  | EmptyString => None
  end.

(** The digits of a fractional second as nanoseconds; digits after the
    ninth are dropped. Returns the number of digits read. *)
Fixpoint fracDigits (s : string) (scale acc : Z) (count : nat) : Z * string * nat :=
  match s with
  | String c rest =>
      match digitVal c with
      | Some d => fracDigits rest (scale / 10) (acc + d * scale) (S count)
      | None => (acc, s, count)
      end
  | EmptyString => (acc, s, count)
  end.

Definition daysInMonth (y m : Z) : Z :=
  daysBeforeMonth (isLeap y) (m + 1) - daysBeforeMonth (isLeap y) m.

Definition dateTime (s : string) : option (Z * Z * Z * Z * Z * Z * string) :=
  '(y, s) ← number 4 s 0; s ← lit "-" s;
  '(mo, s) ← number 2 s 0; s ← lit "-" s;
  '(d, s) ← number 2 s 0; s ← lit "T" s;
  '(h, s) ← number 2 s 0; s ← lit ":" s;
  '(mi, s) ← number 2 s 0; s ← lit ":" s;
  '(sec, s) ← number 2 s 0;
  if (1 <=? mo) && (mo <=? 12) && (1 <=? d) && (d <=? daysInMonth y mo)
     && (h <? 24) && (mi <? 60) && (sec <? 60)
  then Some (y, mo, d, h, mi, sec, s) else None.

Definition signOf (c : ascii) : option Z :=
  if Ascii.eqb c "+" then Some 1
  else if Ascii.eqb c "-" then Some (-1) else None.

(** Layout [2006-01-02T15:04:05Z07:00], with optional fractional seconds. *)
Definition parseRFC3339 (s : string) : option Time :=
  '(y, mo, d, h, mi, sec, s) ← dateTime s;
  '(ns, s) ← match s with
             | String c rest =>
                 if Ascii.eqb c "." || Ascii.eqb c ","
                 then let '(ns, s', count) := fracDigits rest 100000000 0 0 in
                      if Nat.eqb count 0 then None else Some (ns, s')
                 else Some (0, s)
             | EmptyString => Some (0, s)
             end;
  off ← match s with
        | String c rest =>
            if Ascii.eqb c "Z" then (if String.eqb rest "" then Some 0 else None)
            else
              sg ← signOf c;
              '(hh, rest) ← number 2 rest 0; rest ← lit ":" rest;
              '(mm, rest) ← number 2 rest 0;
              if String.eqb rest "" && (hh <? 24) && (mm <? 60)
              then Some (sg * (hh * 3600 + mm * 60)) else None
        | EmptyString => None
        end;
  Some (Date y mo d h mi sec ns off).

(** Layout [2006-01-02T15:04:05.000-0700]. *)
Definition parseMillisNumTZ (s : string) : option Time :=
  '(y, mo, d, h, mi, sec, s) ← dateTime s;
  s ← lit "." s;
  '(ms, s) ← number 3 s 0;
  off ← match s with
        | String c rest =>
            sg ← signOf c;
            '(hh, rest) ← number 2 rest 0;
            '(mm, rest) ← number 2 rest 0;
            if String.eqb rest "" && (hh <? 24) && (mm <? 60)
            then Some (sg * (hh * 3600 + mm * 60)) else None
        | EmptyString => None
        end;
  Some (Date y mo d h mi sec (ms * 1000000) off).

Definition Parse (layout s : string) : option Time :=
  if String.eqb layout RFC3339 then parseRFC3339 s
  else if String.eqb layout "2006-01-02T15:04:05.000-0700" then parseMillisNumTZ s
  else None.

Definition lowerByte (c : ascii) : ascii :=
  let n := N_of_ascii c in
  if ((65 <=? n) && (n <=? 90))%N then ascii_of_N (n + 32) else c.

Fixpoint ToLower (s : string) : string :=
  match s with
  | EmptyString => EmptyString
  | String c rest => String (lowerByte c) (ToLower rest)
  end.

Definition isSpace (c : ascii) : bool :=
  let n := N_of_ascii c in
  ((n =? 32) || ((9 <=? n) && (n <=? 13)))%N.

Fixpoint trimLeft (s : string) : string :=
  match s with
  | String c rest => if isSpace c then trimLeft rest else s
  | EmptyString => EmptyString
  end.

Definition TrimSpace (s : string) : string :=
  String.rev (trimLeft (String.rev (trimLeft s))).

#[export] Instance lib : GoLib :=
  {| time_Parse := Parse; strings_ToLower := ToLower; strings_TrimSpace := TrimSpace |}.

(** [strings.EqualFold] on ASCII text. *)
Definition EqualFold (s t : string) : bool :=
  String.eqb (ToLower s) (ToLower t).

#[export] Instance stringsLib : Jira.GoStrings :=
  {| Jira.strings_EqualFold := EqualFold |}.

End RefLib.

(** ** Concrete records and upstreams for the scenarios *)

Module Scenario.
Import RefLib.

Definition legacy : PipelineInfo :=
  mkPipeline "core-stack-deployment-pipeline-legacy" "Core Stack Deployment Pipeline Legacy".

Definition other : PipelineInfo :=
  mkPipeline "core-stack-deployment-pipeline" "Core Stack Deployment Pipeline".

Definition build (p : PipelineInfo) (number : Z) (state startedAt finishedAt : string)
    : BuildkiteBuild :=
  mkBuild (GoFmt.decimal number) number state startedAt finishedAt
          startedAt startedAt p "main" "" "".

(** Two passed builds of 10 and 20 minutes finishing in week 2024-W02 and
    one failed build finishing in week 2024-W03. *)
Definition twoWeeks : list BuildkiteBuild :=
  [ build legacy 1 "passed" "2024-01-08T10:00:00Z" "2024-01-08T10:10:00Z";
    build legacy 2 "passed" "2024-01-09T10:00:00Z" "2024-01-09T10:20:00Z";
    build legacy 3 "failed" "2024-01-15T10:00:00Z" "2024-01-15T10:05:00Z" ].

(** 2024-06-15T12:00:00Z. *)
Definition noon : Time := mkTime 1718452800 0 0.

Definition clk : Clock := mkClock noon noon noon noon.

Definition env : Env := mkEnv "bkua_token" "acme".

Definition cold : World := mkWorld None 0.

(** A cache filled at [noon], and the clock one minute later. *)
Definition warm : World := mkWorld (Some (mkCacheData twoWeeks noon)) 4.

Definition minuteLater : Time := mkTime 1718452860 0 0.

(** An upstream on which every request fails. *)
Definition allFail : Upstream :=
  mkUpstream (fun _ _ _ => Err "BuildKite API returned 500: ")
             (fun _ => seqZ 2 9).

Definition numbered (first count : Z) : list BuildkiteBuild :=
  map (fun n => build legacy n "passed" "2024-06-01T10:00:00Z" "2024-06-01T10:10:00Z")
      (seqZ first count).

(** A pipeline with 150 builds: page 1 is full, page 2 holds the last 50,
    pages 3 to 10 are empty. *)
Definition pagesOf150 (page : Z) : list BuildkiteBuild :=
  if page =? 1 then numbered 1 100
  else if page =? 2 then numbered 101 50
  else [].

Definition upstream150 (order : list Z) : Upstream :=
  mkUpstream (fun _ _ page => Ok (pagesOf150 page)) (fun _ => order).

(** Results reach the channel in page order. *)
Definition inOrder : list Z := [2; 3; 4; 5; 6; 7; 8; 9; 10].

(** The result of the empty page 3 reaches the channel before page 2. *)
Definition emptyFirst : list Z := [3; 2; 4; 5; 6; 7; 8; 9; 10].

(** A passed build whose start and finish timestamps coincide. *)
Definition instant : BuildkiteBuild :=
  build legacy 7 "passed" "2024-01-08T10:00:00Z" "2024-01-08T10:00:00Z".

(** A passed build of the other configured pipeline without a start
    timestamp. *)
Definition stray : BuildkiteBuild :=
  build other 9 "passed" "" "2024-01-08T10:00:00Z".

(** A passed 10-minute build of the tracked pipeline and a passed
    30-minute build of the other configured pipeline, same week. *)
Definition twoPipelines : list BuildkiteBuild :=
  [ build legacy 1 "passed" "2024-01-08T10:00:00Z" "2024-01-08T10:10:00Z";
    build other 2 "passed" "2024-01-09T10:00:00Z" "2024-01-09T10:30:00Z" ].

(** The weekly part of the answer for [twoWeeks] and for [twoPipelines]. *)
Definition twoWeeksSeries : Series :=
  weekly (combinedAll_body (AddDate noon 0 (-3) 0) (AddDate noon 0 0 (-30)) twoWeeks).

Definition twoPipelinesSeries : Series :=
  weekly (combinedAll_body (AddDate noon 0 (-3) 0) (AddDate noon 0 0 (-30)) twoPipelines).

(** 2024-12-31T23:00:00Z and 2025-01-01T01:00:00Z. *)
Definition newYearsEve : Time := Date 2024 12 31 23 0 0 0 0.
Definition newYearsDay : Time := Date 2025 1 1 1 0 0 0 0.

(** 0999-12-25T12:00:00Z and 1000-06-02T12:00:00Z. *)
Definition year999 : Time := Date 999 12 25 12 0 0 0 0.
Definition year1000 : Time := Date 1000 6 2 12 0 0 0 0.

(** 2024-01-02T00:30:00+14:00, which is 2024-01-01T10:30:00Z, and
    2024-01-01T11:00:00Z. *)
Definition lineIslands : Time := Date 2024 1 2 0 30 0 0 50400.
Definition sameDayUTC : Time := Date 2024 1 1 11 0 0 0 0.

(** Monday 2024-01-08T00:30:00+14:00, which is Sunday 2024-01-07T10:30:00Z,
    and Sunday 2024-01-07T11:00:00Z. *)
Definition lineIslandsMonday : Time := Date 2024 1 8 0 30 0 0 50400.
Definition sundayUTC : Time := Date 2024 1 7 11 0 0 0 0.

(** 9999-12-31T12:00:00Z, 10000-01-01T12:00:00Z and 10000-06-01T12:00:00Z. *)
Definition year9999 : Time := Date 9999 12 31 12 0 0 0 0.
Definition year10000 : Time := Date 10000 1 1 12 0 0 0 0.
Definition mid10000 : Time := Date 10000 6 1 12 0 0 0 0.

(** An environment whose token is blank. *)
Definition blankToken : Env := mkEnv "   " "acme".

(** A pipeline with full pages throughout whose page 2 fails; the result
    of page 3 reaches the channel first. *)
Definition flaky : Upstream :=
  mkUpstream (fun _ _ page =>
                if page =? 2 then Err "BuildKite API returned 500: "
                else Ok (numbered (100 * (page - 1) + 1) 100))
             (fun _ => emptyFirst).

(** An epic as the issue tracker returns it with [expand=changelog]:
    created in "To Do", moved to "In Progress" a day later together with
    a change of assignee, and to "Done" the week after. *)
Definition statusChange (to : string) : Jira.JSON :=
  Jira.JObject {[ "field" := Jira.JString "status"; "toString" := Jira.JString to ]}.

Definition history (created : string) (items : list Jira.JSON) : Jira.JSON :=
  Jira.JObject {[ "created" := Jira.JString created; "items" := Jira.JArray items ]}.

Definition epic : gmap string Jira.JSON :=
  {[ "key" := Jira.JString "VBUILD-5762";
     "fields" := Jira.JObject {[ "summary" := Jira.JString "ROG-131 - Rogue build" ]};
     "changelog" :=
       Jira.JObject
         {[ "histories" :=
              Jira.JArray
                [ history "2024-01-08T10:00:00Z" [statusChange "To Do"];
                  history "2024-01-09T10:00:00Z"
                    [ Jira.JObject {[ "field" := Jira.JString "assignee" ]};
                      statusChange "In progress" ];
                  history "2024-01-15T10:00:00Z" [statusChange "Done"] ] ]} ]}.

End Scenario.

(** * Properties *)

(** ** Cache and multi-pipeline fetch *)

Section FetchFacts.

Lemma fetchBuildsFromPipeline_first_page_error up pipeline createdFrom e w :
  respond up pipeline createdFrom 1 = Err e ->
  fetchBuildsFromPipeline up pipeline createdFrom w
  = (Err e, mkWorld (buildkiteCache w) (requestsSent w + 1)).
Proof.
  intros Hr. unfold fetchBuildsFromPipeline, bind, httpGet.
  rewrite Hr. reflexivity.
Qed.

Lemma fetchBuildsParallel_all_fail up createdFrom w :
  (forall p, p ∈ pipelines -> exists e, respond up p createdFrom 1 = Err e) ->
  fetchBuildsParallel up createdFrom w
  = (Ok [], mkWorld (buildkiteCache w) (requestsSent w + 2)).
Proof.
  intros Hall.
  destruct (Hall "core-stack-deployment-pipeline") as [e1 He1];
    [unfold pipelines; set_solver|].
  destruct (Hall "core-stack-deployment-pipeline-legacy") as [e2 He2];
    [unfold pipelines; set_solver|].
  unfold fetchBuildsParallel, pipelines, bind at 1.
  cbn [fetchBuildsParallel_loop]. unfold bind at 1.
  rewrite (fetchBuildsFromPipeline_first_page_error _ _ _ _ _ He1).
  unfold bind at 1.
  rewrite (fetchBuildsFromPipeline_first_page_error _ _ _ _ _ He2).
  cbn. f_equal. f_equal. lia.
Qed.

Lemma getCachedBuilds_hit up nowCheck nowStore createdFrom w c :
  buildkiteCache w = Some c ->
  Since nowCheck (FetchedAt c) < buildkiteCacheTTL ->
  getCachedBuilds up nowCheck nowStore createdFrom w = (Ok (Builds c), w).
Proof.
  intros Hc Hage. unfold getCachedBuilds. rewrite Hc.
  destruct (Z.ltb_spec (Since nowCheck (FetchedAt c)) buildkiteCacheTTL); [done | lia].
Qed.

Lemma getCachedBuilds_miss up nowCheck nowStore createdFrom w :
  cacheMiss nowCheck w ->
  getCachedBuilds up nowCheck nowStore createdFrom w
  = match fetchBuildsParallel up createdFrom w with
    | (Ok builds, w') =>
        (Ok builds, mkWorld (Some (mkCacheData builds nowStore)) (requestsSent w'))
    | (Err e, w') => (Err e, w')
    end.
Proof.
  intros Hmiss. unfold getCachedBuilds, cacheMiss, bind in *.
  destruct (buildkiteCache w) as [c|].
  - destruct (Z.ltb_spec (Since nowCheck (FetchedAt c)) buildkiteCacheTTL); [lia|].
    destruct (fetchBuildsParallel up createdFrom w) as [[bs|e] w']; reflexivity.
  - destruct (fetchBuildsParallel up createdFrom w) as [[bs|e] w']; reflexivity.
Qed.

End FetchFacts.

(** C10. On a cache hit [getCachedBuilds] ignores [createdFrom]: while the
    cache holds an entry younger than the five-minute TTL, calls with any two
    lower bounds return the same record list, namely the cached one, and
    leave the world as it is. *)
Theorem getCachedBuilds_hit_ignores_createdFrom
    (up : Upstream) (nowCheck nowStore createdFrom1 createdFrom2 : Time)
    (w : World) (c : BuildKiteCacheData) :
  buildkiteCache w = Some c ->
  Since nowCheck (FetchedAt c) < buildkiteCacheTTL ->
  getCachedBuilds up nowCheck nowStore createdFrom1 w
  = getCachedBuilds up nowCheck nowStore createdFrom2 w
  /\ getCachedBuilds up nowCheck nowStore createdFrom1 w = (Ok (Builds c), w).
Proof.
  intros Hc Hage.
  rewrite !(getCachedBuilds_hit _ _ _ _ _ _ Hc Hage). split; reflexivity.
Qed.

(** C9. When the first page of every configured pipeline fails,
    [fetchBuildsParallel] returns the empty list with a nil error; on a
    cache miss [getCachedBuilds] stores that empty list with the current
    clock reading, and every later call made while the entry is younger
    than the TTL returns the empty list from the cache and sends no
    request. *)
Theorem all_pipelines_fail_empty_list_is_cached
    (up : Upstream) (nowCheck nowStore createdFrom : Time) (w : World) :
  (forall p, p ∈ pipelines -> exists e, respond up p createdFrom 1 = Err e) ->
  cacheMiss nowCheck w ->
  let w' := mkWorld (Some (mkCacheData [] nowStore)) (requestsSent w + 2) in
  fetchBuildsParallel up createdFrom w
  = (Ok [], mkWorld (buildkiteCache w) (requestsSent w + 2))
  /\ getCachedBuilds up nowCheck nowStore createdFrom w = (Ok [], w')
  /\ forall (up' : Upstream) (later nowStore' createdFrom' : Time),
       Since later nowStore < buildkiteCacheTTL ->
       getCachedBuilds up' later nowStore' createdFrom' w' = (Ok [], w').
Proof.
  intros Hall Hmiss w'. split; [| split].
  - by apply fetchBuildsParallel_all_fail.
  - rewrite (getCachedBuilds_miss _ _ _ _ _ Hmiss).
    by rewrite (fetchBuildsParallel_all_fail _ _ _ Hall).
  - intros up' later nowStore' createdFrom' Hage.
    by apply (getCachedBuilds_hit up' later nowStore' createdFrom' w'
                (mkCacheData [] nowStore)).
Qed.


(** ** Calendar facts *)

Section Calendar.

Local Ltac zdiv := Z.div_mod_to_equations; lia.

Local Ltac cal := cbn -[Z.add Z.sub Z.ltb].

Local Ltac split_ltb :=
  repeat match goal with
         | |- context [?a <? ?b] => destruct (Z.ltb_spec a b)
         end.

Lemma daysBeforeYear_succ y :
  daysBeforeYear (y + 1) = daysBeforeYear y + daysIn y.
Proof.
  unfold daysBeforeYear, daysIn, isLeap.
  replace (y + 1 - 1) with y by lia.
  destruct (Z.eqb_spec (y mod 4) 0) as [A|A];
    destruct (Z.eqb_spec (y mod 100) 0) as [B|B];
    destruct (Z.eqb_spec (y mod 400) 0) as [C|C];
    cbn [andb orb negb]; zdiv.
Qed.

Lemma daysIn_pos y : 365 <= daysIn y <= 366.
Proof. unfold daysIn. destruct (isLeap y); lia. Qed.

Lemma daysBeforeYear_mono_nat (n : nat) y :
  daysBeforeYear y + 365 * Z.of_nat n <= daysBeforeYear (y + Z.of_nat n).
Proof.
  induction n as [|n IH].
  - replace (y + Z.of_nat 0) with y by lia. lia.
  - replace (y + Z.of_nat (S n)) with (y + Z.of_nat n + 1) by lia.
    rewrite daysBeforeYear_succ.
    pose proof (daysIn_pos (y + Z.of_nat n)). lia.
Qed.

(** The next year starts after every day of this one. *)
Lemma daysBeforeYear_lt y1 y2 :
  y1 < y2 -> daysBeforeYear y1 + daysIn y1 <= daysBeforeYear y2.
Proof.
  intros Hlt. rewrite <- daysBeforeYear_succ.
  pose proof (daysBeforeYear_mono_nat (Z.to_nat (y2 - (y1 + 1))) (y1 + 1)) as Hm.
  replace (y1 + 1 + Z.of_nat (Z.to_nat (y2 - (y1 + 1)))) with y2 in Hm by lia.
  lia.
Qed.

(** [absDate] splits a day number into the year it falls in and the day
    of that year. *)
Lemma absDate_spec d :
  d = daysBeforeYear (fst (absDate d)) + snd (absDate d)
  /\ 0 <= snd (absDate d) < daysIn (fst (absDate d)).
Proof.
  unfold absDate, daysBeforeYear, daysIn, isLeap. cbv zeta. cbn [fst snd].
  set (n400 := d / 146097).
  set (d1 := d - 146097 * n400).
  assert (H1 : 0 <= d1 < 146097) by (subst d1 n400; zdiv).
  set (q100 := d1 / 36524).
  assert (Hq100 : 0 <= q100 <= 4 /\ 36524 * q100 <= d1 < 36524 * q100 + 36524)
    by (subst q100; zdiv).
  set (n100 := q100 - q100 / 4).
  assert (Hn100 : 0 <= n100 <= 3 /\ (n100 = q100 \/ (q100 = 4 /\ n100 = 3)))
    by (subst n100; zdiv).
  set (d2 := d1 - 36524 * n100).
  set (n4 := d2 / 1461).
  assert (Hn4 : 0 <= n4 <= 24 /\ 1461 * n4 <= d2 < 1461 * n4 + 1461)
    by (subst n4 d2; zdiv).
  set (d3 := d2 - 1461 * n4).
  set (q := d3 / 365).
  assert (Hq : 0 <= q <= 4 /\ 365 * q <= d3 < 365 * q + 365)
    by (subst q d3; zdiv).
  set (n := q - q / 4).
  assert (Hn : 0 <= n <= 3 /\ (n = q \/ (q = 4 /\ n = 3)))
    by (subst n; zdiv).
  set (y1 := 400 * n400 + 100 * n100 + 4 * n4 + n).
  replace (1 + 400 * n400 + 100 * n100 + 4 * n4 + n - 1) with y1 by (subst y1; lia).
  replace (1 + 400 * n400 + 100 * n100 + 4 * n4 + n) with (y1 + 1) by (subst y1; lia).
  assert (E4 : y1 / 4 = 100 * n400 + 25 * n100 + n4) by (subst y1; zdiv).
  assert (E100 : y1 / 100 = 4 * n400 + n100) by (subst y1; zdiv).
  assert (E400 : y1 / 400 = n400) by (subst y1; zdiv).
  assert (M4 : (y1 + 1) mod 4 = (n + 1) mod 4) by (subst y1; zdiv).
  assert (M100 : (y1 + 1) mod 100 = (4 * n4 + n + 1) mod 100) by (subst y1; zdiv).
  assert (M400 : (y1 + 1) mod 400 = (100 * n100 + 4 * n4 + n + 1) mod 400)
    by (subst y1; zdiv).
  rewrite E4, E100, E400, M4, M100, M400.
  assert (Ed1 : d1 = d - 146097 * n400) by reflexivity.
  assert (Ed2 : d2 = d1 - 36524 * n100) by reflexivity.
  assert (Ed3 : d3 = d2 - 1461 * n4) by reflexivity.
  assert (Ey1 : y1 = 400 * n400 + 100 * n100 + 4 * n4 + n) by reflexivity.
  clearbody n400 d1 q100 n100 d2 n4 d3 q n y1.
  split; [lia |].
  destruct (Z.eqb_spec ((n + 1) mod 4) 0) as [A|A];
    destruct (Z.eqb_spec ((4 * n4 + n + 1) mod 100) 0) as [B|B];
    destruct (Z.eqb_spec ((100 * n100 + 4 * n4 + n + 1) mod 400) 0) as [C|C];
    cbn [andb orb negb]; zdiv.
Qed.

(** Later days have a later year, or the same year and a later day of
    the year. *)
Lemma absDate_mono d1 d2 :
  d1 <= d2 ->
  fst (absDate d1) < fst (absDate d2)
  \/ (fst (absDate d1) = fst (absDate d2) /\ snd (absDate d1) <= snd (absDate d2)).
Proof.
  intros Hle.
  destruct (absDate_spec d1) as [E1 B1], (absDate_spec d2) as [E2 B2].
  destruct (Z.lt_trichotomy (fst (absDate d1)) (fst (absDate d2))) as [Hlt|[Heq|Hgt]].
  - by left.
  - right. split; [done|]. rewrite Heq in E1. lia.
  - pose proof (daysBeforeYear_lt _ _ Hgt). lia.
Qed.

Lemma monthDay_range (leap : bool) (yd : Z) :
  0 <= yd < (if leap then 366 else 365) ->
  1 <= fst (monthDay leap yd) <= 12 /\ 1 <= snd (monthDay leap yd) <= 31
  /\ yd = daysBeforeMonth leap (fst (monthDay leap yd)) + snd (monthDay leap yd) - 1.
Proof.
  intros Hyd. unfold monthDay. cbn [fst snd].
  destruct leap; cal; split_ltb; cal; lia.
Qed.

Lemma monthDay_mono (leap : bool) (yd1 yd2 : Z) :
  0 <= yd1 -> yd1 <= yd2 ->
  fst (monthDay leap yd1) < fst (monthDay leap yd2)
  \/ (fst (monthDay leap yd1) = fst (monthDay leap yd2)
      /\ snd (monthDay leap yd1) <= snd (monthDay leap yd2)).
Proof.
  intros H0 Hle. unfold monthDay. cbn [fst snd].
  destruct leap; cal; split_ltb; cal; lia.
Qed.

Lemma notAfter_unixSec t u : notAfter t u -> unixSec t <= unixSec u.
Proof.
  unfold notAfter, After. intros Hna.
  apply orb_false_iff in Hna as [Hlt _]. lia.
Qed.

Lemma absDays_mono t u :
  offset t = offset u -> notAfter t u -> absDays t <= absDays u.
Proof.
  intros Hoff Hna. apply notAfter_unixSec in Hna.
  unfold absDays, abs, secondsPerDay. rewrite Hoff. zdiv.
Qed.


Lemma year_eq t : year t = fst (absDate (absDays t)).
Proof.
  unfold year, date. destruct (absDate (absDays t)) as [y yd]. cbn [fst snd].
  by destruct (monthDay (isLeap y) yd).
Qed.

Lemma month_eq t :
  month t = fst (monthDay (isLeap (fst (absDate (absDays t))))
                          (snd (absDate (absDays t)))).
Proof.
  unfold month, date. destruct (absDate (absDays t)) as [y yd]. cbn [fst snd].
  by destruct (monthDay (isLeap y) yd).
Qed.

Lemma day_eq t :
  day t = snd (monthDay (isLeap (fst (absDate (absDays t))))
                        (snd (absDate (absDays t)))).
Proof.
  unfold day, date. destruct (absDate (absDays t)) as [y yd]. cbn [fst snd].
  by destruct (monthDay (isLeap y) yd).
Qed.

Lemma month_day_range t :
  1 <= month t <= 12 /\ 1 <= day t <= 31.
Proof.
  rewrite month_eq, day_eq.
  destruct (absDate_spec (absDays t)) as [_ Hyd]. unfold daysIn in Hyd.
  pose proof (monthDay_range (isLeap (fst (absDate (absDays t))))
                (snd (absDate (absDays t))) Hyd).
  lia.
Qed.

(** Dates grow with the day number: year, month and day compare
    lexicographically. *)
Lemma date_mono t u :
  offset t = offset u -> notAfter t u ->
  year t < year u
  \/ (year t = year u
      /\ (month t < month u \/ (month t = month u /\ day t <= day u))).
Proof.
  intros Hoff Hna. pose proof (absDays_mono t u Hoff Hna) as Hd.
  rewrite !month_eq, !day_eq, !year_eq.
  destruct (absDate_mono _ _ Hd) as [Hlt | [Heq Hyd]]; [by left | right].
  split; [done |]. rewrite Heq.
  apply monthDay_mono; [| done].
  by destruct (absDate_spec (absDays t)) as [_ [? _]].
Qed.

(** The Thursday of the Monday-to-Sunday week of day [d]. *)
Lemma thursday_eq d :
  (let delta := 4 - absWeekday d in
   d + (if delta =? 4 then -3 else delta)) = 7 * (d / 7) + 3.
Proof.
  unfold absWeekday. cbv zeta.
  destruct (Z.eqb_spec (4 - (d + 1) mod 7) 4); zdiv.
Qed.

Lemma ISOWeek_eq t :
  ISOWeek t = (fst (absDate (7 * (absDays t / 7) + 3)),
               snd (absDate (7 * (absDays t / 7) + 3)) / 7 + 1).
Proof.
  unfold ISOWeek. cbv zeta.
  pose proof (thursday_eq (absDays t)) as Ht. cbv zeta in Ht. rewrite Ht.
  by destruct (absDate (7 * (absDays t / 7) + 3)).
Qed.

Lemma ISOWeek_range t : 1 <= snd (ISOWeek t) <= 53.
Proof.
  rewrite ISOWeek_eq. cbn [snd].
  destruct (absDate_spec (7 * (absDays t / 7) + 3)) as [_ Hyd].
  pose proof (daysIn_pos (fst (absDate (7 * (absDays t / 7) + 3)))). zdiv.
Qed.

(** ISO year and week grow with the day number, lexicographically. *)
Lemma ISOWeek_mono t u :
  offset t = offset u -> notAfter t u ->
  fst (ISOWeek t) < fst (ISOWeek u)
  \/ (fst (ISOWeek t) = fst (ISOWeek u) /\ snd (ISOWeek t) <= snd (ISOWeek u)).
Proof.
  intros Hoff Hna. pose proof (absDays_mono t u Hoff Hna) as Hd.
  rewrite !ISOWeek_eq. cbn [fst snd].
  assert (Hth : 7 * (absDays t / 7) + 3 <= 7 * (absDays u / 7) + 3) by zdiv.
  destruct (absDate_mono _ _ Hth) as [Hlt | [Heq Hyd]]; [by left | right].
  split; [done |]. zdiv.
Qed.


End Calendar.

(** ** Lexicographic order of the bucket keys *)

Section Keys.

Local Ltac zdiv := Z.div_mod_to_equations; lia.

Lemma length_append s t :
  String.length (s +:+ t) = (String.length s + String.length t)%nat.
Proof. induction s as [|c s IH]; simpl; [done | by f_equal]. Qed.

Lemma compare_refl s : String.compare s s = Eq.
Proof.
  induction s as [|c s IH]; [done |]. cbn.
  replace (Ascii.compare c c) with Eq; [done |].
  symmetry. unfold Ascii.compare. apply N.compare_refl.
Qed.

(** Equally long prefixes decide the comparison unless they are equal. *)
Lemma compare_append s1 s2 t1 t2 :
  String.length s1 = String.length s2 ->
  String.compare (s1 +:+ t1) (s2 +:+ t2)
  = match String.compare s1 s2 with
    | Eq => String.compare t1 t2
    | c => c
    end.
Proof.
  revert s2. induction s1 as [|c1 s1 IH]; intros [|c2 s2] Hlen;
    try discriminate.
  - reflexivity.
  - simpl in Hlen |- *. destruct (Ascii.compare c1 c2); [| done | done].
    apply IH. congruence.
Qed.

Lemma compare_digit a b :
  0 <= a <= 9 -> 0 <= b <= 9 ->
  Ascii.compare (GoFmt.digit a) (GoFmt.digit b) = (a ?= b).
Proof.
  intros Ha Hb. unfold Ascii.compare, GoFmt.digit.
  rewrite !N_ascii_embedding by lia.
  destruct (Z.compare_spec a b);
    [apply N.compare_eq_iff | apply N.compare_lt_iff | apply N.compare_gt_iff]; lia.
Qed.

Lemma length_zpad w n : String.length (GoFmt.zpad w n) = w.
Proof.
  revert n. induction w as [|w IH]; intros n; [done |].
  cbn [GoFmt.zpad]. rewrite length_append, IH. cbn. lia.
Qed.

Lemma compare_div10 a b :
  (a ?= b) = match a / 10 ?= b / 10 with
             | Eq => a mod 10 ?= b mod 10
             | c => c
             end.
Proof.
  destruct (Z.compare_spec (a / 10) (b / 10)).
  - destruct (Z.compare_spec (a mod 10) (b mod 10));
      [apply Z.compare_eq_iff | apply Z.compare_lt_iff | apply Z.compare_gt_iff]; zdiv.
  - apply Z.compare_lt_iff. zdiv.
  - apply Z.compare_gt_iff. zdiv.
Qed.

(** Fixed-width decimal renderings compare like the numbers. *)
Lemma compare_zpad w a b :
  0 <= a < 10 ^ Z.of_nat w -> 0 <= b < 10 ^ Z.of_nat w ->
  String.compare (GoFmt.zpad w a) (GoFmt.zpad w b) = (a ?= b).
Proof.
  revert a b. induction w as [|w IH]; intros a b Ha Hb.
  - cbn in *. assert (a = 0) as -> by lia. assert (b = 0) as -> by lia. done.
  - rewrite Nat2Z.inj_succ, Z.pow_succ_r in Ha, Hb by lia.
    cbn [GoFmt.zpad].
    rewrite compare_append by (by rewrite !length_zpad).
    rewrite IH by zdiv. rewrite (compare_div10 a b).
    destruct (a / 10 ?= b / 10); [| done | done].
    cbn. rewrite compare_digit by zdiv.
    by destruct (a mod 10 ?= b mod 10).
Qed.

Lemma compare_zpad2 a b :
  0 <= a <= 99 -> 0 <= b <= 99 ->
  String.compare (GoFmt.zpad 2 a) (GoFmt.zpad 2 b) = (a ?= b).
Proof. intros Ha Hb. apply compare_zpad; change (10 ^ Z.of_nat 2) with 100; lia. Qed.

Lemma compare_zpad4 a b :
  0 <= a <= 9999 -> 0 <= b <= 9999 ->
  String.compare (GoFmt.zpad 4 a) (GoFmt.zpad 4 b) = (a ?= b).
Proof. intros Ha Hb. apply compare_zpad; change (10 ^ Z.of_nat 4) with 10000; lia. Qed.

(** *** The verbs on numbers that fit the width *)

Lemma zpad_small k u :
  0 <= u < 10 ^ Z.of_nat k ->
  GoFmt.zpad (S k) u = String "0"%char (GoFmt.zpad k u).
Proof.
  revert u. induction k as [|k IH]; intros u Hu.
  - cbn in Hu. by assert (u = 0) as -> by lia.
  - rewrite Nat2Z.inj_succ, Z.pow_succ_r in Hu by lia.
    change (GoFmt.zpad (S (S k)) u)
      with (GoFmt.zpad (S k) (u / 10) +:+ String (GoFmt.digit (u mod 10)) "").
    rewrite IH by zdiv. reflexivity.
Qed.

Lemma zeros_zpad k w u :
  0 <= u < 10 ^ Z.of_nat w ->
  GoFmt.zeros k +:+ GoFmt.zpad w u = GoFmt.zpad (k + w) u.
Proof.
  intros Hu. induction k as [|k IH]; [done |].
  cbn [GoFmt.zeros Nat.add]. rewrite zpad_small.
  - change (String "0"%char (GoFmt.zeros k +:+ GoFmt.zpad w u)
            = String "0"%char (GoFmt.zpad (k + w) u)).
    by rewrite IH.
  - split; [lia |]. eapply Z.lt_le_trans; [apply Hu |].
    apply Z.pow_le_mono_r; lia.
Qed.

(** With enough fuel, the digits of a number of exactly [S w] digits. *)
Lemma decimal_fuel_zpad w fuel u :
  (S w <= fuel)%nat ->
  0 <= u < 10 ^ Z.of_nat (S w) ->
  w = 0%nat \/ 10 ^ Z.of_nat w <= u ->
  GoFmt.decimal_fuel fuel u = GoFmt.zpad (S w) u.
Proof.
  revert fuel u. induction w as [|w IH]; intros [|fuel] u Hfuel Hu Hlo; try lia.
  - change (10 ^ Z.of_nat 1) with 10 in Hu. cbn [GoFmt.decimal_fuel GoFmt.zpad].
    destruct (Z.ltb_spec u 10); [| lia].
    rewrite Z.mod_small by lia. reflexivity.
  - assert (Hge : 10 ^ Z.of_nat (S w) <= u) by (destruct Hlo; [discriminate | done]).
    assert (E1 : 10 ^ Z.of_nat (S w) = 10 * 10 ^ Z.of_nat w)
      by (rewrite Nat2Z.inj_succ, Z.pow_succ_r by lia; reflexivity).
    assert (E2 : 10 ^ Z.of_nat (S (S w)) = 10 * 10 ^ Z.of_nat (S w))
      by (rewrite (Nat2Z.inj_succ (S w)), Z.pow_succ_r by lia; reflexivity).
    assert (Hpos : 0 < 10 ^ Z.of_nat w) by (apply Z.pow_pos_nonneg; lia).
    rewrite E2 in Hu.
    cbn [GoFmt.decimal_fuel].
    destruct (Z.ltb_spec u 10); [lia |].
    rewrite (IH fuel (u / 10)).
    + reflexivity.
    + lia.
    + zdiv.
    + right. rewrite E1 in Hge. zdiv.
Qed.

(** The digits of a number below 10000. *)
Lemma decimal_zpad u :
  0 <= u < 10000 ->
  exists w, (w < 4)%nat /\ GoFmt.decimal u = GoFmt.zpad (S w) u
            /\ u < 10 ^ Z.of_nat (S w) /\ (w = 0%nat \/ 10 ^ Z.of_nat w <= u).
Proof.
  intros Hu. unfold GoFmt.decimal.
  assert (Hcases : u < 10 \/ 10 <= u < 100 \/ 100 <= u < 1000 \/ 1000 <= u) by lia.
  destruct Hcases as [Hc | [Hc | [Hc | Hc]]].
  - exists 0%nat. split; [lia |]. split; [| split; [cbn; lia | by left]].
    apply decimal_fuel_zpad; [lia | cbn; lia | by left].
  - exists 1%nat. pose proof (Z.log2_le_mono 10 u) as Hlog.
    change (Z.log2 10) with 3 in Hlog.
    split; [lia |]. split; [| split; [cbn; lia | right; cbn; lia]].
    apply decimal_fuel_zpad; [lia | cbn; lia | right; cbn; lia].
  - exists 2%nat. pose proof (Z.log2_le_mono 100 u) as Hlog.
    change (Z.log2 100) with 6 in Hlog.
    split; [lia |]. split; [| split; [cbn; lia | right; cbn; lia]].
    apply decimal_fuel_zpad; [lia | cbn; lia | right; cbn; lia].
  - exists 3%nat. pose proof (Z.log2_le_mono 1000 u) as Hlog.
    change (Z.log2 1000) with 9 in Hlog.
    split; [lia |]. split; [| split; [cbn; lia | right; cbn; lia]].
    apply decimal_fuel_zpad; [lia | cbn; lia | right; cbn; lia].
Qed.

Lemma padded_decimal (width : nat) u :
  (1 <= width <= 4)%nat -> 0 <= u < 10 ^ Z.of_nat width ->
  GoFmt.zeros (width - String.length (GoFmt.decimal u)) +:+ GoFmt.decimal u
  = GoFmt.zpad width u.
Proof.
  intros Hwidth Hu.
  assert (Hu4 : 0 <= u < 10000).
  { split; [lia |]. eapply Z.lt_le_trans; [apply Hu |].
    change 10000 with (10 ^ Z.of_nat 4). apply Z.pow_le_mono_r; lia. }
  destruct (decimal_zpad u Hu4) as (w & Hw & Hdec & Hhi & Hlo).
  rewrite Hdec, length_zpad.
  assert (Hfit : (S w <= width)%nat).
  { destruct (le_lt_dec (S w) width) as [Hle | Hgt]; [done |].
    destruct Hlo as [-> | Hlo]; [lia |].
    assert (10 ^ Z.of_nat width <= 10 ^ Z.of_nat w)
        by (apply Z.pow_le_mono_r; lia). lia. }
  rewrite zeros_zpad by lia. f_equal. lia.
Qed.

Lemma appendInt_2 n : 0 <= n < 100 -> GoFmt.appendInt n 2 = GoFmt.zpad 2 n.
Proof.
  intros Hn. unfold GoFmt.appendInt.
  destruct (Z.ltb_spec n 0); [lia |]. rewrite Z.abs_eq by lia.
  cbn [String.append]. apply padded_decimal; [lia | cbn; lia].
Qed.

Lemma appendInt_4 n : 0 <= n < 10000 -> GoFmt.appendInt n 4 = GoFmt.zpad 4 n.
Proof.
  intros Hn. unfold GoFmt.appendInt.
  destruct (Z.ltb_spec n 0); [lia |]. rewrite Z.abs_eq by lia.
  cbn [String.append]. apply padded_decimal; [lia | cbn; lia].
Qed.

Lemma fmt_0d_2 n : 0 <= n < 100 -> GoFmt.fmt_0d 2 n = GoFmt.zpad 2 n.
Proof.
  intros Hn. unfold GoFmt.fmt_0d.
  destruct (Z.ltb_spec n 0); [lia |]. rewrite Z.abs_eq by lia.
  apply padded_decimal; [lia | cbn; lia].
Qed.

Lemma fmt_d_4 n : 1000 <= n < 10000 -> GoFmt.fmt_d n = GoFmt.zpad 4 n.
Proof.
  intros Hn. unfold GoFmt.fmt_d.
  destruct (Z.ltb_spec n 0); [lia |]. rewrite Z.abs_eq by lia.
  cbn [String.append]. unfold GoFmt.decimal.
  pose proof (Z.log2_le_mono 1000 n) as Hlog.
  change (Z.log2 1000) with 9 in Hlog.
  apply decimal_fuel_zpad; [lia | cbn; lia | right; cbn; lia].
Qed.

Lemma le_compare s t : String.compare s t <> Gt -> String.le s t.
Proof.
  unfold String.le, String.leb. by destruct (String.compare s t).
Qed.

Lemma dayKey_eq t :
  dayKey t = GoFmt.appendInt (year t) 4 +:+ "-" +:+ GoFmt.appendInt (month t) 2
             +:+ "-" +:+ GoFmt.appendInt (day t) 2.
Proof.
  unfold dayKey, year, month, day. by destruct (date t) as [[y m] d].
Qed.

Lemma dayKey_zpad t :
  0 <= year t <= 9999 ->
  dayKey t = GoFmt.zpad 4 (year t) +:+ "-" +:+ GoFmt.zpad 2 (month t)
             +:+ "-" +:+ GoFmt.zpad 2 (day t).
Proof.
  intros Hy. pose proof (month_day_range t) as [Hm Hd].
  rewrite dayKey_eq. by rewrite appendInt_4, !appendInt_2 by lia.
Qed.

Lemma weekKey_zpad t :
  1000 <= fst (ISOWeek t) <= 9999 ->
  weekKey t = GoFmt.zpad 4 (fst (ISOWeek t)) +:+ "-W"
              +:+ GoFmt.zpad 2 (snd (ISOWeek t)).
Proof.
  intros Hy. pose proof (ISOWeek_range t) as Hw.
  unfold weekKey. destruct (ISOWeek t) as [y w]. cbn [fst snd] in *.
  by rewrite fmt_d_4, fmt_0d_2 by lia.
Qed.

Lemma dayKey_mono t u :
  offset t = offset u -> notAfter t u ->
  0 <= year t -> year u <= 9999 ->
  String.le (dayKey t) (dayKey u).
Proof.
  intros Hoff Hna Hlo Hhi.
  pose proof (date_mono t u Hoff Hna) as Hmono.
  pose proof (month_day_range t) as [Hmt Hdt].
  pose proof (month_day_range u) as [Hmu Hdu].
  rewrite !dayKey_zpad by lia. apply le_compare.
  rewrite compare_append by (by rewrite !length_zpad).
  rewrite compare_zpad4 by lia.
  destruct (Z.compare_spec (year t) (year u)) as [Hy | Hy | Hy]; [| done | lia].
  rewrite (compare_append "-" "-") by done. rewrite (compare_refl "-").
  rewrite compare_append by (by rewrite !length_zpad).
  rewrite compare_zpad2 by lia.
  destruct (Z.compare_spec (month t) (month u)) as [Hm | Hm | Hm]; [| done | lia].
  rewrite (compare_append "-" "-") by done. rewrite (compare_refl "-").
  rewrite compare_zpad2 by lia.
  destruct (Z.compare_spec (day t) (day u)); [done | done | lia].
Qed.

Lemma weekKey_mono t u :
  offset t = offset u -> notAfter t u ->
  1000 <= fst (ISOWeek t) -> fst (ISOWeek u) <= 9999 ->
  String.le (weekKey t) (weekKey u).
Proof.
  intros Hoff Hna Hlo Hhi.
  pose proof (ISOWeek_mono t u Hoff Hna) as Hmono.
  pose proof (ISOWeek_range t) as Hwt.
  pose proof (ISOWeek_range u) as Hwu.
  rewrite !weekKey_zpad by lia. apply le_compare.
  rewrite compare_append by (by rewrite !length_zpad).
  rewrite compare_zpad4 by lia.
  destruct (Z.compare_spec (fst (ISOWeek t)) (fst (ISOWeek u))) as [Hy | Hy | Hy];
    [| done | lia].
  rewrite (compare_append "-W" "-W") by done. rewrite (compare_refl "-W").
  rewrite compare_zpad2 by lia.
  destruct (Z.compare_spec (snd (ISOWeek t)) (snd (ISOWeek u))); [done | done | lia].
Qed.

End Keys.

(** C8 (amended). For two timestamps [t] not after [u] that carry the same
    zone offset, the keys are ordered lexicographically: [dayKey t <= dayKey u]
    when the calendar years lie in [0..9999], and [weekKey t <= weekKey u]
    when the ISO week-years lie in [1000..9999]. *)
Theorem bucket_keys_are_chronological (t u : Time) :
  offset t = offset u ->
  notAfter t u ->
  (0 <= year t -> year u <= 9999 -> String.le (dayKey t) (dayKey u))
  /\ (1000 <= fst (ISOWeek t) -> fst (ISOWeek u) <= 9999 ->
      String.le (weekKey t) (weekKey u)).
Proof.
  intros Hoff Hna. split; intros Hlo Hhi.
  - by apply dayKey_mono.
  - by apply weekKey_mono.
Qed.

(** ** The reduction into buckets *)

Section Reduction.

Context `{GoLib}.

Lemma record_durations build f k b :
  durations (record build f k b)
  = if isPassed build then
      match parseTime (StartedAt build) with
      | Some s => if After f s then map_append k (Minutes (Sub f s)) (durations b)
                  else durations b
      | None => durations b
      end
    else durations b.
Proof.
  unfold record, isPassed.
  destruct (String.eqb (State build) "passed");
    destruct (String.eqb (State build) "failed"); reflexivity.
Qed.

Lemma passed_not_failed build : isPassed build = true -> isFailed build = false.
Proof.
  unfold isPassed, isFailed. intros Hp. apply String.eqb_eq in Hp.
  rewrite Hp. reflexivity.
Qed.

Lemma record_passed build f k b :
  passed (record build f k b)
  = if isPassed build then map_incr k (passed b) else passed b.
Proof.
  unfold record, isPassed.
  destruct (String.eqb (State build) "passed");
    destruct (String.eqb (State build) "failed"); reflexivity.
Qed.

Lemma record_failed build f k b :
  failed (record build f k b)
  = if isFailed build then map_incr k (failed b) else failed b.
Proof.
  unfold record, isFailed.
  destruct (String.eqb (State build) "passed");
    destruct (String.eqb (State build) "failed"); reflexivity.
Qed.

Lemma record_deploymentCount build f k b :
  deploymentCount (record build f k b) = deploymentCount b + 1.
Proof.
  unfold record.
  destruct (String.eqb (State build) "passed");
    destruct (String.eqb (State build) "failed"); reflexivity.
Qed.

Lemma combined_step_eq key b build :
  combined_step key b build
  = match finishedOf build with
    | Some f => record build f (key f) b
    | None => b
    end.
Proof.
  unfold combined_step, finishedOf.
  by destruct (isDeploymentPipeline build).
Qed.

Lemma combined_loop_snoc key builds build :
  combined_loop key (builds ++ [build])
  = combined_step key (combined_loop key builds) build.
Proof. unfold combined_loop. by rewrite fold_left_app. Qed.

Lemma entry_snoc {A} (l : list A) x : Some (default [] (entry l) ++ [x]) = entry (l ++ [x]).
Proof. by destruct l. Qed.

Lemma trackedDurations_snoc key w builds build :
  trackedDurations key w (builds ++ [build])
  = trackedDurations key w builds ++ trackedDurations key w [build].
Proof. unfold trackedDurations. apply omap_app. Qed.

Lemma countIn_snoc st key w builds build :
  countIn st key w (builds ++ [build])
  = countIn st key w builds + (if inBucket st key w build then 1 else 0).
Proof.
  unfold countIn, len. rewrite List.filter_app, length_app. cbn.
  destruct (inBucket st key w build); cbn; lia.
Qed.

Lemma countIn_nonneg st key w builds : 0 <= countIn st key w builds.
Proof. unfold countIn, len. lia. Qed.

Lemma tally_incr n : 0 <= n -> Some (default 0 (tally n) + 1) = tally (n + 1).
Proof.
  intros Hn. unfold tally.
  destruct (Z.ltb_spec 0 n), (Z.ltb_spec 0 (n + 1)); cbn; f_equal; lia.
Qed.

(** The weekly (or daily) duration map after the loop: each key holds the
    valid durations of its passed builds, in record order. *)
Lemma combined_loop_durations key builds w :
  durations (combined_loop key builds) !! w
  = entry (trackedDurations key w builds).
Proof.
  induction builds as [|build builds IH] using rev_ind; [done |].
  rewrite combined_loop_snoc, combined_step_eq, trackedDurations_snoc.
  unfold trackedDurations at 2. cbn [omap list_omap].
  destruct (finishedOf build) as [f|] eqn:Hf; [| by rewrite app_nil_r].
  rewrite record_durations. unfold validMinutes.
  assert (Hfin : parseTime (FinishedAt build) = Some f).
  { unfold finishedOf in Hf. by destruct (isDeploymentPipeline build). }
  rewrite Hfin.
  destruct (isPassed build); cbn [andb]; [| by rewrite app_nil_r].
  destruct (parseTime (StartedAt build)) as [s|];
    [| by destruct (String.eqb (key f) w); rewrite app_nil_r].
  destruct (After f s); [| by destruct (String.eqb (key f) w); rewrite app_nil_r].
  unfold map_append.
  destruct (String.eqb_spec (key f) w) as [-> | Hne].
  - rewrite lookup_insert_eq, IH. cbn. apply entry_snoc.
  - rewrite lookup_insert_ne by done. cbn. by rewrite app_nil_r.
Qed.

Lemma combined_loop_count (proj : Buckets -> gmap string Z) (st : string) key :
  (forall build f k b,
      proj (record build f k b)
      = if String.eqb (State build) st then map_incr k (proj b) else proj b) ->
  proj emptyBuckets = ∅ ->
  forall builds w,
    proj (combined_loop key builds) !! w = tally (countIn st key w builds).
Proof.
  intros Hrec Hempty builds w.
  induction builds as [|build builds IH] using rev_ind.
  - unfold combined_loop. cbn. by rewrite Hempty.
  - rewrite combined_loop_snoc, combined_step_eq, countIn_snoc.
    unfold inBucket.
    destruct (finishedOf build) as [f|] eqn:Hf;
      [| by rewrite andb_false_r, Z.add_0_r].
    rewrite Hrec.
    destruct (String.eqb (State build) st); cbn [andb];
      [| by rewrite Z.add_0_r].
    unfold map_incr.
    destruct (String.eqb_spec (key f) w) as [-> | Hne].
    + rewrite lookup_insert_eq, IH. apply tally_incr, countIn_nonneg.
    + rewrite lookup_insert_ne by done. by rewrite Z.add_0_r.
Qed.

Lemma combined_loop_passed key builds w :
  passed (combined_loop key builds) !! w = tally (countIn "passed" key w builds).
Proof.
  apply (combined_loop_count passed "passed"); [| done].
  intros. apply record_passed.
Qed.

Lemma combined_loop_failed key builds w :
  failed (combined_loop key builds) !! w = tally (countIn "failed" key w builds).
Proof.
  apply (combined_loop_count failed "failed"); [| done].
  intros. apply record_failed.
Qed.

Lemma combinedAll_step_eq thirtyDaysAgo w d build :
  combinedAll_step thirtyDaysAgo (w, d) build
  = (combined_step weekKey w build,
     if finishedAfter thirtyDaysAgo build then combined_step dayKey d build else d).
Proof.
  unfold combinedAll_step, combined_step, finishedAfter.
  destruct (isDeploymentPipeline build); cbn [negb fst snd].
  - destruct (parseTime (FinishedAt build)) as [f|]; [| done].
    by destruct (After f thirtyDaysAgo).
  - destruct (parseTime (FinishedAt build)) as [f|]; [| done].
    by destruct (After f thirtyDaysAgo).
Qed.

Lemma combinedAll_fold thirtyDaysAgo builds w0 d0 :
  fold_left (combinedAll_step thirtyDaysAgo) builds (w0, d0)
  = (fold_left (combined_step weekKey) builds w0,
     fold_left (combined_step dayKey)
               (List.filter (finishedAfter thirtyDaysAgo) builds) d0).
Proof.
  revert w0 d0. induction builds as [|build builds IH]; intros w0 d0; [done |].
  cbn [fold_left List.filter]. rewrite combinedAll_step_eq, IH.
  by destruct (finishedAfter thirtyDaysAgo build).
Qed.

(** One pass over the builds fills the weekly buckets from all of them and
    the daily buckets from those finished after [thirtyDaysAgo]. *)
Lemma combinedAll_loop_split thirtyDaysAgo builds :
  combinedAll_loop thirtyDaysAgo builds
  = (combined_loop weekKey builds,
     combined_loop dayKey (List.filter (finishedAfter thirtyDaysAgo) builds)).
Proof. apply combinedAll_fold. Qed.

(** *** Sorted keys *)

Lemma sortedKeys_elem (ks : gset string) w : w ∈ sortedKeys ks <-> w ∈ ks.
Proof.
  unfold sortedKeys. rewrite merge_sort_Permutation. apply elem_of_elements.
Qed.

Lemma sortedKeys_sorted (ks : gset string) :
  StronglySorted String.le (sortedKeys ks).
Proof. apply StronglySorted_merge_sort; apply _. Qed.

Lemma sortedKeys_NoDup (ks : gset string) : NoDup (sortedKeys ks).
Proof.
  unfold sortedKeys. rewrite merge_sort_Permutation. apply NoDup_elements.
Qed.

End Reduction.

(** ** The emitted series *)

Section SeriesFacts.

Context `{GoLib}.

Lemma entry_default {A} (l : list A) : default [] (entry l) = l.
Proof. by destruct l. Qed.

Lemma entry_is_Some {A} (l : list A) : is_Some (entry l) <-> l <> [].
Proof.
  destruct l as [|a l]; cbn; split.
  - by intros [? ?].
  - done.
  - done.
  - intros _. by eexists.
Qed.

Lemma tally_default n : 0 <= n -> default 0 (tally n) = n.
Proof. intros Hn. unfold tally. destruct (Z.ltb_spec 0 n); cbn; lia. Qed.

Lemma tally_is_Some n : is_Some (tally n) <-> 0 < n.
Proof.
  unfold tally. destruct (Z.ltb_spec 0 n); split.
  - done.
  - intros _. by eexists.
  - by intros [? ?].
  - lia.
Qed.

Lemma average_mean (ds : list float) : ds <> [] -> average ds = mean ds.
Proof.
  intros Hne. unfold average, mean.
  destruct ds as [|d ds]; [done |].
  destruct (Z.ltb_spec 0 (Z.of_nat (length (d :: ds)))) as [_ | Hle]; [done |].
  cbn [length] in Hle. lia.
Qed.

Lemma failureRate_percent p f : 0 < p + f -> failureRate p f = percentFailed p f.
Proof.
  intros Hpos. unfold failureRate, percentFailed.
  destruct (Z.ltb_spec 0 (p + f)); [done | lia].
Qed.

Lemma deploymentTime_keys key builds w :
  w ∈ dt_keys (deploymentTimeOf (combined_loop key builds))
  <-> trackedDurations key w builds <> [].
Proof.
  unfold deploymentTimeOf. cbn [dt_keys].
  rewrite sortedKeys_elem, elem_of_dom, combined_loop_durations.
  apply entry_is_Some.
Qed.

Lemma deploymentTime_avg key builds :
  avg_duration_mins (deploymentTimeOf (combined_loop key builds))
  = map (fun w => mean (trackedDurations key w builds))
        (dt_keys (deploymentTimeOf (combined_loop key builds))).
Proof.
  unfold deploymentTimeOf at 1. cbn [avg_duration_mins].
  change (sortedKeys (dom (durations (combined_loop key builds))))
    with (dt_keys (deploymentTimeOf (combined_loop key builds))).
  apply map_ext_in. intros w Hin.
  apply list_elem_of_In, deploymentTime_keys in Hin.
  rewrite combined_loop_durations, entry_default. by apply average_mean.
Qed.

Lemma failureRate_keys key builds w :
  w ∈ fr_keys (failureRateOf (combined_loop key builds))
  <-> 0 < countIn "passed" key w builds + countIn "failed" key w builds.
Proof.
  unfold failureRateOf. cbn [fr_keys].
  rewrite sortedKeys_elem, elem_of_union, !elem_of_dom.
  rewrite combined_loop_passed, combined_loop_failed, !tally_is_Some.
  pose proof (countIn_nonneg "passed" key w builds).
  pose proof (countIn_nonneg "failed" key w builds). lia.
Qed.

Lemma failureRate_passed key builds :
  fr_passed (failureRateOf (combined_loop key builds))
  = map (fun w => countIn "passed" key w builds)
        (fr_keys (failureRateOf (combined_loop key builds))).
Proof.
  unfold failureRateOf. cbn [fr_passed fr_keys].
  apply map_ext. intros w.
  rewrite combined_loop_passed. apply tally_default, countIn_nonneg.
Qed.

Lemma failureRate_failed key builds :
  fr_failed (failureRateOf (combined_loop key builds))
  = map (fun w => countIn "failed" key w builds)
        (fr_keys (failureRateOf (combined_loop key builds))).
Proof.
  unfold failureRateOf. cbn [fr_failed fr_keys].
  apply map_ext. intros w.
  rewrite combined_loop_failed. apply tally_default, countIn_nonneg.
Qed.

Lemma failureRate_rate key builds :
  failure_rate (failureRateOf (combined_loop key builds))
  = map (fun w => percentFailed (countIn "passed" key w builds)
                                (countIn "failed" key w builds))
        (fr_keys (failureRateOf (combined_loop key builds))).
Proof.
  unfold failureRateOf at 1. cbn [failure_rate].
  change (sortedKeys (dom (passed (combined_loop key builds))
                      ∪ dom (failed (combined_loop key builds))))
    with (fr_keys (failureRateOf (combined_loop key builds))).
  apply map_ext_in. intros w Hin.
  apply list_elem_of_In, failureRate_keys in Hin.
  rewrite combined_loop_passed, combined_loop_failed.
  rewrite !tally_default by apply countIn_nonneg.
  by apply failureRate_percent.
Qed.

(** A passed build with a valid duration is counted as passed. *)
Lemma trackedDurations_counted key w builds :
  trackedDurations key w builds <> [] -> 0 < countIn "passed" key w builds.
Proof.
  induction builds as [|build builds IH] using rev_ind; [done |].
  rewrite trackedDurations_snoc, countIn_snoc.
  pose proof (countIn_nonneg "passed" key w builds) as Hnn.
  destruct (trackedDurations key w builds) as [|d ds] eqn:Hd.
  - intros Hne. cbn [app] in Hne. unfold trackedDurations in Hne.
    cbn [omap list_omap] in Hne. unfold inBucket.
    destruct (finishedOf build) as [f|]; [| done].
    unfold isPassed in Hne.
    destruct (String.eqb (State build) "passed"); [| done].
    destruct (String.eqb (key f) w); [cbn; lia | done].
  - intros _. assert (0 < countIn "passed" key w builds) by (by apply IH).
    destruct (inBucket "passed" key w build); lia.
Qed.

Lemma countIn_pos st key w builds b :
  b ∈ builds -> inBucket st key w b = true -> 0 < countIn st key w builds.
Proof.
  intros Hb Hin. unfold countIn, len.
  assert (Hmem : In b (List.filter (inBucket st key w) builds))
    by (apply List.filter_In; split; [by apply list_elem_of_In | done]).
  destruct (List.filter (inBucket st key w) builds); [done | cbn; lia].
Qed.

(** A passed or failed build of the tracked pipeline with a parseable
    finish time puts the key of that time among the failure-rate keys. *)
Lemma terminal_build_key key builds b f :
  b ∈ builds ->
  finishedOf b = Some f ->
  isPassed b = true \/ isFailed b = true ->
  key f ∈ fr_keys (failureRateOf (combined_loop key builds)).
Proof.
  intros Hb Hf Hst. apply failureRate_keys.
  pose proof (countIn_nonneg "passed" key (key f) builds).
  pose proof (countIn_nonneg "failed" key (key f) builds).
  destruct Hst as [Hp | Hfl].
  - assert (0 < countIn "passed" key (key f) builds); [| lia].
    apply (countIn_pos _ _ _ _ b Hb). unfold inBucket.
    unfold isPassed in Hp. by rewrite Hp, Hf, String.eqb_refl.
  - assert (0 < countIn "failed" key (key f) builds); [| lia].
    apply (countIn_pos _ _ _ _ b Hb). unfold inBucket.
    unfold isFailed in Hfl. by rewrite Hfl, Hf, String.eqb_refl.
Qed.

Lemma weekly_is_combined_loop threeMonthsAgo thirtyDaysAgo builds :
  weekly (combinedAll_body threeMonthsAgo thirtyDaysAgo builds)
  = seriesOf (combined_loop weekKey builds).
Proof.
  unfold combinedAll_body. by rewrite combinedAll_loop_split.
Qed.

Lemma daily_is_combined_loop threeMonthsAgo thirtyDaysAgo builds :
  daily (combinedAll_body threeMonthsAgo thirtyDaysAgo builds)
  = seriesOf (combined_loop dayKey
                (List.filter (finishedAfter thirtyDaysAgo) builds)).
Proof.
  unfold combinedAll_body. by rewrite combinedAll_loop_split.
Qed.

(** The two weekly series of [kpiBuildkiteCombinedAll], each over its own
    sorted list of weeks. *)
Lemma weekly_series_general threeMonthsAgo thirtyDaysAgo builds :
  let s := weekly (combinedAll_body threeMonthsAgo thirtyDaysAgo builds) in
  let dt := deployment_time s in
  let fr := failure_rates s in
  (StronglySorted String.le (dt_keys dt) /\ NoDup (dt_keys dt)
   /\ forall w, w ∈ dt_keys dt <-> trackedDurations weekKey w builds <> [])
  /\ avg_duration_mins dt
     = map (fun w => mean (trackedDurations weekKey w builds)) (dt_keys dt)
  /\ (StronglySorted String.le (fr_keys fr) /\ NoDup (fr_keys fr)
      /\ forall w, w ∈ fr_keys fr
                   <-> 0 < countIn "passed" weekKey w builds
                           + countIn "failed" weekKey w builds)
  /\ failure_rate fr
     = map (fun w => percentFailed (countIn "passed" weekKey w builds)
                                   (countIn "failed" weekKey w builds))
           (fr_keys fr)
  /\ fr_passed fr = map (fun w => countIn "passed" weekKey w builds) (fr_keys fr)
  /\ fr_failed fr = map (fun w => countIn "failed" weekKey w builds) (fr_keys fr)
  /\ dt_keys dt ⊆ fr_keys fr.
Proof.
  cbv zeta. rewrite weekly_is_combined_loop. unfold seriesOf.
  cbn [deployment_time failure_rates].
  split; [split; [| split] |].
  - apply sortedKeys_sorted.
  - apply sortedKeys_NoDup.
  - apply deploymentTime_keys.
  - split; [apply deploymentTime_avg |].
    split; [split; [| split] |].
    + apply sortedKeys_sorted.
    + apply sortedKeys_NoDup.
    + apply failureRate_keys.
    + split; [apply failureRate_rate |].
      split; [apply failureRate_passed |].
      split; [apply failureRate_failed |].
      intros w Hw. apply deploymentTime_keys in Hw.
      apply failureRate_keys.
      pose proof (trackedDurations_counted _ _ _ Hw).
      pose proof (countIn_nonneg "failed" weekKey w builds). lia.
Qed.

End SeriesFacts.

(** C3 (amended). For every emitted week key, [avg_duration_mins] at that
    key is the arithmetic mean of (finishedAt - startedAt) in minutes over
    exactly the builds of the tracked pipeline
    (slug [core-stack-deployment-pipeline-legacy]) that are passed, have a
    parseable [startedAt] and [finishedAt] with the finish strictly after
    the start, and whose [finishedAt] falls in that ISO week; there is at
    least one such build. *)
Theorem weekly_average_is_mean_of_tracked_durations `{GoLib}
    (threeMonthsAgo thirtyDaysAgo : Time) (builds : list BuildkiteBuild)
    (i : nat) (w : string) :
  let dt := deployment_time
              (weekly (combinedAll_body threeMonthsAgo thirtyDaysAgo builds)) in
  dt_keys dt !! i = Some w ->
  avg_duration_mins dt !! i = Some (mean (trackedDurations weekKey w builds))
  /\ trackedDurations weekKey w builds <> [].
Proof.
  cbv zeta. intros Hi.
  rewrite weekly_is_combined_loop in *. unfold seriesOf in *.
  cbn [deployment_time] in *. split.
  - rewrite deploymentTime_avg, list_lookup_fmap, Hi. done.
  - apply deploymentTime_keys. by apply list_elem_of_lookup_2 in Hi.
Qed.

(** C6 (amended). In [kpiBuildkiteCombinedAll], for every passed build of
    the tracked pipeline with a parseable [finishedAt]: its duration enters
    the durations of its week exactly when [startedAt] parses and
    [finishedAt] is strictly after it (equal timestamps are not after one
    another); otherwise the durations are left as they are; in both cases
    the passed count of its week is incremented, so that its week is among
    the failure-rate weeks with a passed count of at least one. *)
Theorem passed_build_duration_is_guarded `{GoLib}
    (thirtyDaysAgo : Time) (acc : Buckets * Buckets)
    (build : BuildkiteBuild) (finishedAt : Time) :
  isDeploymentPipeline build = true ->
  State build = "passed" ->
  parseTime (FinishedAt build) = Some finishedAt ->
  let week := weekKey finishedAt in
  let w' := fst (combinedAll_step thirtyDaysAgo acc build) in
  passed w' = map_incr week (passed (fst acc))
  /\ match parseTime (StartedAt build) with
     | Some startedAt =>
         if After finishedAt startedAt
         then durations w'
              = map_append week (Minutes (Sub finishedAt startedAt))
                           (durations (fst acc))
         else durations w' = durations (fst acc)
     | None => durations w' = durations (fst acc)
     end
  /\ (forall t : Time, After t t = false)
  /\ (forall t u : Time,
        After t u = true
        <-> unixSec u < unixSec t \/ (unixSec u = unixSec t /\ nsec u < nsec t))
  /\ (forall (threeMonthsAgo : Time) (builds : list BuildkiteBuild),
        build ∈ builds ->
        let fr := failure_rates
                    (weekly (combinedAll_body threeMonthsAgo thirtyDaysAgo builds)) in
        week ∈ fr_keys fr
        /\ forall i : nat,
             fr_keys fr !! i = Some week ->
             exists n : Z, fr_passed fr !! i = Some n /\ 1 <= n).
Proof.
  intros Hdep Hst Hfin week w'. subst w'. destruct acc as [w d].
  rewrite combinedAll_step_eq. cbn [fst].
  unfold combined_step. rewrite Hdep, Hfin. cbn [negb].
  rewrite record_passed, record_durations. unfold isPassed. rewrite Hst.
  cbn [String.eqb Ascii.eqb Bool.eqb]. fold week.
  split; [done |]. split; [| split; [| split]].
  - destruct (parseTime (StartedAt build)) as [s|]; [| done].
    by destruct (After finishedAt s).
  - intros t. unfold After. rewrite !Z.ltb_irrefl, andb_false_r. done.
  - intros t u. unfold After.
    rewrite orb_true_iff, andb_true_iff, !Z.ltb_lt, Z.eqb_eq. intuition lia.
  - intros threeMonthsAgo builds Hin. cbv zeta.
    rewrite weekly_is_combined_loop. unfold seriesOf. cbn [failure_rates].
    assert (Hf : finishedOf build = Some finishedAt)
      by (unfold finishedOf; by rewrite Hdep).
    assert (Hp : isPassed build = true)
      by (unfold isPassed; by rewrite Hst).
    split.
    + apply (terminal_build_key weekKey builds build finishedAt Hin Hf). by left.
    + intros i Hi. exists (countIn "passed" weekKey week builds). split.
      * by rewrite failureRate_passed, list_lookup_fmap, Hi.
      * assert (0 < countIn "passed" weekKey week builds); [| lia].
        apply (countIn_pos _ _ _ _ build Hin). unfold inBucket.
        unfold isPassed in Hp. by rewrite Hp, Hf, String.eqb_refl.
Qed.


(** ** Page collection *)

Section Pages.

(** [fetchBuildsParallel] has no failing return. *)
Lemma fetchBuildsParallel_loop_total up createdFrom ps allBuilds w :
  exists builds w', fetchBuildsParallel_loop up createdFrom ps allBuilds w = (builds, w').
Proof.
  revert allBuilds w. induction ps as [|p ps IH]; intros allBuilds w.
  - by exists allBuilds, w.
  - cbn [fetchBuildsParallel_loop]. unfold bind at 1.
    destruct (fetchBuildsFromPipeline up p createdFrom w) as [[builds | e] w'];
      apply IH.
Qed.

Lemma fetchBuildsParallel_never_fails up createdFrom w :
  exists builds w', fetchBuildsParallel up createdFrom w = (Ok builds, w').
Proof.
  unfold fetchBuildsParallel, bind.
  destruct (fetchBuildsParallel_loop_total up createdFrom pipelines [] w)
    as (builds & w' & Hloop).
  rewrite Hloop. by exists builds, w'.
Qed.

Lemma getCachedBuilds_never_fails up nowCheck nowStore createdFrom w :
  exists builds w',
    getCachedBuilds up nowCheck nowStore createdFrom w = (Ok builds, w').
Proof.
  unfold getCachedBuilds, bind.
  destruct (fetchBuildsParallel_never_fails up createdFrom w) as (builds & w' & Hf).
  rewrite Hf.
  destruct (buildkiteCache w) as [c|]; [| by eexists _, _].
  destruct (Since nowCheck (FetchedAt c) <? buildkiteCacheTTL); by eexists _, _.
Qed.

(** The 502 branch of [kpiBuildkiteCombinedAll] is never taken. *)
Lemma kpiBuildkiteCombinedAll_never_502 `{GoLib} env clk up w e w' :
  kpiBuildkiteCombinedAll env clk up w <> (BadGateway e, w').
Proof.
  unfold kpiBuildkiteCombinedAll.
  destruct (buildkiteConfig env); [| discriminate].
  unfold bind.
  destruct (getCachedBuilds_never_fails up (nowCheck clk) (nowStore clk)
              (AddDate (nowThreeMonths clk) 0 (-3) 0) w) as (builds & w'' & Hc).
  rewrite Hc. discriminate.
Qed.

(** The map filled by the collection loop when no delivered page is empty:
    every successful page is stored under its number. *)
Lemma collect_without_empty_page results allBuilds p :
  Forall (fun res => err res = None -> builds res <> []) results ->
  NoDup (page <$> results) ->
  collect results allBuilds !! p
  = match List.find (fun res => (page res =? p) && bool_decide (err res = None)) results with
    | Some res => Some (builds res)
    | None => allBuilds !! p
    end.
Proof.
  revert allBuilds. induction results as [|res results IH]; intros allBuilds Hne Hnd;
    [done |].
  apply Forall_cons in Hne as [Hres Hne]. rewrite fmap_cons in Hnd.
  apply NoDup_cons in Hnd as [Hfresh Hnd].
  cbn [collect List.find].
  destruct (err res) as [e|] eqn:Herr.
  - rewrite andb_false_r. by apply IH.
  - rewrite bool_decide_true, andb_true_r by done.
    destruct (builds res) as [|b bs] eqn:Hb; [by destruct Hres |].
    unfold len. cbn [length]. destruct (Z.eqb_spec (Z.of_nat (S (length bs))) 0); [lia |].
    rewrite IH by done.
    destruct (Z.eqb_spec (page res) p) as [Heq | Hp].
    + subst p. destruct (List.find _ results) as [res'|] eqn:Hfind.
      * apply List.find_some in Hfind as [Hin Hpage].
        apply andb_true_iff in Hpage as [Hpage _]. apply Z.eqb_eq in Hpage.
        exfalso. apply Hfresh. rewrite <- Hpage.
        apply list_elem_of_fmap_2. by apply list_elem_of_In.
      * rewrite lookup_insert_eq. congruence.
    + destruct (List.find _ results); [done |]. by rewrite lookup_insert_ne.
Qed.

Lemma find_page_Some results p res :
  NoDup (page <$> results) ->
  List.find (fun res => (page res =? p) && bool_decide (err res = None)) results
  = Some res
  <-> res ∈ results /\ page res = p /\ err res = None.
Proof.
  intros Hnd. split.
  - intros Hfind. apply List.find_some in Hfind as [Hin Hp].
    apply andb_true_iff in Hp as [Hp Herr].
    apply Z.eqb_eq in Hp. apply bool_decide_eq_true in Herr.
    by rewrite list_elem_of_In.
  - intros (Hin & Hp & Herr).
    destruct (List.find _ results) as [res'|] eqn:Hfind.
    + apply List.find_some in Hfind as [Hin' Hp'].
      apply andb_true_iff in Hp' as [Hp' _]. apply Z.eqb_eq in Hp'.
      apply list_elem_of_In in Hin'. f_equal.
      apply list_elem_of_lookup in Hin as [i Hi], Hin' as [j Hj].
      assert (i = j) as ->; [| congruence].
      apply (NoDup_lookup _ i j p Hnd); rewrite list_lookup_fmap.
      * by rewrite Hi; cbn; f_equal.
      * by rewrite Hj; cbn; f_equal.
    + exfalso. apply list_elem_of_In in Hin.
      pose proof (List.find_none _ _ Hfind res Hin) as Hno. cbn in Hno.
      apply andb_false_iff in Hno as [Hno | Hno].
      * apply Z.eqb_neq in Hno. done.
      * apply bool_decide_eq_false in Hno. done.
Qed.

Lemma find_page_Permutation results1 results2 p :
  results1 ≡ₚ results2 ->
  NoDup (page <$> results1) ->
  List.find (fun res => (page res =? p) && bool_decide (err res = None)) results1
  = List.find (fun res => (page res =? p) && bool_decide (err res = None)) results2.
Proof.
  intros Hperm Hnd1.
  assert (Hnd2 : NoDup (page <$> results2)) by (by rewrite <- Hperm).
  destruct (List.find _ results1) as [res|] eqn:H1.
  - symmetry. apply find_page_Some; [done |].
    apply find_page_Some in H1; [| done]. by rewrite <- Hperm.
  - destruct (List.find _ results2) as [res|] eqn:H2; [| done].
    apply find_page_Some in H2; [| done]. rewrite <- Hperm in H2.
    apply find_page_Some in H2; [| done]. congruence.
Qed.

(** Without an empty page among the results, the collected map does not
    depend on the order of arrival. *)
Lemma collect_Permutation results1 results2 allBuilds :
  results1 ≡ₚ results2 ->
  Forall (fun res => err res = None -> builds res <> []) results1 ->
  NoDup (page <$> results1) ->
  collect results1 allBuilds = collect results2 allBuilds.
Proof.
  intros Hperm Hne Hnd. apply map_eq. intros p.
  rewrite !collect_without_empty_page; try done.
  - by rewrite (find_page_Permutation _ _ p Hperm Hnd).
  - by rewrite <- Hperm.
  - by rewrite <- Hperm.
Qed.

Lemma mapM_fetchPage up pipeline createdFrom pages w :
  mapM (fetchPage up pipeline createdFrom) pages w
  = ((fun p => pageResultOf p (respond up pipeline createdFrom p)) <$> pages,
     mkWorld (buildkiteCache w) (requestsSent w + len pages)).
Proof.
  revert w. induction pages as [|p pages IH]; intros w.
  - cbn. unfold ret, len. cbn. destruct w as [c n]. cbn. f_equal. f_equal. lia.
  - cbn [mapM]. unfold bind at 1. unfold fetchPage at 1, bind at 1, httpGet at 1.
    unfold ret at 1, bind at 1. rewrite IH. unfold ret. cbn.
    f_equal. f_equal. unfold len. cbn [length]. lia.
Qed.

(** When no page after the first comes back empty, the merged list of
    [fetchBuildsFromPipeline] is the same for every order of arrival. *)
Lemma fetchBuildsFromPipeline_order_independent up1 up2 pipeline createdFrom w :
  respond up1 = respond up2 ->
  fair up1 -> fair up2 ->
  (forall p, respond up1 pipeline createdFrom p <> Ok [] \/ p = 1) ->
  fetchBuildsFromPipeline up1 pipeline createdFrom w
  = fetchBuildsFromPipeline up2 pipeline createdFrom w.
Proof.
  intros Hresp Hfair1 Hfair2 Hnonempty.
  unfold fetchBuildsFromPipeline, bind at 1 3, httpGet. rewrite <- Hresp.
  destruct (respond up1 pipeline createdFrom 1) as [first | e]; [| done].
  destruct (len first <? buildkitePerPage); [done |].
  unfold bind. rewrite !mapM_fetchPage, <- Hresp.
  assert (Hperm : arrival up1 pipeline ≡ₚ arrival up2 pipeline)
    by (by rewrite (Hfair1 pipeline), (Hfair2 pipeline)).
  unfold ret. f_equal.
  - f_equal. f_equal. apply collect_Permutation.
    + by apply fmap_Permutation.
    + apply Forall_fmap, Forall_forall. intros p Hp. cbn.
      destruct (Hnonempty p) as [Hne | ->].
      * destruct (respond up1 pipeline createdFrom p) as [[|b bs] | e]; cbn; done.
      * rewrite (Hfair1 pipeline) in Hp. apply elem_of_seqZ in Hp. lia.
    + rewrite <- list_fmap_compose.
      assert (Hid : (page ∘ (fun p => pageResultOf p (respond up1 pipeline createdFrom p)))
                    <$> arrival up1 pipeline = arrival up1 pipeline).
      { rewrite <- (list_fmap_id (arrival up1 pipeline)) at 2.
        apply list_fmap_ext. intros i p _. cbn.
        by destruct (respond up1 pipeline createdFrom p). }
      rewrite Hid, (Hfair1 pipeline). apply NoDup_seqZ.
  - f_equal. unfold len. by rewrite Hperm.
Qed.

End Pages.

(** ** The single-series handlers of [buildkite.go] against the combined loop *)

Section LegacyHandlers.

Context `{GoLib}.

Lemma record_counts build f k b :
  passedCount (record build f k b)
  = passedCount b + (if isPassed build then 1 else 0)
  /\ failedCount (record build f k b)
     = failedCount b + (if isFailed build then 1 else 0).
Proof.
  unfold record, isPassed, isFailed.
  destruct (String.eqb (State build) "passed");
    destruct (String.eqb (State build) "failed"); cbn; lia.
Qed.

Lemma deploymentFailureRate_step_eq b c build :
  let b' := combined_step weekKey b build in
  deploymentFailureRate_step (passed b, failed b, c) build
  = (passed b', failed b',
     c + (passedCount b' - passedCount b) + (failedCount b' - failedCount b)).
Proof.
  cbv zeta. rewrite combined_step_eq. unfold deploymentFailureRate_step, finishedOf.
  destruct (isDeploymentPipeline build); cbn [negb];
    [| f_equal; lia].
  destruct (parseTime (FinishedAt build)) as [f|].
  - rewrite record_passed, record_failed.
    destruct (record_counts build f (weekKey f) b) as [-> ->].
    generalize (weekKey f). intros week. unfold isPassed, isFailed.
    destruct (String.eqb (State build) "passed") eqn:Hp;
      destruct (String.eqb (State build) "failed") eqn:Hf; cbn [negb andb].
    + apply String.eqb_eq in Hp, Hf. congruence.
    + f_equal; lia.
    + f_equal; lia.
    + f_equal; lia.
  - destruct (negb _ && negb _); f_equal; lia.
Qed.

Lemma deploymentFailureRate_fold builds b c :
  let b' := fold_left (combined_step weekKey) builds b in
  fold_left deploymentFailureRate_step builds (passed b, failed b, c)
  = (passed b', failed b',
     c + (passedCount b' - passedCount b) + (failedCount b' - failedCount b)).
Proof.
  revert b c. induction builds as [|build builds IH]; intros b c; cbv zeta.
  - cbn. f_equal; lia.
  - cbn [fold_left]. rewrite deploymentFailureRate_step_eq, IH.
    f_equal; lia.
Qed.

(** X2. On the same list of builds the weekly failure-rate series of
    [kpiBuildkiteDeploymentFailureRate] is the one of
    [kpiBuildkiteCombinedAll], and its [deployment_builds] is the number of
    passed plus the number of failed builds the combined loop counts. *)
Theorem legacy_failure_rate_is_the_combined_one
    (threeMonthsAgo thirtyDaysAgo : Time) (builds : list BuildkiteBuild) :
  frb_series (deploymentFailureRate_body builds)
  = failure_rates (weekly (combinedAll_body threeMonthsAgo thirtyDaysAgo builds))
  /\ frb_deployment_builds (deploymentFailureRate_body builds)
     = passedCount (combined_loop weekKey builds)
       + failedCount (combined_loop weekKey builds).
Proof.
  rewrite weekly_is_combined_loop. unfold deploymentFailureRate_body.
  pose proof (deploymentFailureRate_fold builds emptyBuckets 0) as Hfold.
  cbv zeta in Hfold. cbn [passed failed passedCount failedCount emptyBuckets] in Hfold.
  rewrite Hfold. fold (combined_loop weekKey builds).
  cbn [frb_series frb_deployment_builds seriesOf failure_rates].
  split; [reflexivity | lia].
Qed.

Lemma deploymentTime_step_eq b c build :
  (forall s f, isPassed build = true -> isDeploymentPipeline build = true ->
               parseTime (StartedAt build) = Some s ->
               parseTime (FinishedAt build) = Some f ->
               unixSec f = unixSec s -> nsec f <> nsec s) ->
  fst (deploymentTime_step (durations b, c) build)
  = durations (combined_step weekKey b build).
Proof.
  intros Hne. rewrite combined_step_eq. unfold deploymentTime_step, finishedOf.
  fold (isPassed build).
  destruct (isPassed build) eqn:Hp; cbn [negb].
  - destruct (isDeploymentPipeline build) eqn:Ht; cbn [negb]; [| done].
    destruct (parseTime (FinishedAt build)) as [f|] eqn:Hf.
    + rewrite record_durations, Hp.
      destruct (parseTime (StartedAt build)) as [s|] eqn:Hs; [| done].
      specialize (Hne s f eq_refl eq_refl eq_refl eq_refl).
      unfold Before, After.
      destruct (Z.ltb_spec (unixSec f) (unixSec s)),
               (Z.ltb_spec (unixSec s) (unixSec f)),
               (Z.eqb_spec (unixSec f) (unixSec s)),
               (Z.ltb_spec (nsec f) (nsec s)),
               (Z.ltb_spec (nsec s) (nsec f)); cbn; try done; lia.
    + by destruct (parseTime (StartedAt build)).
  - destruct (isDeploymentPipeline build); [| done].
    destruct (parseTime (FinishedAt build)) as [f|]; [| done].
    by rewrite record_durations, Hp.
Qed.

Lemma deploymentTime_fold builds b c :
  (forall build s f, build ∈ builds ->
      isPassed build = true -> isDeploymentPipeline build = true ->
      parseTime (StartedAt build) = Some s ->
      parseTime (FinishedAt build) = Some f ->
      unixSec f = unixSec s -> nsec f <> nsec s) ->
  fst (fold_left deploymentTime_step builds (durations b, c))
  = durations (fold_left (combined_step weekKey) builds b).
Proof.
  revert b c. induction builds as [|build builds IH]; intros b c Hne; [done |].
  cbn [fold_left].
  pose proof (deploymentTime_step_eq b c build) as Hstep.
  destruct (deploymentTime_step (durations b, c) build) as [ds c'] eqn:Hd.
  cbn [fst] in Hstep. rewrite Hstep.
  - apply IH. intros build' s f Hin. apply Hne. by right.
  - intros s f. apply Hne. by left.
Qed.

(** X3. When no passed build of the tracked pipeline finishes at the very
    instant it started, the weekly deployment-time series of
    [kpiBuildkiteDeploymentTime] is the one of [kpiBuildkiteCombinedAll] on
    the same builds: the same weeks and the same averages. *)
Theorem legacy_deployment_time_is_the_combined_one
    (threeMonthsAgo thirtyDaysAgo : Time) (builds : list BuildkiteBuild) :
  (forall build s f, build ∈ builds ->
      isPassed build = true -> isDeploymentPipeline build = true ->
      parseTime (StartedAt build) = Some s ->
      parseTime (FinishedAt build) = Some f ->
      unixSec f = unixSec s -> nsec f <> nsec s) ->
  dtb_series (deploymentTime_body builds)
  = deployment_time (weekly (combinedAll_body threeMonthsAgo thirtyDaysAgo builds)).
Proof.
  intros Hne. rewrite weekly_is_combined_loop. unfold deploymentTime_body.
  pose proof (deploymentTime_fold builds emptyBuckets 0 Hne) as Hfold.
  cbn [durations emptyBuckets] in Hfold.
  destruct (fold_left deploymentTime_step builds (∅, 0)) as [ds c].
  cbn [fst] in Hfold. fold (combined_loop weekKey builds) in Hfold. subst ds.
  cbn [dtb_series seriesOf deployment_time]. unfold deploymentTimeOf.
  f_equal. apply map_ext_in. intros w Hw.
  apply list_elem_of_In, sortedKeys_elem, elem_of_dom in Hw.
  rewrite combined_loop_durations in *.
  apply entry_is_Some in Hw. rewrite entry_default.
  by rewrite average_mean.
Qed.

End LegacyHandlers.

(** ** Counters, order of the input and builds that do not count *)

Section Counters.

Context `{GoLib}.

Lemma sumZ_cons (x : Z) (l : list Z) : sumZ (x :: l) = x + sumZ l.
Proof. reflexivity. Qed.

Lemma sumZ_zero {A} (l : list A) : sumZ (map (fun _ => 0) l) = 0.
Proof.
  induction l as [|a l IH]; [done |]. cbn [map]. by rewrite sumZ_cons, IH.
Qed.

Lemma sumZ_add {A} (g h : A -> Z) (l : list A) :
  sumZ (map (fun a => g a + h a) l) = sumZ (map g l) + sumZ (map h l).
Proof.
  induction l as [|a l IH]; [done |]. cbn [map]. rewrite !sumZ_cons, IH. lia.
Qed.

(** Over a list without duplicates, one key is hit at most once. *)
Lemma sumZ_indicator (k : string) (keys : list string) :
  NoDup keys ->
  sumZ (map (fun w => if String.eqb k w then 1 else 0) keys)
  = if bool_decide (k ∈ keys) then 1 else 0.
Proof.
  induction keys as [|w keys IH]; intros Hnd; [done |].
  apply NoDup_cons in Hnd as [Hfresh Hnd]. cbn [map].
  rewrite sumZ_cons, (IH Hnd).
  destruct (String.eqb_spec k w) as [-> | Hne].
  - rewrite (bool_decide_eq_true_2 (w ∈ w :: keys)) by left.
    by rewrite (bool_decide_eq_false_2 (w ∈ keys)).
  - destruct (decide (k ∈ keys)) as [Hin | Hout].
    + rewrite (bool_decide_eq_true_2 _ Hin).
      rewrite (bool_decide_eq_true_2 (k ∈ w :: keys)) by (by right). done.
    + rewrite (bool_decide_eq_false_2 _ Hout).
      rewrite (bool_decide_eq_false_2 (k ∈ w :: keys)); [done |].
      intros Hin. apply elem_of_cons in Hin as [Heq | Hin]; [by apply Hne | by apply Hout].
Qed.

Lemma countIn_cons st key w build builds :
  countIn st key w (build :: builds)
  = (if inBucket st key w build then 1 else 0) + countIn st key w builds.
Proof.
  unfold countIn, len. cbn [List.filter].
  destruct (inBucket st key w build); cbn [length]; lia.
Qed.

Lemma inBucket_counted st key w build :
  inBucket st key w build
  = counted st build
    && match finishedOf build with
       | Some f => String.eqb (key f) w
       | None => false
       end.
Proof.
  unfold inBucket, counted, hasFinish.
  destruct (String.eqb (State build) st), (finishedOf build); cbn; done.
Qed.

(** Summed over a duplicate-free list of keys that holds the key of every
    counted build in state [st], the per-key counts give the number of
    those builds. *)
Lemma sumZ_countIn st key keys builds :
  NoDup keys ->
  (forall b f, b ∈ builds -> counted st b = true -> finishedOf b = Some f ->
               key f ∈ keys) ->
  sumZ (map (fun w => countIn st key w builds) keys)
  = len (List.filter (counted st) builds).
Proof.
  intros Hnd. induction builds as [|build builds IH]; intros Hkeys.
  - unfold countIn. cbn. apply sumZ_zero.
  - rewrite (map_ext _ _ (fun w => countIn_cons st key w build builds)).
    rewrite sumZ_add, IH by (intros b f Hin; apply Hkeys; by right).
    cbn [List.filter]. unfold len.
    rewrite (map_ext _ _ (fun w => f_equal (fun c : bool => if c then 1 else 0)
                                     (inBucket_counted st key w build))).
    destruct (counted st build) eqn:Hc.
    + destruct (finishedOf build) as [f|] eqn:Hf.
      * cbn [andb]. rewrite sumZ_indicator by done.
        rewrite bool_decide_eq_true_2; [cbn [length]; lia |].
        apply (Hkeys build f); [by left | done | done].
      * unfold counted, hasFinish in Hc. rewrite Hf in Hc.
        by rewrite andb_false_r in Hc.
    + cbn [andb]. rewrite sumZ_zero. lia.
Qed.

Lemma combined_step_counts key b build :
  passedCount (combined_step key b build)
  = passedCount b + (if counted "passed" build then 1 else 0)
  /\ failedCount (combined_step key b build)
     = failedCount b + (if counted "failed" build then 1 else 0)
  /\ deploymentCount (combined_step key b build)
     = deploymentCount b + (if hasFinish build then 1 else 0).
Proof.
  rewrite combined_step_eq. unfold counted, hasFinish.
  destruct (finishedOf build) as [f|].
  - destruct (record_counts build f (key f) b) as [-> ->].
    rewrite record_deploymentCount. unfold isPassed, isFailed.
    rewrite !andb_true_r. done.
  - rewrite !andb_false_r. lia.
Qed.

(** The running counters of the combined loop. *)
Lemma combined_loop_counters key builds :
  passedCount (combined_loop key builds) = len (List.filter (counted "passed") builds)
  /\ failedCount (combined_loop key builds) = len (List.filter (counted "failed") builds)
  /\ deploymentCount (combined_loop key builds) = len (List.filter hasFinish builds).
Proof.
  induction builds as [|build builds IH] using rev_ind; [done |].
  rewrite combined_loop_snoc.
  destruct (combined_step_counts key (combined_loop key builds) build)
    as (-> & -> & ->).
  destruct IH as (-> & -> & ->).
  rewrite !List.filter_app. unfold len. rewrite !length_app. cbn [List.filter].
  destruct (counted "passed" build), (counted "failed" build), (hasFinish build);
    cbn [length]; lia.
Qed.

Lemma filter_length_le {A} (P Q : A -> bool) (l : list A) :
  (forall a, P a = true -> Q a = true) ->
  len (List.filter P l) <= len (List.filter Q l).
Proof.
  intros HPQ. unfold len. induction l as [|a l IH]; [done |].
  cbn [List.filter]. specialize (HPQ a).
  destruct (P a), (Q a); cbn [length]; try lia; by specialize (HPQ eq_refl).
Qed.

Lemma filter_length_split {A} (P Q R : A -> bool) (l : list A) :
  (forall a, P a = true -> Q a = true -> False) ->
  (forall a, P a = true -> R a = true) ->
  (forall a, Q a = true -> R a = true) ->
  len (List.filter P l) + len (List.filter Q l) <= len (List.filter R l).
Proof.
  intros Hdis HP HQ. unfold len. induction l as [|a l IH]; [done |].
  cbn [List.filter]. specialize (Hdis a). specialize (HP a). specialize (HQ a).
  destruct (P a), (Q a), (R a); cbn [length]; try lia;
    try (by destruct Hdis); try (by specialize (HP eq_refl));
    by specialize (HQ eq_refl).
Qed.

(** X4. For the weekly and for the daily loop alike, the [passed] series
    adds up to the running counter [passedCount] and the [failed] series to
    [failedCount]; the two counters together never exceed
    [deploymentCount], which never exceeds the number of builds read. *)
Theorem series_add_up_to_the_counters
    (key : Time -> string) (builds : list BuildkiteBuild) :
  let b := combined_loop key builds in
  sumZ (fr_passed (failureRateOf b)) = passedCount b
  /\ sumZ (fr_failed (failureRateOf b)) = failedCount b
  /\ 0 <= passedCount b /\ 0 <= failedCount b
  /\ passedCount b + failedCount b <= deploymentCount b
  /\ deploymentCount b <= len builds.
Proof.
  cbv zeta.
  destruct (combined_loop_counters key builds) as (Hp & Hf & Hd).
  assert (Hkeys : forall st, st = "passed" \/ st = "failed" ->
            forall b f, b ∈ builds -> counted st b = true -> finishedOf b = Some f ->
              key f ∈ fr_keys (failureRateOf (combined_loop key builds))).
  { intros st Hst b f Hin Hc Hfin. apply (terminal_build_key key builds b f Hin Hfin).
    unfold counted in Hc. apply andb_true_iff in Hc as [Hs _].
    unfold isPassed, isFailed. destruct Hst as [-> | ->]; [by left | by right]. }
  split; [| split; [| split; [| split; [| split]]]].
  - rewrite failureRate_passed, Hp.
    apply sumZ_countIn; [apply sortedKeys_NoDup | apply Hkeys; by left].
  - rewrite failureRate_failed, Hf.
    apply sumZ_countIn; [apply sortedKeys_NoDup | apply Hkeys; by right].
  - rewrite Hp. unfold len. lia.
  - rewrite Hf. unfold len. lia.
  - rewrite Hp, Hf, Hd. apply filter_length_split.
    + intros a Ha Hb. unfold counted in *.
      apply andb_true_iff in Ha as [Ha _]. apply andb_true_iff in Hb as [Hb _].
      apply String.eqb_eq in Ha, Hb. congruence.
    + intros a Ha. unfold counted in Ha. by apply andb_true_iff in Ha as [_ Ha].
    + intros a Ha. unfold counted in Ha. by apply andb_true_iff in Ha as [_ Ha].
  - rewrite Hd. unfold len. pose proof (List.filter_length_le hasFinish builds). lia.
Qed.

Lemma filter_twice {A} (P Q : A -> bool) (l : list A) :
  List.filter P (List.filter Q l) = List.filter (fun a => Q a && P a) l.
Proof.
  induction l as [|a l IH]; [done |]. cbn [List.filter].
  destruct (Q a); cbn [List.filter andb]; [| done].
  destruct (P a); by rewrite IH.
Qed.

(** X5. The counts in [meta] of [kpiBuildkiteCombinedAll]:
    [weekly_deployments] is the number of builds of the tracked pipeline
    with a parseable [finished_at], whatever their state;
    [daily_deployments] is the number of those finished after
    [thirtyDaysAgo]; and
    [0 <= daily_deployments <= weekly_deployments <= total_builds]. *)
Theorem meta_counts_of_the_combined_handler
    (threeMonthsAgo thirtyDaysAgo : Time) (builds : list BuildkiteBuild) :
  let m := meta (combinedAll_body threeMonthsAgo thirtyDaysAgo builds) in
  total_builds m = len builds
  /\ weekly_deployments m = len (List.filter hasFinish builds)
  /\ daily_deployments m
     = len (List.filter (fun b => finishedAfter thirtyDaysAgo b && hasFinish b) builds)
  /\ 0 <= daily_deployments m
  /\ daily_deployments m <= weekly_deployments m
  /\ weekly_deployments m <= total_builds m.
Proof.
  cbv zeta. unfold combinedAll_body. rewrite combinedAll_loop_split.
  cbn [meta total_builds weekly_deployments daily_deployments].
  destruct (combined_loop_counters weekKey builds) as (_ & _ & ->).
  destruct (combined_loop_counters dayKey
              (List.filter (finishedAfter thirtyDaysAgo) builds)) as (_ & _ & ->).
  rewrite filter_twice.
  split; [done | split; [done | split; [done | split; [| split]]]].
  - unfold len. lia.
  - apply filter_length_le. intros a Ha. by apply andb_true_iff in Ha as [_ Ha].
  - unfold len. pose proof (List.filter_length_le hasFinish builds). lia.
Qed.

(** *** The order of the builds *)

Lemma countIn_Permutation st key w builds1 builds2 :
  builds1 ≡ₚ builds2 -> countIn st key w builds1 = countIn st key w builds2.
Proof.
  induction 1 as [| b l1 l2 _ IH | b1 b2 l | l1 l2 l3 _ IH1 _ IH2].
  - done.
  - by rewrite !countIn_cons, IH.
  - rewrite !countIn_cons. lia.
  - by rewrite IH1.
Qed.

Lemma filter_Permutation {A} (P : A -> bool) (l1 l2 : list A) :
  l1 ≡ₚ l2 -> List.filter P l1 ≡ₚ List.filter P l2.
Proof.
  induction 1 as [| a l1 l2 _ IH | a1 a2 l | l1 l2 l3 _ IH1 _ IH2].
  - done.
  - cbn [List.filter]. destruct (P a); [by constructor | done].
  - cbn [List.filter]. destruct (P a1), (P a2); try done. apply perm_swap.
  - by etrans.
Qed.

Lemma trackedDurations_Permutation key w builds1 builds2 :
  builds1 ≡ₚ builds2 ->
  trackedDurations key w builds1 ≡ₚ trackedDurations key w builds2.
Proof. intros Hperm. unfold trackedDurations. by rewrite Hperm. Qed.

Lemma combined_loop_Permutation key builds1 builds2 :
  builds1 ≡ₚ builds2 ->
  let b1 := combined_loop key builds1 in
  let b2 := combined_loop key builds2 in
  passed b1 = passed b2 /\ failed b1 = failed b2
  /\ dom (durations b1) = dom (durations b2)
  /\ deploymentCount b1 = deploymentCount b2.
Proof.
  intros Hperm. cbv zeta. split; [| split; [| split]].
  - apply map_eq. intros w. rewrite !combined_loop_passed.
    by rewrite (countIn_Permutation _ _ _ _ _ Hperm).
  - apply map_eq. intros w. rewrite !combined_loop_failed.
    by rewrite (countIn_Permutation _ _ _ _ _ Hperm).
  - apply set_eq. intros w. rewrite !elem_of_dom, !combined_loop_durations.
    rewrite !entry_is_Some.
    pose proof (trackedDurations_Permutation key w _ _ Hperm) as Hd.
    split; intros Hne Hnil; apply Hne.
    + rewrite Hnil in Hd. by apply Permutation_nil_r in Hd.
    + rewrite Hnil in Hd. by apply Permutation_nil_l in Hd.
  - destruct (combined_loop_counters key builds1) as (_ & _ & ->).
    destruct (combined_loop_counters key builds2) as (_ & _ & ->).
    unfold len. f_equal. apply Permutation_length. by apply filter_Permutation.
Qed.

Lemma failureRateOf_ext b1 b2 :
  passed b1 = passed b2 -> failed b1 = failed b2 ->
  failureRateOf b1 = failureRateOf b2.
Proof. intros Hp Hf. unfold failureRateOf. by rewrite Hp, Hf. Qed.

Lemma deploymentTimeOf_ext b1 b2 :
  durations b1 = durations b2 -> deploymentTimeOf b1 = deploymentTimeOf b2.
Proof. intros Hd. unfold deploymentTimeOf. by rewrite Hd. Qed.

(** X6. Reordering the fetched builds changes neither the failure-rate
    series (keys, rates, passed and failed counts), nor the keys of the
    deployment-time series, nor [meta], in the weekly and in the daily
    part of the answer of [kpiBuildkiteCombinedAll]. *)
Theorem counts_ignore_the_order_of_the_builds
    (threeMonthsAgo thirtyDaysAgo : Time) (builds1 builds2 : list BuildkiteBuild) :
  builds1 ≡ₚ builds2 ->
  let r1 := combinedAll_body threeMonthsAgo thirtyDaysAgo builds1 in
  let r2 := combinedAll_body threeMonthsAgo thirtyDaysAgo builds2 in
  failure_rates (weekly r1) = failure_rates (weekly r2)
  /\ failure_rates (daily r1) = failure_rates (daily r2)
  /\ dt_keys (deployment_time (weekly r1)) = dt_keys (deployment_time (weekly r2))
  /\ dt_keys (deployment_time (daily r1)) = dt_keys (deployment_time (daily r2))
  /\ meta r1 = meta r2.
Proof.
  intros Hperm. cbv zeta.
  rewrite !weekly_is_combined_loop, !daily_is_combined_loop.
  pose proof (filter_Permutation (finishedAfter thirtyDaysAgo) _ _ Hperm) as Hrecent.
  destruct (combined_loop_Permutation weekKey _ _ Hperm) as (Hwp & Hwf & Hwd & Hwc).
  destruct (combined_loop_Permutation dayKey _ _ Hrecent) as (Hdp & Hdf & Hdd & Hdc).
  cbn [seriesOf failure_rates deployment_time].
  split; [by apply failureRateOf_ext |].
  split; [by apply failureRateOf_ext |].
  split; [unfold deploymentTimeOf; cbn [dt_keys]; by rewrite Hwd |].
  split; [unfold deploymentTimeOf; cbn [dt_keys]; by rewrite Hdd |].
  unfold combinedAll_body. rewrite !combinedAll_loop_split. cbn [meta].
  rewrite Hwc, Hdc. unfold len. by rewrite (Permutation_length Hperm).
Qed.

(** *** Builds that do not count *)

Lemma filter_implied {A} (P T : A -> bool) (l : list A) :
  (forall a, P a = true -> T a = true) ->
  List.filter P (List.filter T l) = List.filter P l.
Proof.
  intros HPT. induction l as [|a l IH]; [done |]. cbn [List.filter].
  specialize (HPT a).
  destruct (T a) eqn:Ht; cbn [List.filter]; destruct (P a); rewrite ?IH; try done.
  by specialize (HPT eq_refl).
Qed.

Lemma filter_comm {A} (P Q : A -> bool) (l : list A) :
  List.filter P (List.filter Q l) = List.filter Q (List.filter P l).
Proof.
  rewrite !filter_twice. apply List.filter_ext. intros a. apply andb_comm.
Qed.

Lemma trackedDurations_terminal key w builds :
  trackedDurations key w (List.filter terminal builds)
  = trackedDurations key w builds.
Proof.
  unfold trackedDurations. induction builds as [|b builds IH]; [done |].
  cbn [List.filter]. destruct (terminal b) eqn:Ht.
  - cbn [omap list_omap]. by rewrite IH.
  - cbn [omap list_omap]. rewrite IH.
    unfold terminal, hasFinish in Ht.
    destruct (finishedOf b) as [f|]; [| done].
    cbn [andb] in Ht. apply orb_false_iff in Ht as [-> _]. done.
Qed.

Lemma countIn_terminal st key w builds :
  st = "passed" \/ st = "failed" ->
  countIn st key w (List.filter terminal builds) = countIn st key w builds.
Proof.
  intros Hst. unfold countIn. f_equal. apply filter_implied.
  intros b Hb. unfold inBucket in Hb. apply andb_true_iff in Hb as [Hs Hk].
  unfold terminal, hasFinish, isPassed, isFailed.
  destruct (finishedOf b); [| done].
  destruct Hst as [-> | ->]; rewrite Hs; cbn; [done | apply orb_true_r].
Qed.

Lemma seriesOf_terminal key builds :
  seriesOf (combined_loop key (List.filter terminal builds))
  = seriesOf (combined_loop key builds).
Proof.
  unfold seriesOf. f_equal.
  - apply deploymentTimeOf_ext, map_eq. intros w.
    by rewrite !combined_loop_durations, trackedDurations_terminal.
  - apply failureRateOf_ext; apply map_eq; intros w.
    + rewrite !combined_loop_passed, countIn_terminal; [done | by left].
    + rewrite !combined_loop_failed, countIn_terminal; [done | by right].
Qed.

(** X7. Only the passed and the failed builds of the tracked pipeline with
    a parseable [finished_at] reach the series: dropping every other build
    (other pipelines, unparseable finish times, running, canceled or
    scheduled builds) from the list leaves the weekly and the daily series
    of [kpiBuildkiteCombinedAll] as they are. *)
Theorem series_see_only_terminal_builds
    (threeMonthsAgo thirtyDaysAgo : Time) (builds : list BuildkiteBuild) :
  weekly (combinedAll_body threeMonthsAgo thirtyDaysAgo (List.filter terminal builds))
  = weekly (combinedAll_body threeMonthsAgo thirtyDaysAgo builds)
  /\ daily (combinedAll_body threeMonthsAgo thirtyDaysAgo (List.filter terminal builds))
     = daily (combinedAll_body threeMonthsAgo thirtyDaysAgo builds).
Proof.
  rewrite !weekly_is_combined_loop, !daily_is_combined_loop.
  split; [apply seriesOf_terminal |].
  rewrite filter_comm. apply seriesOf_terminal.
Qed.

(** *** The daily series *)

(** X26. The daily part of the answer of [kpiBuildkiteCombinedAll] is built
    like the weekly one, from the builds finished after [thirtyDaysAgo]:
    two series, each over its own sorted, duplicate-free list of days.
    [avg_duration_mins] runs over the days with a valid duration of a
    passed build of the tracked pipeline and holds the mean of those
    durations; [failure_rate], [passed] and [failed] run over the days
    with a passed or failed build and hold failed/(passed+failed)*100 and
    the two counts; every day of the first list is in the second. *)
Theorem daily_series_over_their_own_days
    (threeMonthsAgo thirtyDaysAgo : Time) (builds : list BuildkiteBuild) :
  let recent := List.filter (finishedAfter thirtyDaysAgo) builds in
  let s := daily (combinedAll_body threeMonthsAgo thirtyDaysAgo builds) in
  let dt := deployment_time s in
  let fr := failure_rates s in
  (StronglySorted String.le (dt_keys dt) /\ NoDup (dt_keys dt)
   /\ forall d, d ∈ dt_keys dt <-> trackedDurations dayKey d recent <> [])
  /\ avg_duration_mins dt
     = map (fun d => mean (trackedDurations dayKey d recent)) (dt_keys dt)
  /\ (StronglySorted String.le (fr_keys fr) /\ NoDup (fr_keys fr)
      /\ forall d, d ∈ fr_keys fr
                   <-> 0 < countIn "passed" dayKey d recent
                           + countIn "failed" dayKey d recent)
  /\ failure_rate fr
     = map (fun d => percentFailed (countIn "passed" dayKey d recent)
                                   (countIn "failed" dayKey d recent))
           (fr_keys fr)
  /\ fr_passed fr = map (fun d => countIn "passed" dayKey d recent) (fr_keys fr)
  /\ fr_failed fr = map (fun d => countIn "failed" dayKey d recent) (fr_keys fr)
  /\ dt_keys dt ⊆ fr_keys fr.
Proof.
  cbv zeta. rewrite daily_is_combined_loop. unfold seriesOf.
  cbn [deployment_time failure_rates].
  set (recent := List.filter (finishedAfter thirtyDaysAgo) builds).
  split; [split; [apply sortedKeys_sorted | split;
                  [apply sortedKeys_NoDup | apply deploymentTime_keys]] |].
  split; [apply deploymentTime_avg |].
  split; [split; [apply sortedKeys_sorted | split;
                  [apply sortedKeys_NoDup | apply failureRate_keys]] |].
  split; [apply failureRate_rate |].
  split; [apply failureRate_passed |].
  split; [apply failureRate_failed |].
  intros d Hd. apply deploymentTime_keys in Hd. apply failureRate_keys.
  pose proof (trackedDurations_counted _ _ _ Hd).
  pose proof (countIn_nonneg "failed" dayKey d recent). lia.
Qed.

End Counters.

(** ** What a fetch returns and what it costs *)

Section FetchMore.

Implicit Types (up : Upstream) (w : World).

(** [fetchBuildsFromPipeline] in closed form. *)
Lemma fetchBuildsFromPipeline_eq up pipeline createdFrom w :
  fetchBuildsFromPipeline up pipeline createdFrom w
  = match respond up pipeline createdFrom 1 with
    | Err e => (Err e, mkWorld (buildkiteCache w) (requestsSent w + 1))
    | Ok first =>
        if len first <? buildkitePerPage
        then (Ok first, mkWorld (buildkiteCache w) (requestsSent w + 1))
        else
          (Ok (combinePages
                 (collect ((fun q => pageResultOf q (respond up pipeline createdFrom q))
                           <$> arrival up pipeline)
                          {[1 := first]})
                 buildkiteMaxPages),
           mkWorld (buildkiteCache w)
                   (requestsSent w + 1 + len (arrival up pipeline)))
    end.
Proof.
  unfold fetchBuildsFromPipeline, bind at 1, httpGet.
  destruct (respond up pipeline createdFrom 1) as [first | e]; [| done].
  destruct (len first <? buildkitePerPage); [done |].
  unfold bind. rewrite mapM_fetchPage. reflexivity.
Qed.

(** The builds a fetch returns do not depend on the cache or on the
    requests sent before. *)
Lemma fetchBuildsFromPipeline_result up pipeline createdFrom w w' :
  fst (fetchBuildsFromPipeline up pipeline createdFrom w)
  = fst (fetchBuildsFromPipeline up pipeline createdFrom w').
Proof.
  rewrite !fetchBuildsFromPipeline_eq.
  destruct (respond up pipeline createdFrom 1) as [first | e]; [| done].
  by destruct (len first <? buildkitePerPage).
Qed.

Lemma fair_length up pipeline :
  fair up -> len (arrival up pipeline) = buildkiteMaxPages - 1.
Proof.
  intros Hfair. unfold len. rewrite (Permutation_length (Hfair pipeline)).
  rewrite length_seqZ. unfold buildkiteMaxPages. lia.
Qed.

(** Every stored page is page 1 or the builds of a successful result. *)
Lemma collect_lookup results allBuilds q bs :
  collect results allBuilds !! q = Some bs ->
  allBuilds !! q = Some bs
  \/ exists res, res ∈ results /\ page res = q /\ err res = None /\ builds res = bs.
Proof.
  revert allBuilds. induction results as [|res results IH]; intros allBuilds Hq;
    [by left |].
  cbn [collect] in Hq. destruct (err res) as [e|] eqn:He.
  - destruct (IH _ Hq) as [Hl | (res' & Hin & Hres)]; [by left |].
    right. exists res'. split; [by right | done].
  - destruct (len (builds res) =? 0); [by left |].
    destruct (IH _ Hq) as [Hl | (res' & Hin & Hres)].
    + destruct (decide (page res = q)) as [Heq | Hne].
      * rewrite Heq, lookup_insert_eq in Hl. injection Hl as Hl.
        right. exists res. split; [by left | done].
      * rewrite lookup_insert_ne in Hl by done. by left.
    + right. exists res'. split; [by right | done].
Qed.

(** [collect] never drops a page it holds. *)
Lemma collect_keeps results allBuilds q :
  is_Some (allBuilds !! q) -> is_Some (collect results allBuilds !! q).
Proof.
  revert allBuilds. induction results as [|res results IH]; intros allBuilds Hq;
    [done |].
  cbn [collect]. destruct (err res); [by apply IH |].
  destruct (len (builds res) =? 0); [done |].
  apply IH. destruct (decide (page res = q)) as [<- | Hne].
  - rewrite lookup_insert_eq. by eexists.
  - by rewrite lookup_insert_ne.
Qed.

Lemma flat_map_ext_in {A B} (f g : A -> list B) (l : list A) :
  (forall a, a ∈ l -> f a = g a) -> flat_map f l = flat_map g l.
Proof.
  induction l as [|a l IH]; intros Hfg; [done |]. cbn [flat_map].
  rewrite (Hfg a) by left. f_equal. apply IH. intros b Hb. apply Hfg. by right.
Qed.

(** X8. Whatever the order of arrival, whichever pages fail and wherever an
    empty page turns up, the list [fetchBuildsFromPipeline] returns is a
    selection of the upstream pages 1 to [buildkiteMaxPages] in page order
    that starts with page 1: no build is invented, no page is repeated or
    moved, and the first page is never lost. *)
Theorem merged_list_is_an_ordered_selection_of_pages
    up (pipeline : string) (createdFrom : Time) w (first : list BuildkiteBuild) :
  respond up pipeline createdFrom 1 = Ok first ->
  exists kept : Z -> bool,
    kept 1 = true
    /\ fst (fetchBuildsFromPipeline up pipeline createdFrom w)
       = Ok (flat_map (fun q => if kept q
                                then pageBuilds (respond up pipeline createdFrom q)
                                else [])
                      (seqZ 1 buildkiteMaxPages)).
Proof.
  intros Hfirst. rewrite fetchBuildsFromPipeline_eq, Hfirst.
  destruct (len first <? buildkitePerPage).
  - exists (fun q => q =? 1). split; [done |].
    cbn [fst]. f_equal.
    change (seqZ 1 buildkiteMaxPages) with (1 :: seqZ 2 (buildkiteMaxPages - 1)).
    cbn [flat_map]. change (1 =? 1) with true. cbn iota. rewrite Hfirst. cbn [pageBuilds].
    rewrite <- (app_nil_r first) at 1. f_equal.
  - set (m := collect _ _).
    exists (fun q => bool_decide (is_Some (m !! q))). split.
    + apply bool_decide_eq_true. apply collect_keeps.
      rewrite lookup_singleton_eq. by eexists.
    + cbn [fst]. f_equal. unfold combinePages. apply flat_map_ext_in.
      intros q _. destruct (m !! q) as [bs|] eqn:Hq.
      * rewrite bool_decide_eq_true_2 by (by eexists). cbn [default].
        apply collect_lookup in Hq as [Hq | (res & Hin & Hpage & Herr & Hbs)].
        -- apply lookup_singleton_Some in Hq as [<- <-]. by rewrite Hfirst.
        -- apply list_elem_of_fmap in Hin as (q' & -> & _).
           destruct (respond up pipeline createdFrom q') as [bs' | e] eqn:Hr;
             cbn in Hpage, Herr, Hbs; [| done].
           subst q' bs'. by rewrite Hr.
      * rewrite bool_decide_eq_false_2; [done |]. by intros [? ?].
Qed.

Lemma page_of_result up pipeline createdFrom (pages : list Z) :
  page <$> ((fun q => pageResultOf q (respond up pipeline createdFrom q)) <$> pages)
  = pages.
Proof.
  rewrite <- list_fmap_compose. rewrite <- (list_fmap_id pages) at 2.
  apply list_fmap_ext. intros i q _. cbn.
  by destruct (respond up pipeline createdFrom q).
Qed.

(** X9. When the first page is full, every goroutine delivers and no page
    after the first comes back empty, [fetchBuildsFromPipeline] returns the
    builds of all successful pages 1 to [buildkiteMaxPages] in page order,
    a failed page costing only its own builds, and sends exactly
    [buildkiteMaxPages] requests. *)
Theorem failed_pages_cost_only_their_own_builds
    up (pipeline : string) (createdFrom : Time) w (first : list BuildkiteBuild) :
  fair up ->
  respond up pipeline createdFrom 1 = Ok first ->
  buildkitePerPage <= len first ->
  (forall q, 2 <= q <= buildkiteMaxPages ->
             respond up pipeline createdFrom q <> Ok []) ->
  fetchBuildsFromPipeline up pipeline createdFrom w
  = (Ok (flat_map (fun q => pageBuilds (respond up pipeline createdFrom q))
                  (seqZ 1 buildkiteMaxPages)),
     mkWorld (buildkiteCache w) (requestsSent w + buildkiteMaxPages)).
Proof.
  intros Hfair Hfirst Hfull Hnonempty.
  rewrite fetchBuildsFromPipeline_eq, Hfirst.
  destruct (Z.ltb_spec (len first) buildkitePerPage) as [Hlt | _]; [lia |].
  rewrite (fair_length _ _ Hfair). f_equal; [| f_equal; lia].
  f_equal. unfold combinePages. apply flat_map_ext_in. intros q Hq.
  apply elem_of_seqZ in Hq.
  set (results := (fun q => pageResultOf q (respond up pipeline createdFrom q))
                  <$> arrival up pipeline).
  assert (Hnd : NoDup (page <$> results)).
  { subst results. rewrite page_of_result, (Hfair pipeline). apply NoDup_seqZ. }
  rewrite collect_without_empty_page; [| | done].
  - destruct (decide (q = 1)) as [-> | Hq1].
    + destruct (List.find _ results) as [res|] eqn:Hfind.
      * apply find_page_Some in Hfind as (Hin & Hpage & _); [| done].
        subst results. apply list_elem_of_fmap in Hin as (q' & -> & Hq').
        rewrite (Hfair pipeline) in Hq'. apply elem_of_seqZ in Hq'.
        destruct (respond up pipeline createdFrom q'); cbn in Hpage; lia.
      * rewrite lookup_singleton_eq, Hfirst. done.
    + assert (Hin : q ∈ arrival up pipeline).
      { rewrite (Hfair pipeline). apply elem_of_seqZ. unfold buildkiteMaxPages in *. lia. }
      destruct (respond up pipeline createdFrom q) as [bs | e] eqn:Hr.
      * assert (Hfind : List.find (fun res => (page res =? q)
                                              && bool_decide (err res = None)) results
                        = Some (mkPageResult q bs None)).
        { apply find_page_Some; [done |]. split; [| done].
          subst results. apply list_elem_of_fmap. exists q. by rewrite Hr. }
        by rewrite Hfind.
      * destruct (List.find _ results) as [res|] eqn:Hfind.
        -- apply find_page_Some in Hfind as (Hin' & Hpage & Herr); [| done].
           subst results. apply list_elem_of_fmap in Hin' as (q' & -> & _).
           destruct (respond up pipeline createdFrom q') as [bs' | e'] eqn:Hr';
             cbn in Hpage, Herr; [| done].
           subst q'. congruence.
        -- by rewrite lookup_singleton_ne.
  - subst results. apply Forall_fmap, Forall_forall. intros q' Hq'. cbn.
    rewrite (Hfair pipeline) in Hq'. apply elem_of_seqZ in Hq'.
    specialize (Hnonempty q').
    destruct (respond up pipeline createdFrom q') as [[|b bs] | e]; cbn; try done.
    intros _ _. apply Hnonempty; [unfold buildkiteMaxPages in *; lia | done].
Qed.

(** *** Requests *)


Lemma fetchBuildsParallel_loop_eq up createdFrom ps allBuilds w :
  fst (fetchBuildsParallel_loop up createdFrom ps allBuilds w)
  = allBuilds
    ++ flat_map (fun p => pageBuilds (fst (fetchBuildsFromPipeline up p createdFrom w))) ps.
Proof.
  revert allBuilds w. induction ps as [|p ps IH]; intros allBuilds w.
  - cbn. by rewrite app_nil_r.
  - cbn [fetchBuildsParallel_loop flat_map]. unfold bind at 1.
    destruct (fetchBuildsFromPipeline up p createdFrom w) as [r w'] eqn:Hp.
    assert (Hext : flat_map (fun p => pageBuilds (fst (fetchBuildsFromPipeline up p createdFrom w'))) ps
                   = flat_map (fun p => pageBuilds (fst (fetchBuildsFromPipeline up p createdFrom w))) ps).
    { apply flat_map_ext_in. intros q _.
      by rewrite (fetchBuildsFromPipeline_result up q createdFrom w' w). }
    destruct r as [bs | e]; rewrite IH, Hext; cbn [fst pageBuilds].
    + by rewrite app_assoc.
    + done.
Qed.


(** X10. [fetchBuildsParallel] returns, with a nil error, the builds of the
    configured pipelines one after the other in the order of [pipelines],
    a pipeline whose fetch fails contributing nothing. *)
Theorem parallel_fetch_concatenates_the_pipelines
    up (createdFrom : Time) w :
  fst (fetchBuildsParallel up createdFrom w)
  = Ok (flat_map
          (fun p => pageBuilds (fst (fetchBuildsFromPipeline up p createdFrom w)))
          pipelines).
Proof.
  unfold fetchBuildsParallel, bind.
  pose proof (fetchBuildsParallel_loop_eq up createdFrom pipelines [] w) as Hloop.
  destruct (fetchBuildsParallel_loop up createdFrom pipelines [] w) as [bs w'].
  cbn [fst] in *. unfold ret. cbn [fst]. by rewrite Hloop.
Qed.


(** *** The sequential fetch of [buildkite.go] *)

Lemma len_zero {A} (l : list A) : len l = 0 -> l = [].
Proof. unfold len. destruct l; [done | cbn; lia]. Qed.

(** [fetchBuilds_loop] over the pages [j, j+1, ..., j+n-1]: it stops at the
    page numbered [j+k-1], the first that fails or is short, or at the last
    page. *)
Lemma fetchBuilds_loop_spec up createdFrom (n : nat) :
  forall j allBuilds w,
    (0 < n)%nat ->
    let out := fetchBuilds_loop up createdFrom (seqZ j (Z.of_nat n)) allBuilds w in
    let page q := respond up "core-stack-deployment-pipeline-legacy" createdFrom q in
    exists k,
      1 <= k <= Z.of_nat n
      /\ snd out = mkWorld (buildkiteCache w) (requestsSent w + k)
      /\ (forall q, j <= q < j + k - 1 ->
                    exists bs, page q = Ok bs /\ buildkitePerPage <= len bs)
      /\ match fst out with
         | Err e => page (j + k - 1) = Err e
         | Ok all =>
             all = allBuilds ++ flat_map (fun q => pageBuilds (page q)) (seqZ j k)
             /\ exists bs, page (j + k - 1) = Ok bs
                           /\ (len bs < buildkitePerPage \/ k = Z.of_nat n)
         end.
Proof.
  induction n as [|n IH]; intros j allBuilds w Hn; [lia |]. cbv zeta.
  rewrite seqZ_cons by lia.
  replace (Z.pred (Z.of_nat (S n))) with (Z.of_nat n) by lia.
  cbn [fetchBuilds_loop]. unfold bind, httpGet.
  set (w1 := mkWorld (buildkiteCache w) (requestsSent w + 1)).
  destruct (respond up "core-stack-deployment-pipeline-legacy" createdFrom j)
    as [bs | e] eqn:Hj.
  - destruct (Z.eqb_spec (len bs) 0) as [Hzero | Hnz].
    { exists 1. unfold ret. cbn [fst snd].
      replace (j + 1 - 1) with j by lia.
      split; [lia |]. split; [done |]. split; [intros q Hq; lia |].
      split.
      - rewrite seqZ_cons by lia. cbn [flat_map Z.pred].
        change (seqZ (Z.succ j) (Z.pred 1)) with (@nil Z). cbn [flat_map].
        rewrite Hj. cbn [pageBuilds].
        by rewrite (len_zero _ Hzero), !app_nil_r.
      - exists bs. split; [done |]. left. unfold buildkitePerPage. lia. }
    destruct (Z.ltb_spec (len bs) buildkitePerPage) as [Hshort | Hfull].
    { exists 1. unfold ret. cbn [fst snd].
      replace (j + 1 - 1) with j by lia.
      split; [lia |]. split; [done |]. split; [intros q Hq; lia |].
      split.
      - rewrite seqZ_cons by lia.
        change (seqZ (Z.succ j) (Z.pred 1)) with (@nil Z). cbn [flat_map].
        rewrite Hj. cbn [pageBuilds]. by rewrite app_nil_r.
      - exists bs. split; [done |]. by left. }
    destruct n as [|n].
    { exists 1. cbn [seqZ fetchBuilds_loop]. unfold ret. cbn [fst snd].
      replace (j + 1 - 1) with j by lia.
      split; [lia |]. split; [done |]. split; [intros q Hq; lia |].
      split.
      - rewrite seqZ_cons by lia.
        change (seqZ (Z.succ j) (Z.pred 1)) with (@nil Z). cbn [flat_map].
        rewrite Hj. cbn [pageBuilds]. by rewrite app_nil_r.
      - exists bs. split; [done |]. by right. }
    destruct (IH (Z.succ j) (allBuilds ++ bs) w1 ltac:(lia))
      as (k & Hk & Hw & Hbefore & Hout).
    exists (k + 1). split; [lia |]. split.
    { rewrite Hw. subst w1. cbn [buildkiteCache requestsSent]. f_equal. lia. }
    split.
    { intros q Hq. destruct (decide (q = j)) as [-> | Hne].
      - exists bs. by split.
      - apply Hbefore. lia. }
    replace (j + (k + 1) - 1) with (Z.succ j + k - 1) by lia.
    destruct (fst (fetchBuilds_loop up createdFrom (seqZ (Z.succ j) (Z.of_nat (S n)))
                     (allBuilds ++ bs) w1)) as [all | e].
    + destruct Hout as (-> & bs' & Hlast & Hstop). split.
      * rewrite (seqZ_cons j (k + 1)) by lia.
        replace (Z.pred (k + 1)) with k by lia.
        cbn [flat_map]. rewrite Hj. cbn [pageBuilds]. by rewrite app_assoc.
      * exists bs'. split; [done |]. destruct Hstop as [Hs | ->]; [by left | right; lia].
    + done.
  - exists 1. unfold ret. cbn [fst snd].
    replace (j + 1 - 1) with j by lia.
    split; [lia |]. split; [done |]. split; [intros q Hq; lia | done].
Qed.

(** X12. [fetchBuilds] requests the pages 1, 2, ... of the legacy pipeline
    one after the other and stops at the first page that fails or holds
    fewer than [buildkitePerPage] builds, at the latest at page
    [buildkiteMaxPages]: having sent [k] requests it returns the error of
    page [k] and no build at all, or the builds of the pages 1 to [k] in
    order. *)
Theorem sequential_fetch_stops_at_the_first_short_page
    up (createdFrom : Time) w :
  let page q := respond up "core-stack-deployment-pipeline-legacy" createdFrom q in
  exists k,
    1 <= k <= buildkiteMaxPages
    /\ snd (fetchBuilds up createdFrom w)
       = mkWorld (buildkiteCache w) (requestsSent w + k)
    /\ (forall q, 1 <= q < k ->
                  exists bs, page q = Ok bs /\ buildkitePerPage <= len bs)
    /\ match fst (fetchBuilds up createdFrom w) with
       | Err e => page k = Err e
       | Ok all =>
           all = flat_map (fun q => pageBuilds (page q)) (seqZ 1 k)
           /\ exists bs, page k = Ok bs
                         /\ (len bs < buildkitePerPage \/ k = buildkiteMaxPages)
       end.
Proof.
  cbv zeta. unfold fetchBuilds.
  destruct (fetchBuilds_loop_spec up createdFrom 10 1 [] w ltac:(lia))
    as (k & Hk & Hw & Hbefore & Hout).
  change (Z.of_nat 10) with buildkiteMaxPages in *.
  exists k. split; [done |]. split; [done |]. split.
  - intros q Hq. apply Hbefore. lia.
  - replace (1 + k - 1) with k in Hout by lia.
    destruct (fst (fetchBuilds_loop up createdFrom (seqZ 1 buildkiteMaxPages) [] w));
      done.
Qed.

(** The converse direction: which page stops the loop is decided by the
    pages themselves. *)
Lemma fetchBuilds_error up createdFrom w k e :
  1 <= k <= buildkiteMaxPages ->
  (forall q, 1 <= q < k ->
             exists bs, respond up "core-stack-deployment-pipeline-legacy" createdFrom q
                        = Ok bs /\ buildkitePerPage <= len bs) ->
  respond up "core-stack-deployment-pipeline-legacy" createdFrom k = Err e ->
  fetchBuilds up createdFrom w
  = (Err e, mkWorld (buildkiteCache w) (requestsSent w + k)).
Proof.
  intros Hk Hfull Herr. unfold fetchBuilds.
  destruct (fetchBuilds_loop_spec up createdFrom 10 1 [] w ltac:(lia))
    as (k' & Hk' & Hw & Hbefore & Hout).
  change (Z.of_nat 10) with buildkiteMaxPages in *. cbv zeta in *.
  replace (1 + k' - 1) with k' in Hout by lia.
  assert (Heq : k' = k).
  { destruct (Z.lt_trichotomy k' k) as [Hlt | [Heq | Hgt]]; [| done |].
    - destruct (Hfull k' ltac:(lia)) as (bs & Hbs & Hlen).
      destruct (fst (fetchBuilds_loop up createdFrom (seqZ 1 buildkiteMaxPages) [] w)).
      + destruct Hout as (_ & bs' & Hbs' & [Hshort | Hlast]); [| lia].
        rewrite Hbs in Hbs'. injection Hbs' as <-. lia.
      + congruence.
    - destruct (Hbefore k ltac:(lia)) as (bs & Hbs & _). congruence. }
  subst k'.
  destruct (fetchBuilds_loop up createdFrom (seqZ 1 buildkiteMaxPages) [] w)
    as [[all | e'] w'].
  - cbn [fst] in Hout. destruct Hout as (_ & bs & Hbs & _). congruence.
  - cbn [fst snd] in *. rewrite Herr in Hout. injection Hout as ->. by subst w'.
Qed.

End FetchMore.

(** ** The handlers: configuration, upstream errors and the cache *)

Section HandlerFacts.

Context `{GoLib}.

(** [buildkiteConfig] and [buildkiteConfigMissing] read the same two
    variables and agree on them. *)
Lemma buildkiteConfig_missing env :
  buildkiteConfig env = None <-> buildkiteConfigMissing env <> [].
Proof.
  unfold buildkiteConfig, buildkiteConfigMissing.
  destruct (String.eqb (strings_TrimSpace (BUILDKITE_TOKEN env)) "");
    destruct (String.eqb (strings_TrimSpace (BUILDKITE_ORG env)) ""); cbn;
    split; intros Hm; try done.
Qed.

(** X1. Whenever [buildkiteConfigMissing] names a variable, each of the
    BuildKite handlers answers 503 with exactly that list, sends no
    request and leaves the cache as it is. *)
Theorem missing_variable_answers_503
    (env : Env) (clk : Clock) (now : Time) (up : Upstream) (w : World) :
  buildkiteConfigMissing env <> [] ->
  kpiBuildkiteCombinedAll env clk up w
  = (ServiceUnavailable (buildkiteConfigMissing env), w)
  /\ kpiBuildkiteCombined env now up w
     = (ServiceUnavailable (buildkiteConfigMissing env), w)
  /\ kpiBuildkiteCombinedDaily env now up w
     = (ServiceUnavailable (buildkiteConfigMissing env), w)
  /\ kpiBuildkiteDeploymentTime env now up w
     = (ServiceUnavailable (buildkiteConfigMissing env), w)
  /\ kpiBuildkiteDeploymentFailureRate env now up w
     = (ServiceUnavailable (buildkiteConfigMissing env), w)
  /\ Optimized.kpiBuildkiteCombined env now up w
     = (ServiceUnavailable (buildkiteConfigMissing env), w).
Proof.
  intros Hmissing. apply buildkiteConfig_missing in Hmissing.
  unfold kpiBuildkiteCombinedAll, kpiBuildkiteCombined, kpiBuildkiteCombinedDaily,
    kpiBuildkiteDeploymentTime, kpiBuildkiteDeploymentFailureRate,
    Optimized.kpiBuildkiteCombined.
  rewrite Hmissing. done.
Qed.

(** X13. A configured single-series handler answers 502 as soon as a page
    it requests fails: when the pages before page [k] are full and page
    [k] fails with [e], [kpiBuildkiteDeploymentTime] and
    [kpiBuildkiteDeploymentFailureRate] answer 502 with
    ["Failed to fetch builds: " ++ e] after exactly [k] requests, the
    builds of the earlier pages being thrown away. *)
Theorem single_series_handlers_answer_502
    (env : Env) (now : Time) (up : Upstream) (w : World) (k : Z) (e : string) :
  let threeMonthsAgo := AddDate now 0 (-3) 0 in
  let page q := respond up "core-stack-deployment-pipeline-legacy" threeMonthsAgo q in
  is_Some (buildkiteConfig env) ->
  1 <= k <= buildkiteMaxPages ->
  (forall q, 1 <= q < k -> exists bs, page q = Ok bs /\ buildkitePerPage <= len bs) ->
  page k = Err e ->
  let w' := mkWorld (buildkiteCache w) (requestsSent w + k) in
  kpiBuildkiteDeploymentTime env now up w
  = (BadGateway ("Failed to fetch builds: " +:+ e), w')
  /\ kpiBuildkiteDeploymentFailureRate env now up w
     = (BadGateway ("Failed to fetch builds: " +:+ e), w').
Proof.
  cbv zeta. intros [cfg Hcfg] Hk Hfull Herr.
  unfold kpiBuildkiteDeploymentTime, kpiBuildkiteDeploymentFailureRate.
  rewrite Hcfg. unfold bind.
  rewrite (fetchBuilds_error up _ w k e Hk Hfull Herr). done.
Qed.

(** *** The cache *)

Lemma fetchBuildsParallel_outcome up createdFrom w :
  exists builds n,
    fetchBuildsParallel up createdFrom w
    = (Ok builds, mkWorld (buildkiteCache w) (requestsSent w + n))
    /\ 2 <= n.
Proof.
  unfold fetchBuildsParallel, pipelines, bind. cbn [fetchBuildsParallel_loop].
  unfold bind. rewrite fetchBuildsFromPipeline_eq.
  set (p1 := "core-stack-deployment-pipeline").
  set (p2 := "core-stack-deployment-pipeline-legacy").
  assert (Hone : forall p w0, exists r n,
             fetchBuildsFromPipeline up p createdFrom w0
             = (r, mkWorld (buildkiteCache w0) (requestsSent w0 + n)) /\ 1 <= n).
  { intros p w0. rewrite fetchBuildsFromPipeline_eq.
    destruct (respond up p createdFrom 1) as [first | e].
    - destruct (len first <? buildkitePerPage).
      + by exists (Ok first), 1.
      + eexists _, (1 + len (arrival up p)). split;
          [f_equal; f_equal; lia | unfold len; lia].
    - by exists (Err e), 1. }
  rewrite <- fetchBuildsFromPipeline_eq.
  destruct (Hone p1 w) as (r1 & n1 & -> & Hn1).
  set (w1 := mkWorld _ _).
  assert (Hstep : forall acc, exists builds n,
             (let '(a, w') := fetchBuildsFromPipeline up p2 createdFrom w1 in
              match a with
              | Ok builds => ret (acc ++ builds)
              | Err _ => ret acc
              end w')
             = (builds, mkWorld (buildkiteCache w) (requestsSent w + n)) /\ 2 <= n).
  { intros acc. destruct (Hone p2 w1) as (r2 & n2 & -> & Hn2).
    subst w1. cbn [buildkiteCache requestsSent].
    destruct r2 as [bs | e]; unfold ret.
    - exists (acc ++ bs), (n1 + n2). split; [f_equal; f_equal; lia | lia].
    - exists acc, (n1 + n2). split; [f_equal; f_equal; lia | lia]. }
  destruct r1 as [bs | e].
  - destruct (Hstep ([] ++ bs)) as (builds & n & -> & Hn).
    exists builds, n. by split.
  - destruct (Hstep []) as (builds & n & -> & Hn).
    exists builds, n. by split.
Qed.

(** What a call of [getCachedBuilds] returns and leaves behind. *)
Lemma getCachedBuilds_outcome up nowCheck nowStore createdFrom w :
  exists builds c n,
    getCachedBuilds up nowCheck nowStore createdFrom w
    = (Ok builds, mkWorld (Some c) (requestsSent w + n))
    /\ Builds c = builds
    /\ ((buildkiteCache w = Some c /\ n = 0
         /\ Since nowCheck (FetchedAt c) < buildkiteCacheTTL)
        \/ (FetchedAt c = nowStore /\ 2 <= n /\ cacheMiss nowCheck w
            /\ fst (fetchBuildsParallel up createdFrom w) = Ok builds)).
Proof.
  destruct (fetchBuildsParallel_outcome up createdFrom w) as (builds & n & Hfetch & Hn).
  assert (Hmiss : cacheMiss nowCheck w ->
            exists builds c n,
              getCachedBuilds up nowCheck nowStore createdFrom w
              = (Ok builds, mkWorld (Some c) (requestsSent w + n))
              /\ Builds c = builds
              /\ ((buildkiteCache w = Some c /\ n = 0
                   /\ Since nowCheck (FetchedAt c) < buildkiteCacheTTL)
                  \/ (FetchedAt c = nowStore /\ 2 <= n /\ cacheMiss nowCheck w
                      /\ fst (fetchBuildsParallel up createdFrom w) = Ok builds))).
  { intros Hm. rewrite (getCachedBuilds_miss _ _ _ _ _ Hm), Hfetch.
    exists builds, (mkCacheData builds nowStore), n.
    split; [done |]. split; [done |]. by right. }
  destruct (buildkiteCache w) as [c|] eqn:Hc.
  - destruct (Z.lt_ge_cases (Since nowCheck (FetchedAt c)) buildkiteCacheTTL)
      as [Hfresh | Hstale].
    + rewrite (getCachedBuilds_hit _ _ _ _ _ _ Hc Hfresh).
      exists (Builds c), c, 0. split.
      * destruct w as [c0 r]. cbn in *. subst c0. f_equal. f_equal. lia.
      * split; [done |]. left. done.
    + apply Hmiss. unfold cacheMiss. by rewrite Hc.
  - apply Hmiss. unfold cacheMiss. by rewrite Hc.
Qed.

(** X14. Every call of [getCachedBuilds] succeeds and leaves in the cache
    exactly the list it returns: either the entry it found, younger than
    the TTL and served without a request, or a new entry stamped with the
    current clock reading that holds what [fetchBuildsParallel] returned,
    at the cost of at least two requests. *)
Theorem returned_list_is_the_cached_list
    (up : Upstream) (nowCheck nowStore createdFrom : Time) (w : World) :
  exists builds c n,
    getCachedBuilds up nowCheck nowStore createdFrom w
    = (Ok builds, mkWorld (Some c) (requestsSent w + n))
    /\ Builds c = builds
    /\ ((buildkiteCache w = Some c /\ n = 0
         /\ Since nowCheck (FetchedAt c) < buildkiteCacheTTL)
        \/ (FetchedAt c = nowStore /\ 2 <= n /\ cacheMiss nowCheck w
            /\ fst (fetchBuildsParallel up createdFrom w) = Ok builds)).
Proof. apply getCachedBuilds_outcome. Qed.

Lemma kpiBuildkiteCombinedAll_outcome env clk up w :
  is_Some (buildkiteConfig env) ->
  exists builds c n,
    kpiBuildkiteCombinedAll env clk up w
    = (StatusOK (combinedAll_body (AddDate (nowThreeMonths clk) 0 (-3) 0)
                                  (AddDate (nowThirtyDays clk) 0 0 (-30)) builds),
       mkWorld (Some c) (requestsSent w + n))
    /\ Builds c = builds.
Proof.
  intros [cfg Hcfg]. unfold kpiBuildkiteCombinedAll. rewrite Hcfg. unfold bind.
  destruct (getCachedBuilds_outcome up (nowCheck clk) (nowStore clk)
              (AddDate (nowThreeMonths clk) 0 (-3) 0) w)
    as (builds & c & n & -> & Hbuilds & _).
  by exists builds, c, n.
Qed.

(** X15. Two requests in a row: when the second request of
    [kpiBuildkiteCombinedAll] checks the cache while the entry left by the
    first is younger than the TTL, it answers 200 from the same builds
    whatever the upstream would now return, sends no request, and its
    weekly series are those of the first answer; so are its daily series
    when both requests compute the same [thirtyDaysAgo]. *)
Theorem second_request_repeats_the_first
    (env : Env) (clk1 clk2 : Clock) (up1 up2 : Upstream) (w : World) :
  is_Some (buildkiteConfig env) ->
  let out1 := kpiBuildkiteCombinedAll env clk1 up1 w in
  (forall c, buildkiteCache (snd out1) = Some c ->
             Since (nowCheck clk2) (FetchedAt c) < buildkiteCacheTTL) ->
  exists body1 body2,
    fst out1 = StatusOK body1
    /\ kpiBuildkiteCombinedAll env clk2 up2 (snd out1) = (StatusOK body2, snd out1)
    /\ weekly body2 = weekly body1
    /\ total_builds (meta body2) = total_builds (meta body1)
    /\ weekly_deployments (meta body2) = weekly_deployments (meta body1)
    /\ (AddDate (nowThirtyDays clk2) 0 0 (-30) = AddDate (nowThirtyDays clk1) 0 0 (-30) ->
        daily body2 = daily body1).
Proof.
  intros Hcfg. cbv zeta.
  destruct (kpiBuildkiteCombinedAll_outcome env clk1 up1 w Hcfg)
    as (builds & c & n & -> & Hbuilds).
  cbn [fst snd]. intros Hfresh. specialize (Hfresh c eq_refl).
  destruct Hcfg as [cfg Hcfg].
  unfold kpiBuildkiteCombinedAll. rewrite Hcfg. unfold bind.
  rewrite (getCachedBuilds_hit up2 (nowCheck clk2) (nowStore clk2) _
             (mkWorld (Some c) (requestsSent w + n)) c eq_refl Hfresh).
  rewrite Hbuilds. unfold ret.
  eexists _, _. split; [reflexivity |]. split; [reflexivity |].
  rewrite !weekly_is_combined_loop, !daily_is_combined_loop.
  split; [done |].
  unfold combinedAll_body. rewrite !combinedAll_loop_split.
  cbn [meta total_builds weekly_deployments].
  split; [done |]. split; [done |]. intros ->. done.
Qed.


(** *** The deprecated weekly handler *)

(** X19. On a cache miss, with the same clock reading for the three-month
    window, [kpiBuildkiteCombined] answers with the weekly part of what
    [kpiBuildkiteCombinedAll] answers, its [deployment_builds] being
    [weekly_deployments], and both send the same number of requests. *)
Theorem deprecated_weekly_handler_is_the_weekly_part
    (env : Env) (clk : Clock) (up : Upstream) (w : World) :
  is_Some (buildkiteConfig env) ->
  cacheMiss (nowCheck clk) w ->
  exists body w1 w2,
    kpiBuildkiteCombinedAll env clk up w = (StatusOK body, w1)
    /\ kpiBuildkiteCombined env (nowThreeMonths clk) up w
       = (StatusOK (weekly body, weekly_deployments (meta body)), w2)
    /\ requestsSent w1 = requestsSent w2
    /\ buildkiteCache w2 = buildkiteCache w.
Proof.
  intros [cfg Hcfg] Hmiss.
  unfold kpiBuildkiteCombinedAll, kpiBuildkiteCombined. rewrite Hcfg. unfold bind.
  rewrite (getCachedBuilds_miss _ _ _ _ _ Hmiss).
  destruct (fetchBuildsParallel_outcome up (AddDate (nowThreeMonths clk) 0 (-3) 0) w)
    as (builds & n & -> & _).
  unfold ret. eexists _, _, _. split; [reflexivity |].
  rewrite weekly_is_combined_loop. unfold combinedAll_body.
  rewrite combinedAll_loop_split. cbn [meta weekly_deployments].
  split; [reflexivity |]. split; reflexivity.
Qed.

(** X20. A configured combined handler always answers 200: neither
    [kpiBuildkiteCombinedAll] nor the deprecated [kpiBuildkiteCombined] and
    [kpiBuildkiteCombinedDaily] nor [kpiBuildkiteCombined] of
    [buildkite_optimized.go] can reach their 502 branch, whatever the
    upstream does. *)
Theorem configured_combined_handlers_answer_200
    (env : Env) (clk : Clock) (now : Time) (up : Upstream) (w : World) :
  is_Some (buildkiteConfig env) ->
  (exists body w', kpiBuildkiteCombinedAll env clk up w = (StatusOK body, w'))
  /\ (exists body w', kpiBuildkiteCombined env now up w = (StatusOK body, w'))
  /\ (exists body w', kpiBuildkiteCombinedDaily env now up w = (StatusOK body, w'))
  /\ (exists body w',
        Optimized.kpiBuildkiteCombined env now up w = (StatusOK body, w')).
Proof.
  intros Hcfg. split; [| split; [| split]].
  - destruct (kpiBuildkiteCombinedAll_outcome env clk up w Hcfg)
      as (builds & c & n & -> & _). by eexists _, _.
  - destruct Hcfg as [cfg Hcfg]. unfold kpiBuildkiteCombined. rewrite Hcfg.
    unfold bind.
    destruct (fetchBuildsParallel_outcome up (AddDate now 0 (-3) 0) w)
      as (builds & n & -> & _). by eexists _, _.
  - destruct Hcfg as [cfg Hcfg]. unfold kpiBuildkiteCombinedDaily. rewrite Hcfg.
    unfold bind.
    destruct (fetchBuildsParallel_outcome up (AddDate now 0 0 (-30)) w)
      as (builds & n & -> & _). by eexists _, _.
  - destruct Hcfg as [cfg Hcfg]. unfold Optimized.kpiBuildkiteCombined. rewrite Hcfg.
    unfold bind.
    destruct (fetchBuildsParallel_outcome up (AddDate now 0 (-3) 0) w)
      as (builds & n & -> & _). by eexists _, _.
Qed.

End HandlerFacts.

(** ** Which timestamps share a bucket *)

Section Buckets.

Local Ltac zdiv := Z.div_mod_to_equations; lia.

Lemma compare_same s t : s = t -> String.compare s t = Eq.
Proof. intros ->. apply compare_refl. Qed.

(** The day number from the civil date. *)
Lemma absDays_of_date t :
  absDays t
  = daysBeforeYear (year t) + daysBeforeMonth (isLeap (year t)) (month t)
    + day t - 1.
Proof.
  rewrite year_eq, month_eq, day_eq.
  destruct (absDate_spec (absDays t)) as [Hd Hyd].
  set (y := fst (absDate (absDays t))) in *.
  set (yd := snd (absDate (absDays t))) in *.
  assert (Hrange : 0 <= yd < (if isLeap y then 366 else 365)).
  { unfold daysIn in Hyd. by destruct (isLeap y). }
  destruct (monthDay_range (isLeap y) yd Hrange) as (_ & _ & Hmd). lia.
Qed.

Lemma dayKey_date t u :
  0 <= year t <= 9999 -> 0 <= year u <= 9999 ->
  dayKey t = dayKey u ->
  year t = year u /\ month t = month u /\ day t = day u.
Proof.
  intros Hyt Hyu Hkey. apply compare_same in Hkey.
  pose proof (month_day_range t) as [Hmt Hdt].
  pose proof (month_day_range u) as [Hmu Hdu].
  rewrite !dayKey_zpad in Hkey by lia.
  rewrite compare_append in Hkey by (by rewrite !length_zpad).
  rewrite compare_zpad4 in Hkey by lia.
  destruct (Z.compare_spec (year t) (year u)) as [Hy | Hy | Hy]; try discriminate.
  rewrite (compare_append "-" "-") in Hkey by done.
  rewrite (compare_refl "-") in Hkey.
  rewrite compare_append in Hkey by (by rewrite !length_zpad).
  rewrite compare_zpad2 in Hkey by lia.
  destruct (Z.compare_spec (month t) (month u)) as [Hm | Hm | Hm]; try discriminate.
  rewrite (compare_append "-" "-") in Hkey by done.
  rewrite (compare_refl "-") in Hkey.
  rewrite compare_zpad2 in Hkey by lia.
  destruct (Z.compare_spec (day t) (day u)) as [Hd | Hd | Hd]; try discriminate.
  done.
Qed.

Lemma absDays_dayKey t u : absDays t = absDays u -> dayKey t = dayKey u.
Proof.
  intros Hd. rewrite !dayKey_eq, !year_eq, !month_eq, !day_eq. by rewrite Hd.
Qed.

Lemma week_weekKey t u : absDays t / 7 = absDays u / 7 -> weekKey t = weekKey u.
Proof. intros Hw. unfold weekKey. rewrite !ISOWeek_eq. by rewrite Hw. Qed.

(** X17. For calendar years 0 to 9999, two timestamps get the same
    [dayKey] exactly when they fall on the same civil day, each in its own
    zone; and timestamps with the same [dayKey] have the same [weekKey],
    so every day bucket lies inside one week bucket. *)
Theorem day_bucket_is_the_civil_day (t u : Time) :
  0 <= year t <= 9999 -> 0 <= year u <= 9999 ->
  (dayKey t = dayKey u <-> absDays t = absDays u)
  /\ (dayKey t = dayKey u -> weekKey t = weekKey u).
Proof.
  intros Hyt Hyu.
  assert (Hday : dayKey t = dayKey u -> absDays t = absDays u).
  { intros Hkey. destruct (dayKey_date t u Hyt Hyu Hkey) as (Hy & Hm & Hd).
    rewrite (absDays_of_date t), (absDays_of_date u). by rewrite Hy, Hm, Hd. }
  split; [split; [done | apply absDays_dayKey] |].
  intros Hkey. apply week_weekKey. by rewrite (Hday Hkey).
Qed.

(** X18. For ISO week-years 1000 to 9999, two timestamps get the same
    [weekKey] exactly when they fall in the same Monday-to-Sunday week,
    each in its own zone: the days whose number is a multiple of seven
    are Mondays ([Weekday] 1), so the week of a timestamp is its day
    number divided by seven. *)
Theorem week_bucket_is_the_monday_week (t u : Time) :
  1000 <= fst (ISOWeek t) <= 9999 -> 1000 <= fst (ISOWeek u) <= 9999 ->
  (forall d, absWeekday (7 * (d / 7)) = 1)
  /\ (weekKey t = weekKey u <-> absDays t / 7 = absDays u / 7).
Proof.
  intros Hyt Hyu. split; [intros d; unfold absWeekday; zdiv |].
  split; [| apply week_weekKey].
  intros Hkey. apply compare_same in Hkey.
  pose proof (ISOWeek_range t) as Hwt.
  pose proof (ISOWeek_range u) as Hwu.
  rewrite !weekKey_zpad in Hkey by lia.
  rewrite compare_append in Hkey by (by rewrite !length_zpad).
  rewrite compare_zpad4 in Hkey by lia.
  destruct (Z.compare_spec (fst (ISOWeek t)) (fst (ISOWeek u))) as [Hy | Hy | Hy];
    try discriminate.
  rewrite (compare_append "-W" "-W") in Hkey by done.
  rewrite (compare_refl "-W") in Hkey.
  rewrite compare_zpad2 in Hkey by lia.
  destruct (Z.compare_spec (snd (ISOWeek t)) (snd (ISOWeek u))) as [Hw | Hw | Hw];
    try discriminate.
  clear Hkey Hyt Hyu Hwt Hwu.
  rewrite !ISOWeek_eq in Hy, Hw. cbn [fst snd] in Hy, Hw.
  destruct (absDate_spec (7 * (absDays t / 7) + 3)) as [Ht Hrt].
  destruct (absDate_spec (7 * (absDays u / 7) + 3)) as [Hu Hru].
  set (a := absDays t / 7) in *. set (b := absDays u / 7) in *.
  set (yt := fst (absDate (7 * a + 3))) in *.
  set (ydt := snd (absDate (7 * a + 3))) in *.
  set (yu := fst (absDate (7 * b + 3))) in *.
  set (ydu := snd (absDate (7 * b + 3))) in *.
  clearbody a b yt ydt yu ydu. subst yu.
  assert (Hq : ydt / 7 = ydu / 7) by lia.
  generalize dependent (daysBeforeYear yt). intros base Ht Hu.
  zdiv.
Qed.

End Buckets.

(** ** The weekly handler of [buildkite_optimized.go] *)

Section OptimizedFacts.

Context `{GoLib}.

Lemma StronglySorted_filter {A} (R : A -> A -> Prop) (P : A -> bool) (l : list A) :
  StronglySorted R l -> StronglySorted R (List.filter P l).
Proof.
  induction 1 as [|a l Hl IH Ha]; [constructor |].
  cbn [List.filter]. destruct (P a); [| done].
  constructor; [done |].
  apply Forall_forall. intros x Hx.
  apply list_elem_of_In, List.filter_In in Hx as [Hx _].
  rewrite Forall_forall in Ha. by apply Ha, list_elem_of_In.
Qed.

(** The sorted keys of a subset are the sorted keys of the set, filtered. *)
Lemma sortedKeys_filter (ks sub : gset string) :
  sub ⊆ ks ->
  sortedKeys sub = List.filter (fun w => bool_decide (w ∈ sub)) (sortedKeys ks).
Proof.
  intros Hsub. apply (StronglySorted_unique String.le).
  - apply sortedKeys_sorted.
  - apply StronglySorted_filter, sortedKeys_sorted.
  - apply NoDup_Permutation.
    + apply sortedKeys_NoDup.
    + apply NoDup_ListNoDup, List.NoDup_filter, NoDup_ListNoDup, sortedKeys_NoDup.
    + intros w. rewrite sortedKeys_elem, list_elem_of_In, List.filter_In,
        <- list_elem_of_In, sortedKeys_elem, bool_decide_eq_true.
      split; [intros Hw; split; [by apply Hsub | done] | by intros [_ Hw]].
Qed.

Lemma durations_have_passed key builds :
  dom (durations (combined_loop key builds)) ⊆ dom (passed (combined_loop key builds)).
Proof.
  intros w. rewrite !elem_of_dom, combined_loop_durations, combined_loop_passed.
  rewrite entry_is_Some, tally_is_Some. apply trackedDurations_counted.
Qed.

Lemma optimized_weeks threeMonthsAgo builds :
  Optimized.cb_weeks (Optimized.combined_body threeMonthsAgo builds)
  = fr_keys (failureRateOf (combined_loop weekKey builds)).
Proof.
  unfold Optimized.combined_body, failureRateOf. cbn [Optimized.cb_weeks fr_keys].
  f_equal. pose proof (durations_have_passed weekKey builds) as Hsub.
  apply set_eq. intros w. rewrite !elem_of_union.
  split; [intros [[Hd | Hp] | Hf] | intros [Hp | Hf]]; auto.
Qed.

(** X21. [kpiBuildkiteCombined] of [buildkite_optimized.go] emits all its
    series over one sorted, duplicate-free list [weeks]: the weeks with a
    passed or a failed build of the tracked pipeline.
    [avg_duration_mins] holds for each of them the mean of the valid
    durations of its passed builds, or 0 when there is none;
    [failure_rate], [passed] and [failed] hold failed/(passed+failed)*100
    and the two counts. *)
Theorem optimized_handler_emits_aligned_series
    (threeMonthsAgo : Time) (builds : list BuildkiteBuild) :
  let body := Optimized.combined_body threeMonthsAgo builds in
  let ws := Optimized.cb_weeks body in
  StronglySorted String.le ws /\ NoDup ws
  /\ (forall w, w ∈ ws <-> 0 < countIn "passed" weekKey w builds
                             + countIn "failed" weekKey w builds)
  /\ Optimized.cb_avg_duration_mins body
     = map (fun w => match trackedDurations weekKey w builds with
                     | [] => PrimFloat.zero
                     | ds => mean ds
                     end) ws
  /\ Optimized.cb_failure_rate body
     = map (fun w => percentFailed (countIn "passed" weekKey w builds)
                                   (countIn "failed" weekKey w builds)) ws
  /\ Optimized.cb_passed body = map (fun w => countIn "passed" weekKey w builds) ws
  /\ Optimized.cb_failed body = map (fun w => countIn "failed" weekKey w builds) ws.
Proof.
  cbv zeta. rewrite optimized_weeks.
  split; [apply sortedKeys_sorted |]. split; [apply sortedKeys_NoDup |].
  split; [apply failureRate_keys |].
  assert (Hws : sortedKeys (dom (durations (combined_loop weekKey builds))
                            ∪ dom (passed (combined_loop weekKey builds))
                            ∪ dom (failed (combined_loop weekKey builds)))
                = fr_keys (failureRateOf (combined_loop weekKey builds))).
  { apply (optimized_weeks threeMonthsAgo builds). }
  unfold Optimized.combined_body.
  cbn [Optimized.cb_avg_duration_mins Optimized.cb_failure_rate
       Optimized.cb_passed Optimized.cb_failed].
  rewrite Hws.
  split; [| split; [| split]].
  - apply map_ext. intros w. rewrite combined_loop_durations, entry_default.
    unfold mean, len. by destruct (trackedDurations weekKey w builds).
  - rewrite <- failureRate_rate. reflexivity.
  - rewrite <- failureRate_passed. reflexivity.
  - rewrite <- failureRate_failed. reflexivity.
Qed.

(** X22. The two variants of the weekly series on the same builds: the
    failure-rate series of [kpiBuildkiteCombinedAll] is the one of
    [buildkite_optimized.go], over the same weeks; its deployment-time
    series keeps, of those weeks, the ones that have a valid duration,
    with the same averages, and the older handler reports 0 for the
    others. *)
Theorem later_variant_drops_the_weeks_without_durations
    (threeMonthsAgo thirtyDaysAgo : Time) (builds : list BuildkiteBuild) :
  let old := Optimized.combined_body threeMonthsAgo builds in
  let new := weekly (combinedAll_body threeMonthsAgo thirtyDaysAgo builds) in
  failure_rates new
  = mkFailureRate (Optimized.cb_weeks old) (Optimized.cb_failure_rate old)
                  (Optimized.cb_passed old) (Optimized.cb_failed old)
  /\ dt_keys (deployment_time new)
     = List.filter (fun w => 0 <? len (trackedDurations weekKey w builds))
                   (Optimized.cb_weeks old)
  /\ (forall i w,
        Optimized.cb_weeks old !! i = Some w ->
        Optimized.cb_avg_duration_mins old !! i
        = Some (if 0 <? len (trackedDurations weekKey w builds)
                then mean (trackedDurations weekKey w builds)
                else PrimFloat.zero))
  /\ (forall j w,
        dt_keys (deployment_time new) !! j = Some w ->
        avg_duration_mins (deployment_time new) !! j
        = Some (mean (trackedDurations weekKey w builds))).
Proof.
  cbv zeta. rewrite weekly_is_combined_loop. cbn [seriesOf failure_rates deployment_time].
  assert (Hws : sortedKeys (dom (durations (combined_loop weekKey builds))
                            ∪ dom (passed (combined_loop weekKey builds))
                            ∪ dom (failed (combined_loop weekKey builds)))
                = fr_keys (failureRateOf (combined_loop weekKey builds))).
  { apply (optimized_weeks threeMonthsAgo builds). }
  split; [| split; [| split]].
  - unfold Optimized.combined_body.
    cbn [Optimized.cb_weeks Optimized.cb_failure_rate Optimized.cb_passed
         Optimized.cb_failed].
    rewrite Hws. reflexivity.
  - rewrite optimized_weeks. unfold deploymentTimeOf, failureRateOf. cbn [dt_keys fr_keys].
    rewrite (sortedKeys_filter
               (dom (passed (combined_loop weekKey builds))
                ∪ dom (failed (combined_loop weekKey builds)))
               (dom (durations (combined_loop weekKey builds)))).
    + apply List.filter_ext. intros w.
      pose proof (combined_loop_durations weekKey builds w) as Hd.
      unfold len. destruct (trackedDurations weekKey w builds) as [|d ds]; cbn in *.
      * apply bool_decide_eq_false_2. rewrite elem_of_dom, Hd. by intros [? ?].
      * apply bool_decide_eq_true_2. rewrite elem_of_dom, Hd. by eexists.
    + intros w Hw. apply elem_of_union. left.
      by apply (durations_have_passed weekKey builds).
  - intros i w Hi. unfold Optimized.combined_body in *.
    cbn [Optimized.cb_weeks Optimized.cb_avg_duration_mins] in *.
    rewrite list_lookup_fmap, Hi. cbn [fmap option_fmap option_map].
    f_equal. rewrite combined_loop_durations, entry_default. reflexivity.
  - intros j w Hj. rewrite deploymentTime_avg.
    rewrite list_lookup_fmap, Hj. reflexivity.
Qed.

End OptimizedFacts.

(** ** Reading an issue *)

Section JiraFacts.

Import Jira.

Lemma Split_nonempty s sep : Split s sep <> [].
Proof.
  destruct s as [|c rest]; cbn [Split]; [done |].
  destruct (Ascii.eqb c sep); [done |]. by destruct (Split rest sep).
Qed.

Lemma Split_plain key : plain key = true -> Split key "."%char = [key].
Proof.
  induction key as [|c key IH]; [done |]. cbn [plain Split].
  intros Hp. apply andb_true_iff in Hp as [Hc Hp].
  apply negb_true_iff in Hc. rewrite Hc, (IH Hp). done.
Qed.

Lemma Split_path key rest :
  plain key = true ->
  Split (key +:+ "." +:+ rest) "."%char = key :: Split rest "."%char.
Proof.
  induction key as [|c key IH]; [done |].
  change (String c key +:+ "." +:+ rest) with (String c (key +:+ "." +:+ rest)).
  cbn [plain Split]. intros Hp. apply andb_true_iff in Hp as [Hc Hp].
  apply negb_true_iff in Hc. rewrite Hc, (IH Hp). done.
Qed.

(** X23. Paths compose: for a key without a dot, [getFieldString] on the
    key alone reads the string stored under it, and on [key.rest] it
    descends into the object stored under [key] and reads [rest] there;
    a missing key or a value of another type gives the empty string. *)
Theorem paths_compose (m : gmap string JSON) (key rest : string) :
  plain key = true ->
  getFieldString m key = asString (m !! key)
  /\ getFieldString m (key +:+ "." +:+ rest)
     = match asObject (m !! key) with
       | Some next => getFieldString next rest
       | None => EmptyString
       end.
Proof.
  intros Hp. unfold getFieldString. rewrite (Split_plain key Hp), (Split_path key rest Hp).
  split.
  - cbn [getFieldString_loop]. by destruct (m !! key) as [[]|].
  - cbn [getFieldString_loop].
    pose proof (Split_nonempty rest "."%char) as Hne.
    destruct (Split rest "."%char) as [|p ps]; [done |].
    by destruct (m !! key) as [[]|].
Qed.

Section Scan.

Context `{GoLib} `{GoStrings}.

Lemma names_loop_true to statusNames :
  names_loop to statusNames = true
  <-> exists name, name ∈ statusNames /\ strings_EqualFold to name = true.
Proof.
  induction statusNames as [|name rest IH]; cbn [Jira.names_loop].
  - split; [done | intros (name & Hin & _); by apply elem_of_nil in Hin].
  - destruct (strings_EqualFold to name) eqn:Heq.
    + split; [intros _; exists name; split; [by left | done] | done].
    + rewrite IH. split.
      * intros (n & Hin & Hn). exists n. split; [by right | done].
      * intros (n & Hin & Hn). apply elem_of_cons in Hin as [-> | Hin];
          [congruence | by exists n].
Qed.

Lemma items_loop_true items statusNames :
  items_loop items statusNames = true
  <-> exists item name,
        JObject item ∈ items
        /\ item !! "field" = Some (JString "status")
        /\ name ∈ statusNames
        /\ strings_EqualFold (asString (item !! "toString")) name = true.
Proof.
  induction items as [|it rest IH].
  - split; [done | intros (item & name & Hin & _); by apply elem_of_nil in Hin].
  - assert (Hskip : (forall item, it = JObject item ->
                       item !! "field" = Some (JString "status") ->
                       names_loop (asString (item !! "toString")) statusNames = false) ->
             (items_loop rest statusNames = true
              <-> exists item name,
                    JObject item ∈ it :: rest
                    /\ item !! "field" = Some (JString "status")
                    /\ name ∈ statusNames
                    /\ strings_EqualFold (asString (item !! "toString")) name = true)).
    { intros Hno. rewrite IH. split.
      - intros (item & name & Hin & Hrest). exists item, name. split; [by right | done].
      - intros (item & name & Hin & Hf & Hn & Heq).
        apply elem_of_cons in Hin as [Hit | Hin]; [| by exists item, name].
        specialize (Hno item (eq_sym Hit) Hf).
        assert (Hyes : names_loop (asString (item !! "toString")) statusNames = true)
          by (apply names_loop_true; by exists name).
        congruence. }
    cbn [Jira.items_loop].
    destruct it as [| b | x | s | l | item];
      try (apply Hskip; intros item' Heq; discriminate Heq).
    destruct (item !! "field") as [[| b | x | field | l | o]|] eqn:Hfield;
      try (apply Hskip; intros item' Heq Hf; injection Heq as <-; congruence).
    destruct (String.eqb_spec field "status") as [-> | Hne].
    + destruct (names_loop (asString (item !! "toString")) statusNames) eqn:Hnames.
      * split; [intros _ | done].
        apply names_loop_true in Hnames as (name & Hin & Heq).
        exists item, name. split; [by left | done].
      * apply Hskip. intros item' Heq _. injection Heq as <-. done.
    + apply Hskip. intros item' Heq Hf. injection Heq as <-. congruence.
Qed.

Lemma entered_items hv t statusNames :
  entered statusNames hv t
  <-> exists h, hv = JObject h
                /\ parseTime (asString (h !! "created")) = Some t
                /\ items_loop (asArray (h !! "items")) statusNames = true.
Proof.
  unfold Jira.entered. split.
  - intros (h & item & name & -> & Ht & Hrest). exists h.
    split; [done |]. split; [done |]. apply items_loop_true. by exists item, name.
  - intros (h & -> & Ht & Hitems).
    apply items_loop_true in Hitems as (item & name & Hrest).
    by exists h, item, name.
Qed.

(** The scan returns the time of the first entry, in list order, that
    records a change to one of the names. *)
Lemma histories_loop_first histories statusNames t :
  histories_loop histories statusNames = Some t
  <-> exists (i : nat) hv,
        histories !! i = Some hv
        /\ entered statusNames hv t
        /\ forall (j : nat) hv' t',
             (j < i)%nat -> histories !! j = Some hv' ->
             ~ entered statusNames hv' t'.
Proof.
  revert t. induction histories as [|hv rest IH]; intros t.
  - split; [done | intros (i & hv & Hi & _); by rewrite lookup_nil in Hi].
  - assert (Hskip : (forall t', ~ entered statusNames hv t') ->
             (histories_loop rest statusNames = Some t
              <-> exists (i : nat) hv0,
                    (hv :: rest) !! i = Some hv0
                    /\ entered statusNames hv0 t
                    /\ forall (j : nat) hv' t',
                         (j < i)%nat -> (hv :: rest) !! j = Some hv' ->
                         ~ entered statusNames hv' t')).
    { intros Hno. rewrite IH. split.
      - intros (i & hv0 & Hi & Hent & Hbefore). exists (S i), hv0.
        split; [done |]. split; [done |].
        intros [|j] hv' t' Hj Hlook.
        + cbn in Hlook. injection Hlook as <-. apply Hno.
        + apply (Hbefore j); [lia | done].
      - intros ([|i] & hv0 & Hi & Hent & Hbefore).
        + cbn in Hi. injection Hi as <-. by destruct (Hno t).
        + exists i, hv0. split; [done |]. split; [done |].
          intros j hv' t' Hj Hlook. apply (Hbefore (S j)); [lia | done]. }
    assert (Hhit : forall t0, entered statusNames hv t0 ->
             (Some t0 = Some t
              <-> exists (i : nat) hv0,
                    (hv :: rest) !! i = Some hv0
                    /\ entered statusNames hv0 t
                    /\ forall (j : nat) hv' t',
                         (j < i)%nat -> (hv :: rest) !! j = Some hv' ->
                         ~ entered statusNames hv' t')).
    { intros t0 Hent. split.
      - intros [= <-]. exists 0%nat, hv. split; [done |]. split; [done |].
        intros j hv' t' Hj. lia.
      - intros ([|i] & hv0 & Hi & Hent' & Hbefore).
        + cbn in Hi. injection Hi as <-.
          apply entered_items in Hent as (h & -> & Ht0 & _).
          apply entered_items in Hent' as (h' & [= <-] & Ht & _). congruence.
        + destruct (Hbefore 0%nat hv t0); [lia | done | done]. }
    cbn [Jira.histories_loop].
    destruct hv as [| b | x | s | l | h];
      try (apply Hskip; intros t' Hent;
           apply entered_items in Hent as (h' & Heq & _); discriminate Heq).
    destruct (parseTime (asString (h !! "created"))) as [t0|] eqn:Ht0.
    + destruct (items_loop (asArray (h !! "items")) statusNames) eqn:Hitems.
      * apply Hhit. apply entered_items. by exists h.
      * apply Hskip. intros t' Hent.
        apply entered_items in Hent as (h' & [= <-] & _ & Hyes). congruence.
    + apply Hskip. intros t' Hent.
      apply entered_items in Hent as (h' & [= <-] & Hyes & _). congruence.
Qed.

Lemma statusTransition_histories issue statusNames :
  statusTransitionFromChangelogAny issue statusNames
  = histories_loop (historiesOf issue) statusNames.
Proof.
  unfold statusTransitionFromChangelogAny, historiesOf.
  by destruct (asObject (issue !! "changelog")).
Qed.

(** X24. [statusTransitionFromChangelogAny] returns [t] exactly when [t] is
    the [created] time of the first history entry, in the order of the
    changelog, that has a parseable [created] and an item changing the
    field [status] to a value equal under [strings.EqualFold] to one of
    the names; entries of another shape are skipped, and without a
    [changelog] object or a [histories] array there is no result. *)
Theorem changelog_scan_returns_the_first_transition
    (issue : gmap string JSON) (statusNames : list string) (t : Time) :
  statusTransitionFromChangelogAny issue statusNames = Some t
  <-> exists (i : nat) hv,
        historiesOf issue !! i = Some hv
        /\ entered statusNames hv t
        /\ forall (j : nat) hv' t',
             (j < i)%nat -> historiesOf issue !! j = Some hv' ->
             ~ entered statusNames hv' t'.
Proof. rewrite statusTransition_histories. apply histories_loop_first. Qed.

(** X25. When the changelog lists its entries oldest first, the time
    [statusTransitionFromChangelogAny] returns is the earliest at which
    the issue entered one of the statuses: no entry records such a change
    at an earlier time. *)
Theorem first_transition_is_the_earliest
    (issue : gmap string JSON) (statusNames : list string) (t : Time) :
  oldestFirst (historiesOf issue) ->
  statusTransitionFromChangelogAny issue statusNames = Some t ->
  forall (j : nat) hv' t',
    historiesOf issue !! j = Some hv' ->
    entered statusNames hv' t' ->
    After t t' = false.
Proof.
  intros Hsorted Hscan j hv' t' Hj Hent'.
  rewrite statusTransition_histories in Hscan.
  apply histories_loop_first in Hscan as (i & hv & Hi & Hent & Hbefore).
  destruct (Nat.lt_ge_cases j i) as [Hlt | Hge].
  - by destruct (Hbefore j hv' t' Hlt Hj).
  - apply entered_items in Hent as (h & -> & Ht & _).
    apply entered_items in Hent' as (h' & -> & Ht' & _).
    by apply (Hsorted i j h h' t t').
Qed.

(** A changelog whose [created] times are sorted is oldest first. *)
Lemma sorted_oldestFirst histories :
  StronglySorted (fun t u => After t u = false) (omap createdOf histories) ->
  oldestFirst histories.
Proof.
  induction histories as [|hv rest IH]; intros Hsorted i j hi hj ti tj Hle Hi Hj Hti Htj.
  - by rewrite lookup_nil in Hi.
  - cbn [omap list_omap] in Hsorted.
    assert (Hrest : StronglySorted (fun t u => After t u = false)
                      (omap createdOf rest)).
    { destruct (createdOf hv); [by inversion Hsorted | done]. }
    destruct i as [|i], j as [|j]; [| | lia |].
    + cbn in Hi, Hj. assert (hi = hj) as <- by congruence.
      assert (ti = tj) as <- by congruence.
      unfold After. by rewrite !Z.ltb_irrefl, andb_false_r.
    + cbn in Hi, Hj. injection Hi as ->. cbn [createdOf] in Hsorted.
      rewrite Hti in Hsorted. inversion Hsorted as [|? ? _ Hall]; subst.
      rewrite Forall_forall in Hall. apply Hall.
      apply list_elem_of_omap. exists (JObject hj).
      split; [by apply (list_elem_of_lookup_2 _ j) | done].
    + cbn in Hi, Hj. apply (IH Hrest i j hi hj ti tj); [lia | done..].
Qed.

End Scan.

End JiraFacts.
(** * The handlers on concrete inputs *)

Import RefLib Scenario.

(** C1 (amended). The weekly aggregation emits two series, each aligned
    with its own sorted list of distinct weeks. [avg_duration_mins] runs
    over the weeks that have a valid duration of a passed build of the
    tracked pipeline and holds the mean of those durations;
    [failure_rate], [passed] and [failed] run over the weeks that have a
    passed or a failed build of the tracked pipeline and hold
    failed/(passed+failed)*100 and the two counts. Every week of the first
    list is in the second. For two passed builds of 10 and 20 minutes in
    week 2024-W02 and one failed build in week 2024-W03 the output is
    weeks=[2024-W02], avg_duration_mins=[15] and weeks=[2024-W02, 2024-W03],
    failure_rate=[0, 100], passed=[2, 0], failed=[0, 1]. *)
Theorem weekly_series_over_their_own_weeks :
  (forall (L : GoLib) (threeMonthsAgo thirtyDaysAgo : Time)
          (builds : list BuildkiteBuild),
      let s := weekly (combinedAll_body threeMonthsAgo thirtyDaysAgo builds) in
      let dt := deployment_time s in
      let fr := failure_rates s in
      (StronglySorted String.le (dt_keys dt) /\ NoDup (dt_keys dt)
       /\ forall w, w ∈ dt_keys dt <-> trackedDurations weekKey w builds <> [])
      /\ avg_duration_mins dt
         = map (fun w => mean (trackedDurations weekKey w builds)) (dt_keys dt)
      /\ (StronglySorted String.le (fr_keys fr) /\ NoDup (fr_keys fr)
          /\ forall w, w ∈ fr_keys fr
                       <-> 0 < countIn "passed" weekKey w builds
                               + countIn "failed" weekKey w builds)
      /\ failure_rate fr
         = map (fun w => percentFailed (countIn "passed" weekKey w builds)
                                       (countIn "failed" weekKey w builds))
               (fr_keys fr)
      /\ fr_passed fr = map (fun w => countIn "passed" weekKey w builds) (fr_keys fr)
      /\ fr_failed fr = map (fun w => countIn "failed" weekKey w builds) (fr_keys fr)
      /\ dt_keys dt ⊆ fr_keys fr)
  /\ twoWeeksSeries
     = mkSeries (mkDeploymentTime ["2024-W02"] [15%float])
                (mkFailureRate ["2024-W02"; "2024-W03"] [0%float; 100%float]
                               [2; 0] [0; 1]).
Proof.
  split.
  - intros L threeMonthsAgo thirtyDaysAgo builds.
    apply weekly_series_general.
  - vm_compute. reflexivity.
Qed.

(** On the two-week scenario the duration series has one week and the
    failure-rate series two: the two lists of weeks differ and
    [avg_duration_mins] has no slot for the second week. *)
Lemma scenario_series_have_different_weeks :
  dt_keys (deployment_time twoWeeksSeries) = ["2024-W02"]
  /\ avg_duration_mins (deployment_time twoWeeksSeries) = [15%float]
  /\ fr_keys (failure_rates twoWeeksSeries) = ["2024-W02"; "2024-W03"]
  /\ dt_keys (deployment_time twoWeeksSeries) <> fr_keys (failure_rates twoWeeksSeries)
  /\ avg_duration_mins (deployment_time twoWeeksSeries) <> [15%float; 0%float].
Proof.
  split; [vm_compute; reflexivity |].
  split; [vm_compute; reflexivity |].
  split; [vm_compute; reflexivity |].
  split; vm_compute; intros Heq; discriminate Heq.
Qed.

(** C2 (the handler at a total fetch failure). With a cold cache and an
    upstream on which every page of every pipeline fails,
    [kpiBuildkiteCombinedAll] answers 200 with empty series and stores the
    empty list in the cache; the 502 branch is not taken. *)
Theorem total_fetch_failure_answers_200 :
  kpiBuildkiteCombinedAll env clk allFail cold
  = (StatusOK
       (mkCombinedAllBody
          (mkSeries (mkDeploymentTime [] []) (mkFailureRate [] [] [] []))
          (mkSeries (mkDeploymentTime [] []) (mkFailureRate [] [] [] []))
          (mkMeta 0 0 0 "last 3 months (from 2024-03-15)")),
     mkWorld (Some (mkCacheData [] noon)) 2).
Proof. vm_compute. reflexivity. Qed.

(** The average of the first emitted week of the two-week scenario. *)
Lemma first_week_average_of_the_scenario :
  dt_keys (deployment_time twoWeeksSeries) !! 0%nat = Some "2024-W02"
  /\ (avg_duration_mins (deployment_time twoWeeksSeries) !! 0%nat
      = Some (mean (trackedDurations weekKey "2024-W02" twoWeeks))
      /\ trackedDurations weekKey "2024-W02" twoWeeks <> []).
Proof.
  split; [vm_compute; reflexivity |].
  apply (weekly_average_is_mean_of_tracked_durations
           (AddDate noon 0 (-3) 0) (AddDate noon 0 0 (-30)) twoWeeks 0 "2024-W02").
  vm_compute. reflexivity.
Defined.

(** A week with a 10-minute build of the tracked pipeline and a 30-minute
    build of the other configured pipeline: the emitted average is 10, the
    mean over all passed builds with a valid duration is 20. *)
Lemma other_pipeline_is_left_out_of_the_mean :
  dt_keys (deployment_time twoPipelinesSeries) = ["2024-W02"]
  /\ avg_duration_mins (deployment_time twoPipelinesSeries) = [10%float]
  /\ mean (passedDurations weekKey "2024-W02" twoPipelines) = 20%float
  /\ avg_duration_mins (deployment_time twoPipelinesSeries) !! 0%nat
     <> Some (mean (passedDurations weekKey "2024-W02" twoPipelines)).
Proof.
  split; [vm_compute; reflexivity |].
  split; [vm_compute; reflexivity |].
  split; [vm_compute; reflexivity |].
  vm_compute. intros Heq. discriminate Heq.
Qed.

(** C4 (the collection loop when an empty page arrives early). Page 2 holds
    50 builds and page 3 is empty; when the result of page 3 reaches the
    channel first, the loop is left and the builds of page 2, which arrive
    after it, are not in the merged list: only the 100 builds of page 1 are
    returned, although all ten requests were sent. *)
Theorem page_after_empty_page_is_dropped :
  fair (upstream150 emptyFirst)
  /\ fetchBuildsFromPipeline (upstream150 emptyFirst)
       "core-stack-deployment-pipeline-legacy" noon cold
     = (Ok (pagesOf150 1), mkWorld None 10)
  /\ pagesOf150 2 <> []
  /\ Forall (fun b => b ∉ pagesOf150 1) (pagesOf150 2).
Proof.
  split; [| split; [| split]].
  - intros p. vm_compute. apply perm_swap.
  - vm_compute. reflexivity.
  - discriminate.
  - apply (Forall_forall (fun b => b ∉ pagesOf150 1)).
    intros b Hb Hb1.
    apply (list_elem_of_fmap_2 Number) in Hb, Hb1.
    assert (H2 : Forall (fun n => 101 <= n) (Number <$> pagesOf150 2))
      by (vm_compute; repeat constructor; discriminate).
    assert (H1 : Forall (fun n => n <= 100) (Number <$> pagesOf150 1))
      by (vm_compute; repeat constructor; discriminate).
    rewrite Forall_forall in H1, H2.
    specialize (H1 _ Hb1). specialize (H2 _ Hb). lia.
Qed.

(** C5 (page reassembly under two arrival orders). For the same page
    results, the merged list depends on the order in which the results reach
    the channel: in page order it is pages 1 and 2, the list the sequential
    [fetchBuilds] returns; with the empty page 3 first it is page 1 alone. *)
Theorem merged_list_depends_on_arrival_order :
  fair (upstream150 inOrder)
  /\ fair (upstream150 emptyFirst)
  /\ fst (fetchBuilds (upstream150 inOrder) noon cold)
     = Ok (pagesOf150 1 ++ pagesOf150 2)
  /\ fst (fetchBuildsFromPipeline (upstream150 inOrder)
            "core-stack-deployment-pipeline-legacy" noon cold)
     = Ok (pagesOf150 1 ++ pagesOf150 2)
  /\ fst (fetchBuildsFromPipeline (upstream150 emptyFirst)
            "core-stack-deployment-pipeline-legacy" noon cold)
     = Ok (pagesOf150 1)
  /\ pagesOf150 1 <> pagesOf150 1 ++ pagesOf150 2.
Proof.
  split; [| split; [| split; [| split; [| split]]]].
  - intros p. reflexivity.
  - intros p. vm_compute. apply perm_swap.
  - vm_compute. reflexivity.
  - vm_compute. reflexivity.
  - vm_compute. reflexivity.
  - intros Heq. apply (f_equal length) in Heq. vm_compute in Heq. discriminate.
Qed.

(** One step of the combined loop on a passed build with equal
    timestamps. *)
Lemma instant_build_is_counted_without_duration :
  (isDeploymentPipeline instant = true
   /\ State instant = "passed"
   /\ parseTime (FinishedAt instant) = Some (mkTime 1704708000 0 0))
  /\ passed (fst (combinedAll_step noon (emptyBuckets, emptyBuckets) instant))
     = map_incr "2024-W02" ∅
  /\ durations (fst (combinedAll_step noon (emptyBuckets, emptyBuckets) instant))
     = ∅.
Proof.
  assert (Hdep : isDeploymentPipeline instant = true) by (vm_compute; reflexivity).
  assert (Hst : State instant = "passed") by reflexivity.
  assert (Hfin : parseTime (FinishedAt instant) = Some (mkTime 1704708000 0 0))
    by (vm_compute; reflexivity).
  destruct (passed_build_duration_is_guarded noon (emptyBuckets, emptyBuckets)
              instant (mkTime 1704708000 0 0) Hdep Hst Hfin) as (Hp & Hd & _).
  split; [by repeat split |]. split; [exact Hp | exact Hd].
Defined.

(** A passed build of the other configured pipeline without a start
    timestamp: it has no valid duration and finishes in week 2024-W02, and
    no passed count of that week is emitted. *)
Lemma other_pipeline_build_is_not_counted :
  State stray = "passed"
  /\ parseTime (StartedAt stray) = None
  /\ (weekKey <$> parseTime (FinishedAt stray)) = Some "2024-W02"
  /\ failure_rates (seriesOf (combined_loop weekKey [stray]))
     = mkFailureRate [] [] [] []
  /\ failure_rates
       (weekly (combinedAll_body (AddDate noon 0 (-3) 0) (AddDate noon 0 0 (-30))
                                 [stray]))
     = mkFailureRate [] [] [] [].
Proof.
  split; [reflexivity |]. repeat split; vm_compute; reflexivity.
Qed.

(** The deployment-time handler at equal timestamps: a passed build of the
    tracked pipeline whose [started_at] equals its [finished_at] enters the
    duration statistics of [kpiBuildkiteDeploymentTime] with a duration of 0
    minutes, while the combined loop leaves it out of the durations and
    counts it as passed. *)
Lemma equal_timestamps_enter_deployment_time :
  dtb_series (deploymentTime_body [instant])
  = mkDeploymentTime ["2024-W02"] [PrimFloat.zero]
  /\ seriesOf (combined_loop weekKey [instant])
     = mkSeries (mkDeploymentTime [] [])
                (mkFailureRate ["2024-W02"] [PrimFloat.zero] [1] [0]).
Proof. split; vm_compute; reflexivity. Qed.


(** The keys around the turn of the year 2024/2025. *)
Lemma new_year_keys_are_ordered :
  (offset newYearsEve = offset newYearsDay /\ notAfter newYearsEve newYearsDay
   /\ 0 <= year newYearsEve /\ year newYearsDay <= 9999
   /\ 1000 <= fst (ISOWeek newYearsEve) /\ fst (ISOWeek newYearsDay) <= 9999)
  /\ String.le (dayKey newYearsEve) (dayKey newYearsDay)
  /\ String.le (weekKey newYearsEve) (weekKey newYearsDay).
Proof.
  assert (Hna : notAfter newYearsEve newYearsDay) by (vm_compute; reflexivity).
  assert (Hy0 : 0 <= year newYearsEve) by (vm_compute; discriminate).
  assert (Hy1 : year newYearsDay <= 9999) by (vm_compute; discriminate).
  assert (Hw0 : 1000 <= fst (ISOWeek newYearsEve)) by (vm_compute; discriminate).
  assert (Hw1 : fst (ISOWeek newYearsDay) <= 9999) by (vm_compute; discriminate).
  destruct (bucket_keys_are_chronological newYearsEve newYearsDay eq_refl Hna)
    as [Hday Hweek].
  split; [repeat split; assumption |].
  split; [exact (Hday Hy0 Hy1) | exact (Hweek Hw0 Hw1)].
Defined.

(** Pairs of timestamps in chronological order whose keys are not in
    lexicographic order: a three-digit ISO year, two different zone
    offsets (day and week), and a five-digit year (day and week). *)
Lemma keys_out_of_chronological_order :
  (notAfter year999 year1000
   /\ ~ String.le (weekKey year999) (weekKey year1000))
  /\ (notAfter lineIslands sameDayUTC
      /\ ~ String.le (dayKey lineIslands) (dayKey sameDayUTC))
  /\ (notAfter lineIslandsMonday sundayUTC
      /\ ~ String.le (weekKey lineIslandsMonday) (weekKey sundayUTC))
  /\ (notAfter year9999 year10000
      /\ ~ String.le (dayKey year9999) (dayKey year10000))
  /\ (notAfter year9999 mid10000
      /\ ~ String.le (weekKey year9999) (weekKey mid10000)).
Proof.
  split; [| split; [| split; [| split]]];
    (split; [vm_compute; reflexivity | vm_compute; intros []]).
Qed.

(** A cold cache and an upstream on which every request fails. *)
Lemma failed_fetch_is_cached_as_empty :
  cacheMiss noon cold
  /\ (fetchBuildsParallel allFail (mkTime 1710000000 0 0) cold
      = (Ok [], mkWorld None 2)
      /\ getCachedBuilds allFail noon noon (mkTime 1710000000 0 0) cold
         = (Ok [], mkWorld (Some (mkCacheData [] noon)) 2)
      /\ forall (up' : Upstream) (later nowStore' createdFrom' : Time),
           Since later noon < buildkiteCacheTTL ->
           getCachedBuilds up' later nowStore' createdFrom'
             (mkWorld (Some (mkCacheData [] noon)) 2)
           = (Ok [], mkWorld (Some (mkCacheData [] noon)) 2)).
Proof.
  split; [exact I |].
  apply (all_pipelines_fail_empty_list_is_cached
           allFail noon noon (mkTime 1710000000 0 0) cold).
  - intros p _. exists "BuildKite API returned 500: ". reflexivity.
  - exact I.
Defined.

(** Two calls with different lower bounds against a cache filled one
    minute earlier. *)
Lemma cached_entry_is_reused :
  (buildkiteCache warm = Some (mkCacheData twoWeeks noon)
   /\ Since minuteLater noon < buildkiteCacheTTL)
  /\ getCachedBuilds allFail minuteLater noon (mkTime 1710000000 0 0) warm
     = getCachedBuilds allFail minuteLater noon (mkTime 1717000000 0 0) warm
  /\ getCachedBuilds allFail minuteLater noon (mkTime 1710000000 0 0) warm
     = (Ok twoWeeks, warm).
Proof.
  split.
  - split; [reflexivity | vm_compute; reflexivity].
  - apply (getCachedBuilds_hit_ignores_createdFrom
             allFail minuteLater noon (mkTime 1710000000 0 0)
             (mkTime 1717000000 0 0) warm (mkCacheData twoWeeks noon)).
    + reflexivity.
    + vm_compute; reflexivity.
Defined.

(** ** The further properties on concrete inputs *)

(** A blank token: every handler answers 503 naming [BUILDKITE_TOKEN]. *)
Lemma blank_token_answers_503 :
  buildkiteConfigMissing blankToken <> []
  /\ (kpiBuildkiteCombinedAll blankToken clk allFail cold
      = (ServiceUnavailable (buildkiteConfigMissing blankToken), cold)
      /\ kpiBuildkiteCombined blankToken noon allFail cold
         = (ServiceUnavailable (buildkiteConfigMissing blankToken), cold)
      /\ kpiBuildkiteCombinedDaily blankToken noon allFail cold
         = (ServiceUnavailable (buildkiteConfigMissing blankToken), cold)
      /\ kpiBuildkiteDeploymentTime blankToken noon allFail cold
         = (ServiceUnavailable (buildkiteConfigMissing blankToken), cold)
      /\ kpiBuildkiteDeploymentFailureRate blankToken noon allFail cold
         = (ServiceUnavailable (buildkiteConfigMissing blankToken), cold)
      /\ Optimized.kpiBuildkiteCombined blankToken noon allFail cold
         = (ServiceUnavailable (buildkiteConfigMissing blankToken), cold)).
Proof.
  assert (Hmissing : buildkiteConfigMissing blankToken <> [])
    by (vm_compute; discriminate).
  split; [exact Hmissing |].
  apply (missing_variable_answers_503 blankToken clk noon allFail cold Hmissing).
Defined.

(** The two-week scenario has no build that finishes at the instant it
    started. *)
Lemma two_weeks_deployment_time_agrees :
  (forall build s f, build ∈ twoWeeks ->
      isPassed build = true -> isDeploymentPipeline build = true ->
      parseTime (StartedAt build) = Some s ->
      parseTime (FinishedAt build) = Some f ->
      unixSec f = unixSec s -> nsec f <> nsec s)
  /\ dtb_series (deploymentTime_body twoWeeks)
     = deployment_time
         (weekly (combinedAll_body (AddDate noon 0 (-3) 0) (AddDate noon 0 0 (-30))
                                   twoWeeks)).
Proof.
  assert (Hne : forall build s f, build ∈ twoWeeks ->
      isPassed build = true -> isDeploymentPipeline build = true ->
      parseTime (StartedAt build) = Some s ->
      parseTime (FinishedAt build) = Some f ->
      unixSec f = unixSec s -> nsec f <> nsec s).
  { intros build s f Hin _ _ Hs Hf Heq. unfold twoWeeks in Hin.
    repeat (apply elem_of_cons in Hin as [-> | Hin]);
      [| | | by apply elem_of_nil in Hin];
      vm_compute in Hs; vm_compute in Hf;
      injection Hs as <-; injection Hf as <-;
      vm_compute in Heq; discriminate Heq. }
  split; [exact Hne |].
  apply (legacy_deployment_time_is_the_combined_one
           (AddDate noon 0 (-3) 0) (AddDate noon 0 0 (-30)) twoWeeks Hne).
Defined.

(** The two-week scenario read backwards. *)
Lemma two_weeks_backwards :
  twoWeeks ≡ₚ reverse twoWeeks
  /\ (let r1 := combinedAll_body (AddDate noon 0 (-3) 0) (AddDate noon 0 0 (-30))
                                twoWeeks in
      let r2 := combinedAll_body (AddDate noon 0 (-3) 0) (AddDate noon 0 0 (-30))
                                (reverse twoWeeks) in
      failure_rates (weekly r1) = failure_rates (weekly r2)
      /\ failure_rates (daily r1) = failure_rates (daily r2)
      /\ dt_keys (deployment_time (weekly r1)) = dt_keys (deployment_time (weekly r2))
      /\ dt_keys (deployment_time (daily r1)) = dt_keys (deployment_time (daily r2))
      /\ meta r1 = meta r2).
Proof.
  assert (Hperm : twoWeeks ≡ₚ reverse twoWeeks)
    by (symmetry; apply reverse_Permutation).
  split; [exact Hperm |].
  apply (counts_ignore_the_order_of_the_builds
           (AddDate noon 0 (-3) 0) (AddDate noon 0 0 (-30))
           twoWeeks (reverse twoWeeks) Hperm).
Defined.

(** The pipeline of 150 builds with the empty page arriving first. *)
Lemma selection_of_the_150_builds :
  respond (upstream150 emptyFirst) "core-stack-deployment-pipeline-legacy" noon 1
  = Ok (pagesOf150 1)
  /\ exists kept : Z -> bool,
       kept 1 = true
       /\ fst (fetchBuildsFromPipeline (upstream150 emptyFirst)
                 "core-stack-deployment-pipeline-legacy" noon cold)
          = Ok (flat_map
                  (fun q => if kept q
                            then pageBuilds (respond (upstream150 emptyFirst)
                                   "core-stack-deployment-pipeline-legacy" noon q)
                            else [])
                  (seqZ 1 buildkiteMaxPages)).
Proof.
  split; [reflexivity |].
  apply (merged_list_is_an_ordered_selection_of_pages
           (upstream150 emptyFirst) "core-stack-deployment-pipeline-legacy"
           noon cold (pagesOf150 1)).
  reflexivity.
Defined.

Lemma flaky_is_fair : fair flaky.
Proof. intros p. vm_compute. apply perm_swap. Qed.

Lemma flaky_has_no_empty_page q :
  2 <= q <= buildkiteMaxPages ->
  respond flaky "core-stack-deployment-pipeline-legacy" noon q <> Ok [].
Proof.
  intros _. unfold flaky. cbn [respond].
  destruct (q =? 2); [discriminate |].
  intros Heq. injection Heq as Heq. apply (f_equal length) in Heq.
  unfold numbered in Heq. rewrite length_map, length_seqZ in Heq. discriminate Heq.
Qed.

(** A pipeline whose page 2 fails: the nine other pages are returned. *)
Lemma failed_page_two_is_left_out :
  (fair flaky
   /\ respond flaky "core-stack-deployment-pipeline-legacy" noon 1 = Ok (numbered 1 100)
   /\ buildkitePerPage <= len (numbered 1 100)
   /\ forall q, 2 <= q <= buildkiteMaxPages ->
                respond flaky "core-stack-deployment-pipeline-legacy" noon q <> Ok [])
  /\ fetchBuildsFromPipeline flaky "core-stack-deployment-pipeline-legacy" noon cold
     = (Ok (flat_map (fun q => pageBuilds (respond flaky
                                 "core-stack-deployment-pipeline-legacy" noon q))
                     (seqZ 1 buildkiteMaxPages)),
        mkWorld (buildkiteCache cold) (requestsSent cold + buildkiteMaxPages)).
Proof.
  assert (Hfull : buildkitePerPage <= len (numbered 1 100))
    by (vm_compute; discriminate).
  split.
  - split; [exact flaky_is_fair |]. split; [reflexivity |].
    split; [exact Hfull | exact flaky_has_no_empty_page].
  - apply (failed_pages_cost_only_their_own_builds
             flaky "core-stack-deployment-pipeline-legacy" noon cold (numbered 1 100)
             flaky_is_fair eq_refl Hfull flaky_has_no_empty_page).
Defined.


(** The single-series handlers against the pipeline whose page 2 fails. *)
Lemma failed_page_two_answers_502 :
  (is_Some (buildkiteConfig env)
   /\ 1 <= 2 <= buildkiteMaxPages
   /\ (forall q, 1 <= q < 2 ->
         exists bs,
           respond flaky "core-stack-deployment-pipeline-legacy"
                   (AddDate noon 0 (-3) 0) q = Ok bs
           /\ buildkitePerPage <= len bs)
   /\ respond flaky "core-stack-deployment-pipeline-legacy" (AddDate noon 0 (-3) 0) 2
      = Err "BuildKite API returned 500: ")
  /\ (kpiBuildkiteDeploymentTime env noon flaky cold
      = (BadGateway ("Failed to fetch builds: " +:+ "BuildKite API returned 500: "),
         mkWorld (buildkiteCache cold) (requestsSent cold + 2))
      /\ kpiBuildkiteDeploymentFailureRate env noon flaky cold
         = (BadGateway ("Failed to fetch builds: " +:+ "BuildKite API returned 500: "),
            mkWorld (buildkiteCache cold) (requestsSent cold + 2))).
Proof.
  assert (Hcfg : is_Some (buildkiteConfig env))
    by (eexists; vm_compute; reflexivity).
  assert (Hk : 1 <= 2 <= buildkiteMaxPages) by (unfold buildkiteMaxPages; lia).
  assert (Hfull : forall q, 1 <= q < 2 ->
            exists bs,
              respond flaky "core-stack-deployment-pipeline-legacy"
                      (AddDate noon 0 (-3) 0) q = Ok bs
              /\ buildkitePerPage <= len bs).
  { intros q Hq. assert (q = 1) as -> by lia.
    exists (numbered 1 100). split; [reflexivity | vm_compute; discriminate]. }
  split; [repeat split; [exact Hcfg | lia | unfold buildkiteMaxPages; lia | exact Hfull] |].
  apply (single_series_handlers_answer_502 env noon flaky cold 2
           "BuildKite API returned 500: " Hcfg Hk Hfull eq_refl).
Defined.

(** Two requests at the same clock reading against a cold cache. *)
Lemma second_request_at_noon :
  (is_Some (buildkiteConfig env)
   /\ forall c, buildkiteCache (snd (kpiBuildkiteCombinedAll env clk allFail cold))
                = Some c ->
                Since (nowCheck clk) (FetchedAt c) < buildkiteCacheTTL)
  /\ exists body1 body2,
       fst (kpiBuildkiteCombinedAll env clk allFail cold) = StatusOK body1
       /\ kpiBuildkiteCombinedAll env clk (upstream150 inOrder)
            (snd (kpiBuildkiteCombinedAll env clk allFail cold))
          = (StatusOK body2, snd (kpiBuildkiteCombinedAll env clk allFail cold))
       /\ weekly body2 = weekly body1
       /\ total_builds (meta body2) = total_builds (meta body1)
       /\ weekly_deployments (meta body2) = weekly_deployments (meta body1)
       /\ (AddDate (nowThirtyDays clk) 0 0 (-30) = AddDate (nowThirtyDays clk) 0 0 (-30) ->
           daily body2 = daily body1).
Proof.
  assert (Hcfg : is_Some (buildkiteConfig env))
    by (eexists; vm_compute; reflexivity).
  assert (Hfresh : forall c,
            buildkiteCache (snd (kpiBuildkiteCombinedAll env clk allFail cold)) = Some c ->
            Since (nowCheck clk) (FetchedAt c) < buildkiteCacheTTL).
  { intros c Hc. vm_compute in Hc. injection Hc as <-. vm_compute. reflexivity. }
  split; [split; [exact Hcfg | exact Hfresh] |].
  apply (second_request_repeats_the_first env clk clk allFail (upstream150 inOrder)
           cold Hcfg Hfresh).
Defined.


(** Half past midnight on the Line Islands and eleven in the morning UTC
    of the day before: two civil days and two day keys. *)
Lemma line_islands_day_bucket :
  (0 <= year lineIslands <= 9999 /\ 0 <= year sameDayUTC <= 9999)
  /\ (dayKey lineIslands = dayKey sameDayUTC
      <-> absDays lineIslands = absDays sameDayUTC)
  /\ (dayKey lineIslands = dayKey sameDayUTC
      -> weekKey lineIslands = weekKey sameDayUTC).
Proof.
  assert (Ht : 0 <= year lineIslands <= 9999) by (vm_compute; split; discriminate).
  assert (Hu : 0 <= year sameDayUTC <= 9999) by (vm_compute; split; discriminate).
  split; [split; [exact Ht | exact Hu] |].
  apply (day_bucket_is_the_civil_day lineIslands sameDayUTC Ht Hu).
Defined.

(** The last hour of 2024 and the first of 2025 lie in the same week. *)
Lemma new_year_week_bucket :
  (1000 <= fst (ISOWeek newYearsEve) <= 9999
   /\ 1000 <= fst (ISOWeek newYearsDay) <= 9999)
  /\ (forall d, absWeekday (7 * (d / 7)) = 1)
  /\ (weekKey newYearsEve = weekKey newYearsDay
      <-> absDays newYearsEve / 7 = absDays newYearsDay / 7).
Proof.
  assert (Ht : 1000 <= fst (ISOWeek newYearsEve) <= 9999)
    by (vm_compute; split; discriminate).
  assert (Hu : 1000 <= fst (ISOWeek newYearsDay) <= 9999)
    by (vm_compute; split; discriminate).
  split; [split; [exact Ht | exact Hu] |].
  apply (week_bucket_is_the_monday_week newYearsEve newYearsDay Ht Hu).
Defined.

(** A cold cache: the deprecated weekly handler and the combined one. *)
Lemma cold_cache_weekly_handlers :
  (is_Some (buildkiteConfig env) /\ cacheMiss (nowCheck clk) cold)
  /\ exists body w1 w2,
       kpiBuildkiteCombinedAll env clk (upstream150 inOrder) cold = (StatusOK body, w1)
       /\ kpiBuildkiteCombined env (nowThreeMonths clk) (upstream150 inOrder) cold
          = (StatusOK (weekly body, weekly_deployments (meta body)), w2)
       /\ requestsSent w1 = requestsSent w2
       /\ buildkiteCache w2 = buildkiteCache cold.
Proof.
  assert (Hcfg : is_Some (buildkiteConfig env))
    by (eexists; vm_compute; reflexivity).
  split; [split; [exact Hcfg | exact I] |].
  apply (deprecated_weekly_handler_is_the_weekly_part env clk (upstream150 inOrder)
           cold Hcfg I).
Defined.

(** The configured environment against an upstream that always fails. *)
Lemma failing_upstream_answers_200 :
  is_Some (buildkiteConfig env)
  /\ ((exists body w', kpiBuildkiteCombinedAll env clk allFail cold = (StatusOK body, w'))
      /\ (exists body w', kpiBuildkiteCombined env noon allFail cold = (StatusOK body, w'))
      /\ (exists body w',
            kpiBuildkiteCombinedDaily env noon allFail cold = (StatusOK body, w'))
      /\ (exists body w',
            Optimized.kpiBuildkiteCombined env noon allFail cold
            = (StatusOK body, w'))).
Proof.
  assert (Hcfg : is_Some (buildkiteConfig env))
    by (eexists; vm_compute; reflexivity).
  split; [exact Hcfg |].
  apply (configured_combined_handlers_answer_200 env clk noon allFail cold Hcfg).
Defined.

(** The summary of the epic, read along the path [fields.summary]. *)
Lemma summary_of_the_epic :
  Jira.plain "fields" = true
  /\ (Jira.getFieldString epic "fields" = Jira.asString (epic !! "fields")
      /\ Jira.getFieldString epic ("fields" +:+ "." +:+ "summary")
         = match Jira.asObject (epic !! "fields") with
           | Some next => Jira.getFieldString next "summary"
           | None => EmptyString
           end).
Proof.
  split; [reflexivity |].
  apply (paths_compose epic "fields" "summary"). reflexivity.
Defined.

Lemma epic_is_oldest_first : Jira.oldestFirst (Jira.historiesOf epic).
Proof.
  apply sorted_oldestFirst.
  assert (Htimes : omap Jira.createdOf (Jira.historiesOf epic)
                   = [Date 2024 1 8 10 0 0 0 0; Date 2024 1 9 10 0 0 0 0;
                      Date 2024 1 15 10 0 0 0 0])
    by (vm_compute; reflexivity).
  rewrite Htimes.
  repeat match goal with
         | |- StronglySorted _ _ => constructor
         | |- Forall _ _ => constructor
         end; vm_compute; reflexivity.
Qed.

(** The epic entered "In Progress" on 2024-01-09 at 10:00 UTC. *)
Lemma epic_went_in_progress :
  (Jira.oldestFirst (Jira.historiesOf epic)
   /\ Jira.statusTransitionFromChangelogAny epic ["In Progress"; "In progress"]
      = Some (Date 2024 1 9 10 0 0 0 0))
  /\ forall (j : nat) hv' t',
       Jira.historiesOf epic !! j = Some hv' ->
       Jira.entered ["In Progress"; "In progress"] hv' t' ->
       After (Date 2024 1 9 10 0 0 0 0) t' = false.
Proof.
  assert (Hscan : Jira.statusTransitionFromChangelogAny epic
                    ["In Progress"; "In progress"]
                  = Some (Date 2024 1 9 10 0 0 0 0))
    by (vm_compute; reflexivity).
  split; [split; [exact epic_is_oldest_first | exact Hscan] |].
  apply (first_transition_is_the_earliest epic ["In Progress"; "In progress"]
           (Date 2024 1 9 10 0 0 0 0) epic_is_oldest_first Hscan).
Defined.
